(** * Extraterm [Terminal.ts]: application mode, frame rules and scrollback

    A shallow embedding of the shell-integration part of
    [src/main/src/terminal/Terminal.ts]: the application-mode handlers
    ([#handleApplicationModeStart], [#handleApplicationModeData],
    [#handleApplicationModeEnd]), the frame decision
    ([#commandNeedsFrame]), the closing of a command's output
    ([#closeLastEmbeddedViewer]), the scrollback cap
    ([#enforceScrollbackLinesSize]) and frame replay
    ([#handleRequestFrame], [#handleTermData]).

    JavaScript strings are sequences of code units; here they are [string]s,
    whose characters stand for the code units 0..255. *)

From Stdlib Require Import ZArith Ascii String Bool Lia.
From stdpp Require Import base option list strings functions.

Local Open Scope string_scope.
Local Open Scope list_scope.
Local Open Scope Z_scope.

(** ** JavaScript string primitives used by the terminal *)

Module JsString.

(** White space and line terminators of ECMAScript that fit in one byte:
    TAB, LF, VT, FF, CR, SP and NBSP. [String.prototype.trim], the [\s]
    class and [parseInt] all use this set. *)
Definition isWhiteSpace (c : ascii) : bool :=
  existsb (Nat.eqb (nat_of_ascii c)) [9; 10; 11; 12; 13; 32; 160]%nat.

Fixpoint trimStart (s : string) : string :=
  match s with
  | EmptyString => EmptyString
  | String c r => if isWhiteSpace c then trimStart r else s
  end.

Fixpoint trimEnd (s : string) : string :=
  match s with
  | EmptyString => EmptyString
  | String c r =>
      let r' := trimEnd r in
      if isWhiteSpace c && String.eqb r' "" then "" else String c r'
  end.

(** [s.trim()] *)
Definition trim (s : string) : string := trimEnd (trimStart s).

(** [s.indexOf(c)] for a one-character search string: the index of the
    first occurrence, or -1. *)
Fixpoint indexOf (c : ascii) (s : string) : Z :=
  match s with
  | EmptyString => -1
  | String d r =>
      if Ascii.eqb d c then 0
      else let i := indexOf c r in if i =? -1 then -1 else i + 1
  end.

Fixpoint dropChars (n : nat) (s : string) : string :=
  match n, s with
  | O, _ => s
  | S n', EmptyString => EmptyString
  | S n', String _ r => dropChars n' r
  end.

(** [s.slice(start)]: a negative [start] counts from the end. *)
Definition slice (s : string) (start : Z) : string :=
  let len := Z.of_nat (String.length s) in
  let from := if start <? 0 then Z.max (len + start) 0 else Z.min start len in
  dropChars (Z.to_nat from) s.

(** [s.substring(start)]: [start] is clamped to [0, length]. *)
Definition substring (s : string) (start : Z) : string :=
  let len := Z.of_nat (String.length s) in
  dropChars (Z.to_nat (Z.min (Z.max start 0) len)) s.

(** [s.split(/\s+/)]: the pieces between maximal runs of white space.
    [inGap] says that the previous character belonged to a separator. *)
Fixpoint splitWs (inGap : bool) (s : string) : list string :=
  match s with
  | EmptyString => [""]
  | String c r =>
      if isWhiteSpace c then
        if inGap then splitWs true r else "" :: splitWs true r
      else
        match splitWs false r with
        | p :: ps => String c p :: ps
        | [] => [String c ""]
        end
  end.

Definition splitWhitespace (s : string) : list string := splitWs false s.

(** [s.split(" ")[0]]: the text before the first space. *)
Fixpoint firstSpaceSeparated (s : string) : string :=
  match s with
  | EmptyString => EmptyString
  | String c r => if Ascii.eqb c " " then "" else String c (firstSpaceSeparated r)
  end.

(** A JavaScript number as far as the terminal uses one for an exit
    code: an integer that a double represents, an infinity, or NaN. The
    two zeros are one value here: [===] does not tell them apart. *)
Inductive Number := Num (z : Z) | Infinity (negative : bool) | NaN.

(** The Number value of an integer: the nearest double, a tie going to the
    even one of the two significands of 53 bits, and an infinity from
    2^1024 on. *)
Definition toNumber (z : Z) : Number :=
  let a := Z.abs z in
  if a <? 2 ^ 53 then Num z
  else
    let k := Z.log2 a - 52 in
    let q := Z.shiftr a k in
    let r := a - Z.shiftl q k in
    let half := 2 ^ (k - 1) in
    let q' := if (half <? r) || ((r =? half) && Z.odd q) then q + 1 else q in
    let m := Z.shiftl q' k in
    if 2 ^ 1024 <=? m then Infinity (z <? 0) else Num (Z.sgn z * m).

Definition isDigit (c : ascii) : bool :=
  let n := nat_of_ascii c in (48 <=? n)%nat && (n <=? 57)%nat.

Fixpoint digits (s : string) (acc : option Z) : option Z :=
  match s with
  | EmptyString => acc
  | String c r =>
      if isDigit c then
        digits r (Some (10 * default 0 acc + Z.of_nat (nat_of_ascii c - 48)))
      else acc
  end.

(** [Number.parseInt(s, 10)]: leading white space is skipped, one sign is
    accepted, then the longest run of decimal digits is read and its
    integer turned into a Number; no digit gives NaN. *)
Definition parseInt (s : string) : Number :=
  let t := trimStart s in
  let '(sign, body) :=
    match t with
    | String "-" r => (-1, r)
    | String "+" r => (1, r)
    | _ => (1, t)
    end in
  match digits body None with
  | Some v => toNumber (sign * v)
  | None => NaN
  end.

End JsString.

Import JsString.


(** ** Configuration read by the terminal ([Config.ts], owned elsewhere) *)

Inductive FrameRule := always_frame | never_frame | frame_if_lines.

Inductive MatchType := matchType_name | matchType_regexp.

Record CommandLineAction := {
  cla_match : string;
  cla_matchType : MatchType;
  cla_frameRule : FrameRule;
  cla_frameRuleLines : Z;
}.

Record GeneralConfig := {
  frameRule : FrameRule;
  frameRuleLines : Z;
  scrollbackMaxLines : Z;
  scrollbackMaxFrames : Z;
}.

Record ConfigDatabase := {
  getCommandLineActionConfig : option (list CommandLineAction);
  getGeneralConfig : GeneralConfig;
}.

(** ** Results of a call *)

Inductive Exception := TypeError | SyntaxError.

Inductive Completion (A : Type) :=
| Normal (a : A)
| Throw (e : Exception).
Arguments Normal {A} a.
Arguments Throw {A} e.

Inductive ApplicationModeResponseAction := ABORT | CONTINUE.

Record ApplicationModeResponse := {
  action : ApplicationModeResponseAction;
  remainingData : option string;
}.

Definition respond (a : ApplicationModeResponseAction) : ApplicationModeResponse :=
  {| action := a; remainingData := None |}.

Inductive ApplicationMode :=
| APPLICATION_MODE_NONE
| APPLICATION_MODE_OUTPUT_BRACKET_START
| APPLICATION_MODE_OUTPUT_BRACKET_END
| APPLICATION_MODE_REQUEST_FRAME
| APPLICATION_MODE_SHOW_FILE.

(** The numeric value of the [const enum]. *)
Definition modeCode (m : ApplicationMode) : string :=
  match m with
  | APPLICATION_MODE_NONE => "0"
  | APPLICATION_MODE_OUTPUT_BRACKET_START => "2"
  | APPLICATION_MODE_OUTPUT_BRACKET_END => "3"
  | APPLICATION_MODE_REQUEST_FRAME => "4"
  | APPLICATION_MODE_SHOW_FILE => "5"
  end.

(** ** Objects the terminal holds references to

    Frames, blocks and uploaders are JavaScript objects that several
    fields can point at ([#blockFrames], [#lastCommandTerminalViewer], the
    closure of an input filter). They live in stores indexed by a
    reference; a [new] takes the next free reference. *)

Record Store (A : Type) := {
  cells : nat -> A;
  next : nat;
}.
Arguments cells {A} s r.
Arguments next {A} s.

Definition alloc {A} (a : A) (s : Store A) : nat * Store A :=
  (next s, {| cells := <[next s := a]> (cells s); next := S (next s) |}).

Definition update {A} (r : nat) (f : A -> A) (s : Store A) : Store A :=
  {| cells := alter f r (cells s); next := next s |}.

(** A row of cells that left the emulator's screen. *)
Definition Line := string.

(** Modelled from the spec: [TerminalBlock.ts] is not among the sources.
    A terminal block owns the rows moved out of the grid (its scrollback),
    may be bound to the emulator, and carries the command line and exit
    code of the command whose output it retains. *)
Record TerminalBlock := {
  scrollback : list Line;
  boundToEmulator : bool;
  commandLine : option string;
  returnCode : option Number;
}.

Inductive Block :=
| BlockTerminal (tb : TerminalBlock)
| BlockExtension (blockName : string).

Inductive BlockPosture := RUNNING | SUCCESS | FAILURE | NEUTRAL.

Record BlockMetadata := {
  title : option string;
  posture : BlockPosture;
  icon : string;
  moveable : bool;
  deleteable : bool;
}.

Inductive FrameClass := DecoratedFrame | SpacerFrame.

Record BlockFrame := {
  frameClass : FrameClass;
  getTag : option Z;
  getBlock : option nat;
  defaultMetadata : option BlockMetadata;
}.

(** A bulk file as [Terminal.ts] reads it, and its payload. Modelled from
    the spec: the payload is what a frame replay writes back to the pty;
    [BulkFile.ts] is not among the sources. *)
Record BulkFile := {
  getMetadata : list (string * string);
  getTotalSize : Z;
  getPayload : string;
}.

Inductive UploadState := UploadCreated | Uploading | UploadAborted | UploadFinished.

(** Modelled from the spec: [BulkFileUploader.ts] is not among the
    sources. An uploader is created for one bulk file and the pty of that
    moment; [upload] starts the transfer and [abort] cancels it. *)
Record BulkFileUploader := {
  uploadFile : BulkFile;
  uploadHasPty : bool;
  uploadState : UploadState;
}.

Record UploadProgressBar := {
  progressFilename : option string;
  progressTotal : Z;
  progressTransferred : Z;
  progressShown : bool;
}.

(** The pty collaborator, seen through the texts written to it. *)
Record Pty := {
  written : list string;
}.

Inductive EnvKey :=
| TERM_ROWS | TERM_COLUMNS | TERM_TITLE
| EXTRATERM_CURRENT_COMMAND_LINE | EXTRATERM_CURRENT_COMMAND
| EXTRATERM_EXIT_CODE
| EXTRATERM_LAST_COMMAND_LINE | EXTRATERM_LAST_COMMAND
| EXTRATERM_TERMINAL_HEIGHT_PIXELS | EXTRATERM_TERMINAL_WIDTH_PIXELS.

#[global] Instance EnvKey_eq_dec : EqDecision EnvKey.
Proof. solve_decision. Defined.

(** What [#computeTerminalSize] returns when a visual configuration is
    set. The numbers come from font metrics and widget geometry. *)
Record TerminalSize := {
  rows : Z;
  columns : Z;
  cellHeightPx : Z;
}.

Record Dimensions := {
  cursorX : Z;
  cursorY : Z;
}.

(** ** Collaborators behind an interface

    The emulator ([Term.Emulator]) and the download handler
    ([DownloadApplicationModeHandler]) are not among the sources: each is
    a state of its own with the operations [Terminal.ts] calls. What they
    call back is an event of its own below, run when it is delivered and
    not inside the call that causes it: the rows that the emulator moves
    out of the grid reach the bound block, and through it the subscriber
    of [#createTerminalBlock], as [appendScrollbackLines]; the bulk file
    that a download has received reaches the terminal as
    [handleShowFile], which is registered on [onCreatedBulkFile] at lines
    948-951. *)

Class Emulator (E : Type) := {
  getDimensions : E -> Dimensions;
  getCursorRow : E -> Z;
  getLineText : E -> Z -> string;
  newLine : E -> E;
  carriageReturn : E -> E;
  moveRowsAboveCursorToScrollback : E -> E;
  flushRenderQueue : E -> E;
}.

(** [new RegExp(pattern).test(text)]: the regular-expression engine of the
    runtime. [None] stands for a pattern the constructor rejects with a
    SyntaxError. *)
Class RegExpEngine := regexpTest : string -> string -> option bool.

Class DownloadApplicationModeHandler (D : Type) := {
  handleStart : list string -> D -> ApplicationModeResponse * D;
  handleData : string -> D -> ApplicationModeResponse * D;
  handleStop : D -> ApplicationModeResponse * D;
}.

(** Modelled from the spec: the default code that an exit code which
    failed to parse falls back to. [TerminalBlock.ts], where the code of a
    block is recorded, is not among the sources, and the spec does not say
    which code the default is. *)
Class ReturnCodeDefault := defaultReturnCode : Z.

(** ** The fields of [class Terminal] *)

Record Terminal {E D : Type} := {
  configDatabase : option ConfigDatabase;
  frameFinder : option (option string -> option BulkFile);
  uploadProgressBar : option UploadProgressBar;
  pty : option Pty;
  inputStreamFilters : list nat;
  emulator : E;
  cookie : string;
  blockFrames : list nat;
  applicationModeData : option string;
  downloadHandler : D;
  applicationMode : ApplicationMode;
  bracketStyle : option string;
  lastCommandLine : option string;
  lastCommandTerminalRow : Z;
  lastCommandTerminalViewer : option nat;
  environment : EnvKey -> option string;
  nextTag : Z;
  computeTerminalSize : option TerminalSize;
  frames : Store BlockFrame;
  blocks : Store Block;
  uploaders : Store BulkFileUploader;
}.
Arguments Terminal : clear implicits.

Section TerminalModel.

Context {E D : Type} `{Emulator E} `{DownloadApplicationModeHandler D} `{RegExpEngine}
  {defaultCode : ReturnCodeDefault}.

Abbreviation Terminal := (Terminal E D).

Definition set_uploadProgressBar (v : option UploadProgressBar) (t : Terminal) : Terminal :=
  {| configDatabase := configDatabase t; frameFinder := frameFinder t;
     uploadProgressBar := v; pty := pty t;
     inputStreamFilters := inputStreamFilters t; emulator := emulator t;
     cookie := cookie t; blockFrames := blockFrames t;
     applicationModeData := applicationModeData t;
     downloadHandler := downloadHandler t;
     applicationMode := applicationMode t; bracketStyle := bracketStyle t;
     lastCommandLine := lastCommandLine t;
     lastCommandTerminalRow := lastCommandTerminalRow t;
     lastCommandTerminalViewer := lastCommandTerminalViewer t;
     environment := environment t; nextTag := nextTag t;
     computeTerminalSize := computeTerminalSize t; frames := frames t;
     blocks := blocks t; uploaders := uploaders t |}.

Definition set_pty (v : option Pty) (t : Terminal) : Terminal :=
  {| configDatabase := configDatabase t; frameFinder := frameFinder t;
     uploadProgressBar := uploadProgressBar t; pty := v;
     inputStreamFilters := inputStreamFilters t; emulator := emulator t;
     cookie := cookie t; blockFrames := blockFrames t;
     applicationModeData := applicationModeData t;
     downloadHandler := downloadHandler t;
     applicationMode := applicationMode t; bracketStyle := bracketStyle t;
     lastCommandLine := lastCommandLine t;
     lastCommandTerminalRow := lastCommandTerminalRow t;
     lastCommandTerminalViewer := lastCommandTerminalViewer t;
     environment := environment t; nextTag := nextTag t;
     computeTerminalSize := computeTerminalSize t; frames := frames t;
     blocks := blocks t; uploaders := uploaders t |}.

Definition set_inputStreamFilters (v : list nat) (t : Terminal) : Terminal :=
  {| configDatabase := configDatabase t; frameFinder := frameFinder t;
     uploadProgressBar := uploadProgressBar t; pty := pty t;
     inputStreamFilters := v; emulator := emulator t; cookie := cookie t;
     blockFrames := blockFrames t;
     applicationModeData := applicationModeData t;
     downloadHandler := downloadHandler t;
     applicationMode := applicationMode t; bracketStyle := bracketStyle t;
     lastCommandLine := lastCommandLine t;
     lastCommandTerminalRow := lastCommandTerminalRow t;
     lastCommandTerminalViewer := lastCommandTerminalViewer t;
     environment := environment t; nextTag := nextTag t;
     computeTerminalSize := computeTerminalSize t; frames := frames t;
     blocks := blocks t; uploaders := uploaders t |}.

Definition set_emulator (v : E) (t : Terminal) : Terminal :=
  {| configDatabase := configDatabase t; frameFinder := frameFinder t;
     uploadProgressBar := uploadProgressBar t; pty := pty t;
     inputStreamFilters := inputStreamFilters t; emulator := v;
     cookie := cookie t; blockFrames := blockFrames t;
     applicationModeData := applicationModeData t;
     downloadHandler := downloadHandler t;
     applicationMode := applicationMode t; bracketStyle := bracketStyle t;
     lastCommandLine := lastCommandLine t;
     lastCommandTerminalRow := lastCommandTerminalRow t;
     lastCommandTerminalViewer := lastCommandTerminalViewer t;
     environment := environment t; nextTag := nextTag t;
     computeTerminalSize := computeTerminalSize t; frames := frames t;
     blocks := blocks t; uploaders := uploaders t |}.

Definition set_blockFrames (v : list nat) (t : Terminal) : Terminal :=
  {| configDatabase := configDatabase t; frameFinder := frameFinder t;
     uploadProgressBar := uploadProgressBar t; pty := pty t;
     inputStreamFilters := inputStreamFilters t; emulator := emulator t;
     cookie := cookie t; blockFrames := v;
     applicationModeData := applicationModeData t;
     downloadHandler := downloadHandler t;
     applicationMode := applicationMode t; bracketStyle := bracketStyle t;
     lastCommandLine := lastCommandLine t;
     lastCommandTerminalRow := lastCommandTerminalRow t;
     lastCommandTerminalViewer := lastCommandTerminalViewer t;
     environment := environment t; nextTag := nextTag t;
     computeTerminalSize := computeTerminalSize t; frames := frames t;
     blocks := blocks t; uploaders := uploaders t |}.

Definition set_applicationModeData (v : option string) (t : Terminal) : Terminal :=
  {| configDatabase := configDatabase t; frameFinder := frameFinder t;
     uploadProgressBar := uploadProgressBar t; pty := pty t;
     inputStreamFilters := inputStreamFilters t; emulator := emulator t;
     cookie := cookie t; blockFrames := blockFrames t;
     applicationModeData := v; downloadHandler := downloadHandler t;
     applicationMode := applicationMode t; bracketStyle := bracketStyle t;
     lastCommandLine := lastCommandLine t;
     lastCommandTerminalRow := lastCommandTerminalRow t;
     lastCommandTerminalViewer := lastCommandTerminalViewer t;
     environment := environment t; nextTag := nextTag t;
     computeTerminalSize := computeTerminalSize t; frames := frames t;
     blocks := blocks t; uploaders := uploaders t |}.

Definition set_downloadHandler (v : D) (t : Terminal) : Terminal :=
  {| configDatabase := configDatabase t; frameFinder := frameFinder t;
     uploadProgressBar := uploadProgressBar t; pty := pty t;
     inputStreamFilters := inputStreamFilters t; emulator := emulator t;
     cookie := cookie t; blockFrames := blockFrames t;
     applicationModeData := applicationModeData t; downloadHandler := v;
     applicationMode := applicationMode t; bracketStyle := bracketStyle t;
     lastCommandLine := lastCommandLine t;
     lastCommandTerminalRow := lastCommandTerminalRow t;
     lastCommandTerminalViewer := lastCommandTerminalViewer t;
     environment := environment t; nextTag := nextTag t;
     computeTerminalSize := computeTerminalSize t; frames := frames t;
     blocks := blocks t; uploaders := uploaders t |}.

Definition set_applicationMode (v : ApplicationMode) (t : Terminal) : Terminal :=
  {| configDatabase := configDatabase t; frameFinder := frameFinder t;
     uploadProgressBar := uploadProgressBar t; pty := pty t;
     inputStreamFilters := inputStreamFilters t; emulator := emulator t;
     cookie := cookie t; blockFrames := blockFrames t;
     applicationModeData := applicationModeData t;
     downloadHandler := downloadHandler t; applicationMode := v;
     bracketStyle := bracketStyle t; lastCommandLine := lastCommandLine t;
     lastCommandTerminalRow := lastCommandTerminalRow t;
     lastCommandTerminalViewer := lastCommandTerminalViewer t;
     environment := environment t; nextTag := nextTag t;
     computeTerminalSize := computeTerminalSize t; frames := frames t;
     blocks := blocks t; uploaders := uploaders t |}.

Definition set_bracketStyle (v : option string) (t : Terminal) : Terminal :=
  {| configDatabase := configDatabase t; frameFinder := frameFinder t;
     uploadProgressBar := uploadProgressBar t; pty := pty t;
     inputStreamFilters := inputStreamFilters t; emulator := emulator t;
     cookie := cookie t; blockFrames := blockFrames t;
     applicationModeData := applicationModeData t;
     downloadHandler := downloadHandler t;
     applicationMode := applicationMode t; bracketStyle := v;
     lastCommandLine := lastCommandLine t;
     lastCommandTerminalRow := lastCommandTerminalRow t;
     lastCommandTerminalViewer := lastCommandTerminalViewer t;
     environment := environment t; nextTag := nextTag t;
     computeTerminalSize := computeTerminalSize t; frames := frames t;
     blocks := blocks t; uploaders := uploaders t |}.

Definition set_lastCommandLine (v : option string) (t : Terminal) : Terminal :=
  {| configDatabase := configDatabase t; frameFinder := frameFinder t;
     uploadProgressBar := uploadProgressBar t; pty := pty t;
     inputStreamFilters := inputStreamFilters t; emulator := emulator t;
     cookie := cookie t; blockFrames := blockFrames t;
     applicationModeData := applicationModeData t;
     downloadHandler := downloadHandler t;
     applicationMode := applicationMode t; bracketStyle := bracketStyle t;
     lastCommandLine := v;
     lastCommandTerminalRow := lastCommandTerminalRow t;
     lastCommandTerminalViewer := lastCommandTerminalViewer t;
     environment := environment t; nextTag := nextTag t;
     computeTerminalSize := computeTerminalSize t; frames := frames t;
     blocks := blocks t; uploaders := uploaders t |}.

Definition set_lastCommandTerminalRow (v : Z) (t : Terminal) : Terminal :=
  {| configDatabase := configDatabase t; frameFinder := frameFinder t;
     uploadProgressBar := uploadProgressBar t; pty := pty t;
     inputStreamFilters := inputStreamFilters t; emulator := emulator t;
     cookie := cookie t; blockFrames := blockFrames t;
     applicationModeData := applicationModeData t;
     downloadHandler := downloadHandler t;
     applicationMode := applicationMode t; bracketStyle := bracketStyle t;
     lastCommandLine := lastCommandLine t; lastCommandTerminalRow := v;
     lastCommandTerminalViewer := lastCommandTerminalViewer t;
     environment := environment t; nextTag := nextTag t;
     computeTerminalSize := computeTerminalSize t; frames := frames t;
     blocks := blocks t; uploaders := uploaders t |}.

Definition set_lastCommandTerminalViewer (v : option nat) (t : Terminal) : Terminal :=
  {| configDatabase := configDatabase t; frameFinder := frameFinder t;
     uploadProgressBar := uploadProgressBar t; pty := pty t;
     inputStreamFilters := inputStreamFilters t; emulator := emulator t;
     cookie := cookie t; blockFrames := blockFrames t;
     applicationModeData := applicationModeData t;
     downloadHandler := downloadHandler t;
     applicationMode := applicationMode t; bracketStyle := bracketStyle t;
     lastCommandLine := lastCommandLine t;
     lastCommandTerminalRow := lastCommandTerminalRow t;
     lastCommandTerminalViewer := v; environment := environment t;
     nextTag := nextTag t; computeTerminalSize := computeTerminalSize t;
     frames := frames t; blocks := blocks t; uploaders := uploaders t |}.

Definition set_environment (v : EnvKey -> option string) (t : Terminal) : Terminal :=
  {| configDatabase := configDatabase t; frameFinder := frameFinder t;
     uploadProgressBar := uploadProgressBar t; pty := pty t;
     inputStreamFilters := inputStreamFilters t; emulator := emulator t;
     cookie := cookie t; blockFrames := blockFrames t;
     applicationModeData := applicationModeData t;
     downloadHandler := downloadHandler t;
     applicationMode := applicationMode t; bracketStyle := bracketStyle t;
     lastCommandLine := lastCommandLine t;
     lastCommandTerminalRow := lastCommandTerminalRow t;
     lastCommandTerminalViewer := lastCommandTerminalViewer t;
     environment := v; nextTag := nextTag t;
     computeTerminalSize := computeTerminalSize t; frames := frames t;
     blocks := blocks t; uploaders := uploaders t |}.

Definition set_nextTag (v : Z) (t : Terminal) : Terminal :=
  {| configDatabase := configDatabase t; frameFinder := frameFinder t;
     uploadProgressBar := uploadProgressBar t; pty := pty t;
     inputStreamFilters := inputStreamFilters t; emulator := emulator t;
     cookie := cookie t; blockFrames := blockFrames t;
     applicationModeData := applicationModeData t;
     downloadHandler := downloadHandler t;
     applicationMode := applicationMode t; bracketStyle := bracketStyle t;
     lastCommandLine := lastCommandLine t;
     lastCommandTerminalRow := lastCommandTerminalRow t;
     lastCommandTerminalViewer := lastCommandTerminalViewer t;
     environment := environment t; nextTag := v;
     computeTerminalSize := computeTerminalSize t; frames := frames t;
     blocks := blocks t; uploaders := uploaders t |}.

Definition set_frames (v : Store BlockFrame) (t : Terminal) : Terminal :=
  {| configDatabase := configDatabase t; frameFinder := frameFinder t;
     uploadProgressBar := uploadProgressBar t; pty := pty t;
     inputStreamFilters := inputStreamFilters t; emulator := emulator t;
     cookie := cookie t; blockFrames := blockFrames t;
     applicationModeData := applicationModeData t;
     downloadHandler := downloadHandler t;
     applicationMode := applicationMode t; bracketStyle := bracketStyle t;
     lastCommandLine := lastCommandLine t;
     lastCommandTerminalRow := lastCommandTerminalRow t;
     lastCommandTerminalViewer := lastCommandTerminalViewer t;
     environment := environment t; nextTag := nextTag t;
     computeTerminalSize := computeTerminalSize t; frames := v;
     blocks := blocks t; uploaders := uploaders t |}.

Definition set_blocks (v : Store Block) (t : Terminal) : Terminal :=
  {| configDatabase := configDatabase t; frameFinder := frameFinder t;
     uploadProgressBar := uploadProgressBar t; pty := pty t;
     inputStreamFilters := inputStreamFilters t; emulator := emulator t;
     cookie := cookie t; blockFrames := blockFrames t;
     applicationModeData := applicationModeData t;
     downloadHandler := downloadHandler t;
     applicationMode := applicationMode t; bracketStyle := bracketStyle t;
     lastCommandLine := lastCommandLine t;
     lastCommandTerminalRow := lastCommandTerminalRow t;
     lastCommandTerminalViewer := lastCommandTerminalViewer t;
     environment := environment t; nextTag := nextTag t;
     computeTerminalSize := computeTerminalSize t; frames := frames t;
     blocks := v; uploaders := uploaders t |}.

Definition set_uploaders (v : Store BulkFileUploader) (t : Terminal) : Terminal :=
  {| configDatabase := configDatabase t; frameFinder := frameFinder t;
     uploadProgressBar := uploadProgressBar t; pty := pty t;
     inputStreamFilters := inputStreamFilters t; emulator := emulator t;
     cookie := cookie t; blockFrames := blockFrames t;
     applicationModeData := applicationModeData t;
     downloadHandler := downloadHandler t;
     applicationMode := applicationMode t; bracketStyle := bracketStyle t;
     lastCommandLine := lastCommandLine t;
     lastCommandTerminalRow := lastCommandTerminalRow t;
     lastCommandTerminalViewer := lastCommandTerminalViewer t;
     environment := environment t; nextTag := nextTag t;
     computeTerminalSize := computeTerminalSize t; frames := frames t;
     blocks := blocks t; uploaders := v |}.

Definition set_computeTerminalSize (v : option TerminalSize) (t : Terminal) : Terminal :=
  {| configDatabase := configDatabase t; frameFinder := frameFinder t;
     uploadProgressBar := uploadProgressBar t; pty := pty t;
     inputStreamFilters := inputStreamFilters t; emulator := emulator t;
     cookie := cookie t; blockFrames := blockFrames t;
     applicationModeData := applicationModeData t;
     downloadHandler := downloadHandler t;
     applicationMode := applicationMode t; bracketStyle := bracketStyle t;
     lastCommandLine := lastCommandLine t;
     lastCommandTerminalRow := lastCommandTerminalRow t;
     lastCommandTerminalViewer := lastCommandTerminalViewer t;
     environment := environment t; nextTag := nextTag t;
     computeTerminalSize := v; frames := frames t;
     blocks := blocks t; uploaders := uploaders t |}.


(** ** Calls that read and change the terminal, and may throw *)

Definition M (A : Type) : Type := Terminal -> Completion A * Terminal.

Definition ret {A} (a : A) : M A := fun t => (Normal a, t).

Definition throw {A} (e : Exception) : M A := fun t => (Throw e, t).

Definition bind {A B} (m : M A) (k : A -> M B) : M B :=
  fun t =>
    match m t with
    | (Normal a, t') => k a t'
    | (Throw e, t') => (Throw e, t')
    end.

Definition gets {A} (f : Terminal -> A) : M A := fun t => (Normal (f t), t).

Definition modify (f : Terminal -> Terminal) : M unit := fun t => (Normal tt, f t).

Notation "'let*' x ':=' m 'in' k" := (bind m (fun x => k))
  (at level 10, x name, m at level 100, k at level 200).
Notation "m ';;' k" := (bind m (fun _ => k))
  (at level 100, k at level 200, right associativity).

(** Reading a property of [null] or [undefined] is a TypeError. *)
Definition deref {A} (r : option A) : M A :=
  match r with
  | Some a => ret a
  | None => throw TypeError
  end.

Definition frameOf (f : nat) : M BlockFrame := gets (fun t => cells (frames t) f).

Definition blockOf (b : nat) : M Block := gets (fun t => cells (blocks t) b).

Definition updateFrame (f : nat) (g : BlockFrame -> BlockFrame) : M unit :=
  modify (fun t => set_frames (update f g (frames t)) t).

Definition updateBlock (b : nat) (g : Block -> Block) : M unit :=
  modify (fun t => set_blocks (update b g (blocks t)) t).

Definition onTerminalBlock (g : TerminalBlock -> TerminalBlock) (b : Block) : Block :=
  match b with
  | BlockTerminal tb => BlockTerminal (g tb)
  | _ => b
  end.

(** [block instanceof TerminalBlock], for the result of [getBlock()]. *)
Definition isTerminalBlock (t : Terminal) (b : option nat) : bool :=
  match b with
  | Some r => match cells (blocks t) r with BlockTerminal _ => true | _ => false end
  | None => false
  end.

(** A method call on a value the source casts to [TerminalBlock]: a
    TypeError on [null] and on a block without the method. *)
Definition asTerminalBlock (b : option nat) : M TerminalBlock :=
  let* r := deref b in
  let* blk := blockOf r in
  match blk with
  | BlockTerminal tb => ret tb
  | _ => throw TypeError
  end.

(** *** Methods of the frame and block objects *)

(** Modelled from the spec: [BlockFrame.setBlock] of the frame classes,
    which are not among the sources; the frame points at the block it is
    given, [null] included. *)
Definition setBlock (f : nat) (b : option nat) : M unit :=
  updateFrame f (fun fr =>
    {| frameClass := frameClass fr; getTag := getTag fr; getBlock := b;
       defaultMetadata := defaultMetadata fr |}).

(** Modelled from the spec: [DecoratedFrame.setDefaultMetadata] replaces
    the metadata shown while the frame holds no block. *)
Definition setDefaultMetadata (f : nat) (m : BlockMetadata) : M unit :=
  updateFrame f (fun fr =>
    {| frameClass := frameClass fr; getTag := getTag fr; getBlock := getBlock fr;
       defaultMetadata := Some m |}).

(** Modelled from the spec: [TerminalBlock.getScrollbackLength()] is the
    number of rows the block retains. *)
Definition getScrollbackLength (b : option nat) : M Z :=
  let* tb := asTerminalBlock b in
  ret (Z.of_nat (length (scrollback tb))).

(** Modelled from the spec: [TerminalBlock.setEmulator] binds the block to
    the emulator or, with [null], releases it. *)
Definition setEmulator (b : nat) (bound : bool) : M unit :=
  updateBlock b (onTerminalBlock (fun tb =>
    {| scrollback := scrollback tb; boundToEmulator := bound;
       commandLine := commandLine tb; returnCode := returnCode tb |})).

Definition writeScrollback (b : nat) (ls : list Line) : M unit :=
  updateBlock b (onTerminalBlock (fun tb =>
    {| scrollback := ls; boundToEmulator := boundToEmulator tb;
       commandLine := commandLine tb; returnCode := returnCode tb |})).

(** Modelled from the spec: [TerminalBlock.setCommandLine] records its
    argument as the block's command line. *)
Definition setCommandLine (b : option nat) (c : option string) : M unit :=
  let* _ := asTerminalBlock b in
  let* r := deref b in
  updateBlock r (onTerminalBlock (fun tb =>
    {| scrollback := scrollback tb; boundToEmulator := boundToEmulator tb;
       commandLine := c; returnCode := returnCode tb |})).

(** Modelled from the spec: the exit code that a block records for the
    number [Terminal.ts] hands over. NaN, which [Number.parseInt] gives
    for a payload that does not parse, falls back to the default code. *)
Definition recordedCode (n : Number) : Number :=
  match n with
  | NaN => Num defaultReturnCode
  | _ => n
  end.

(** Modelled from the spec: [TerminalBlock.setReturnCode] records the exit
    code of the block. *)
Definition setReturnCode (b : option nat) (n : Number) : M unit :=
  let* _ := asTerminalBlock b in
  let* r := deref b in
  updateBlock r (onTerminalBlock (fun tb =>
    {| scrollback := scrollback tb; boundToEmulator := boundToEmulator tb;
       commandLine := commandLine tb; returnCode := Some (recordedCode n) |})).

(** Modelled from the spec: [TerminalBlock.deleteTopLines(n)] discards the
    [n] oldest rows of the block and keeps its metadata. *)
Definition deleteTopLines (b : option nat) (n : Z) : M unit :=
  let* tb := asTerminalBlock b in
  let* r := deref b in
  writeScrollback r (drop (Z.to_nat n) (scrollback tb)).

(** Modelled from the spec: [TerminalBlock.takeScrollbackFrom(row)] moves
    the rows from index [row] on out of the block and returns them; the
    rows before [row] stay. *)
Definition takeScrollbackFrom (b : option nat) (row : Z) : M (list Line) :=
  let* tb := asTerminalBlock b in
  let* r := deref b in
  writeScrollback r (take (Z.to_nat row) (scrollback tb)) ;;
  ret (drop (Z.to_nat row) (scrollback tb)).

(** Modelled from the spec: [TerminalBlock.setScrollbackLines] replaces
    the rows of the block. *)
Definition setScrollbackLines (b : option nat) (ls : list Line) : M unit :=
  let* _ := asTerminalBlock b in
  let* r := deref b in
  writeScrollback r ls.

(** A call on [this.#emulator]. *)
Definition onEmulator (op : E -> E) : M unit :=
  modify (fun t => set_emulator (op (emulator t)) t).

(** [this.#nextTag()]: the tag source handed to the constructor, a
    counter. *)
Definition callNextTag : M Z :=
  let* n := gets nextTag in
  modify (set_nextTag (n + 1)) ;;
  ret n.

Definition newDecoratedFrame (tag : Z) : M nat :=
  fun t =>
    let '(r, st) := alloc {| frameClass := DecoratedFrame; getTag := Some tag;
                             getBlock := None; defaultMetadata := None |} (frames t) in
    (Normal r, set_frames st t).

Definition newSpacerFrame : M nat :=
  fun t =>
    let '(r, st) := alloc {| frameClass := SpacerFrame; getTag := None;
                             getBlock := None; defaultMetadata := None |} (frames t) in
    (Normal r, set_frames st t).

Definition newTerminalBlock : M nat :=
  fun t =>
    let '(r, st) := alloc (BlockTerminal {| scrollback := []; boundToEmulator := false;
                                            commandLine := None; returnCode := None |})
                          (blocks t) in
    (Normal r, set_blocks st t).

(** *** [#blockFrames] as an array *)

(** [this.#blockFrames[i].frame]: an index outside the array gives
    [undefined], whose [.frame] is a TypeError. *)
Definition blockFrameAt (i : Z) : M nat :=
  let* bfs := gets blockFrames in
  if i <? 0 then throw TypeError else deref (bfs !! Z.to_nat i).

(** [array.findIndex(bf => bf.frame === frame)] *)
Fixpoint findIndex (f : nat) (l : list nat) : Z :=
  match l with
  | [] => -1
  | x :: r =>
      if Nat.eqb x f then 0
      else let i := findIndex f r in if i =? -1 then -1 else i + 1
  end.

(** [array.splice(index, 1)]: a negative index counts from the end. *)
Definition splice1 (index : Z) (l : list nat) : list nat :=
  let len := Z.of_nat (length l) in
  let from := if index <? 0 then Z.max (len + index) 0 else Z.min index len in
  delete (Z.to_nat from) l.

(** ** The methods of [Terminal.ts]

    Calls on widgets, layouts and the scroll area, logging, and the
    subscriptions to widget events are left out: the spec places rendering
    outside the engine and no field read below depends on them. *)

(** [sendToPty(text)], lines 880-885 *)
Definition sendToPty (text : string) : M unit :=
  let* p := gets pty in
  match p with
  | None => ret tt
  | Some p => modify (set_pty (Some {| written := written p ++ [text] |}))
  end.

(** [appendBlockFrame(blockFrame)], lines 819-830 *)
Definition appendBlockFrame (blockFrame : nat) : M unit :=
  modify (fun t => set_blockFrames (blockFrames t ++ [blockFrame]) t).

(** [#createTerminalBlock(frame, emulator)], lines 416-447; [withEmulator]
    says that the second argument is not [null]. *)
Definition createTerminalBlock (frame : nat) (withEmulator : bool) : M nat :=
  let* terminalBlock := newTerminalBlock in
  (if withEmulator then setEmulator terminalBlock true else ret tt) ;;
  ret terminalBlock.

(** [#createFramedTerminalBlock()], lines 459-464 *)
Definition createFramedTerminalBlock : M nat :=
  let* spacerFrame := newSpacerFrame in
  let* terminalBlock := createTerminalBlock spacerFrame true in
  setBlock spacerFrame (Some terminalBlock) ;;
  ret spacerFrame.

(** [#closeLastTerminalFrame()], lines 832-843 *)
Definition closeLastTerminalFrame : M unit :=
  onEmulator moveRowsAboveCursorToScrollback ;;
  onEmulator flushRenderQueue ;;
  let* bfs := gets blockFrames in
  match list.last bfs with
  | None => ret tt
  | Some lastBlockFrame =>
      let* fr := frameOf lastBlockFrame in
      let* t := gets id in
      if isTerminalBlock t (getBlock fr) then
        match getBlock fr with
        | Some lastTerminalBlock => setEmulator lastTerminalBlock false
        | None => ret tt
        end
      else ret tt
  end.

(** [#removeFrameFromScrollArea(frame)], lines 1034-1043 *)
Definition removeFrameFromScrollArea (frame : nat) : M unit :=
  let* bfs := gets blockFrames in
  let index := findIndex frame bfs in
  let* fr := frameOf frame in
  let* _ := deref (getBlock fr) in
  (if index =? -1 then throw TypeError else ret tt) ;;
  modify (fun t => set_blockFrames (splice1 index (blockFrames t)) t).

(** [#moveCursorToFreshLine()], lines 1353-1359 *)
Definition moveCursorToFreshLine : M unit :=
  let* e := gets emulator in
  let dims := getDimensions e in
  if negb (cursorX dims =? 0) && negb (String.eqb (trim (getLineText e (cursorY dims))) "")
  then onEmulator newLine ;; onEmulator carriageReturn
  else ret tt.

(** *** The frame decision *)

(** The loop body of [#commandLineActionMatches] for [matchType "name"]. *)
Fixpoint namePartsMatch (matcherParts commandParts : list string) : bool :=
  match matcherParts with
  | [] => true
  | m :: ms =>
      match commandParts with
      | [] => false
      | c :: cs => if String.eqb m c then namePartsMatch ms cs else false
      end
  end.

(** [#commandLineActionMatches(command, cla)], lines 1391-1410 *)
Definition commandLineActionMatches (command : string) (cla : CommandLineAction)
  : Completion bool :=
  let cleanCommandLine := trim command in
  let commandParts := splitWhitespace (trim command) in
  match cla_matchType cla with
  | matchType_name =>
      Normal (namePartsMatch (splitWhitespace (cla_match cla)) commandParts)
  | matchType_regexp =>
      match regexpTest (cla_match cla) cleanCommandLine with
      | Some b => Normal b
      | None => Throw SyntaxError
      end
  end.

(** The [switch] on a frame rule, the same in both places of
    [#commandNeedsFrame]. *)
Definition frameRuleSays (rule : FrameRule) (ruleLines linesOfOutput : Z) : bool :=
  match rule with
  | always_frame => true
  | never_frame => false
  | frame_if_lines => negb (linesOfOutput =? -1) && (linesOfOutput >? ruleLines)
  end.

(** The [for] loop over the per-command rules: the decision of the first
    rule that matches, if any. *)
Fixpoint commandLineActionsSay (commandLine : string) (linesOfOutput : Z)
    (commandLineActions : list CommandLineAction) : Completion (option bool) :=
  match commandLineActions with
  | [] => Normal None
  | cla :: rest =>
      match commandLineActionMatches commandLine cla with
      | Throw e => Throw e
      | Normal true =>
          Normal (Some (frameRuleSays (cla_frameRule cla) (cla_frameRuleLines cla)
                                      linesOfOutput))
      | Normal false => commandLineActionsSay commandLine linesOfOutput rest
      end
  end.

(** [#commandNeedsFrame(commandLine, linesOfOutput=-1)], lines 1361-1389 *)
Definition commandNeedsFrame (commandLine : option string) (linesOfOutput : Z) : M bool :=
  let* config := gets configDatabase in
  match commandLine, config with
  | Some commandLine, Some configDatabase =>
      if String.eqb (trim commandLine) "" then ret false
      else
        let commandLineActions := default [] (getCommandLineActionConfig configDatabase) in
        match commandLineActionsSay commandLine linesOfOutput commandLineActions with
        | Throw e => throw e
        | Normal (Some answer) => ret answer
        | Normal None =>
            let generalConfig := getGeneralConfig configDatabase in
            ret (frameRuleSays (frameRule generalConfig) (frameRuleLines generalConfig)
                               linesOfOutput)
        end
  | _, _ => ret false
  end.

(** *** Looking for a frame in [#blockFrames] *)

Definition isEmptyDecoratedFrame (t : Terminal) (f : nat) : bool :=
  let fr := cells (frames t) f in
  match frameClass fr, getBlock fr with
  | DecoratedFrame, None => true
  | _, _ => false
  end.

Definition isBareTerminalBlockFrame (t : Terminal) (f : nat) : bool :=
  let fr := cells (frames t) f in
  match frameClass fr with
  | SpacerFrame => isTerminalBlock t (getBlock fr)
  | DecoratedFrame => false
  end.

(** [#findEmptyDecoratedFrame()], lines 1421-1430. The loop runs from the
    last index down while [i !== 0]: index 0 is never inspected, and on an
    empty array the first access, at index -1, is a TypeError. *)
Definition findEmptyDecoratedFrame : M (option nat) :=
  let* t := gets id in
  match blockFrames t with
  | [] => throw TypeError
  | _ :: later => ret (List.find (isEmptyDecoratedFrame t) (rev later))
  end.

(** [#findLastBareTerminalBlockFrame()], lines 1443-1455 *)
Definition findLastBareTerminalBlockFrame : M (option nat) :=
  let* t := gets id in
  ret (List.find (isBareTerminalBlockFrame t) (rev (blockFrames t))).

(** [frame.getBlock()] on a frame reference that may be [null]. *)
Definition getBlockOf (frame : option nat) : M (option nat) :=
  let* f := deref frame in
  let* fr := frameOf f in
  ret (getBlock fr).

(** *** Closing the output of a command *)

(** [Number.parseInt(returnCode, 10)] on a string that may be [null]. *)
Definition parseReturnCode (returnCode : option string) : Number :=
  match returnCode with
  | Some s => parseInt s
  | None => NaN
  end.

(** [#frameWithExistingDecoratedFrame(decoratedFrame, returnCode)],
    lines 1457-1478 *)
Definition frameWithExistingDecoratedFrame (decoratedFrame : nat)
    (returnCode : option string) : M unit :=
  let* terminalBlockFrame := findLastBareTerminalBlockFrame in
  let* terminalBlock := getBlockOf terminalBlockFrame in
  closeLastTerminalFrame ;;
  let* tbf := deref terminalBlockFrame in
  setBlock tbf None ;;
  let* bfs := gets blockFrames in
  let index := findIndex tbf bfs in
  modify (fun t => set_blockFrames (splice1 index (blockFrames t)) t) ;;
  let* command := gets lastCommandLine in
  setCommandLine terminalBlock command ;;
  let returnCodeInt := parseReturnCode returnCode in
  setReturnCode terminalBlock returnCodeInt ;;
  setBlock decoratedFrame terminalBlock ;;
  let* latest := createFramedTerminalBlock in
  appendBlockFrame latest.

(** [#frameWithoutDecoratedFrame(returnCode)], lines 1480-1510 *)
Definition frameWithoutDecoratedFrame (returnCode : option string) : M unit :=
  moveCursorToFreshLine ;;
  let* viewer := gets lastCommandTerminalViewer in
  let* activeTerminalBlock := getBlockOf viewer in
  let* scrollbackLength := getScrollbackLength activeTerminalBlock in
  let* startRow := gets lastCommandTerminalRow in
  let scrollbackOutputLength := scrollbackLength - startRow in
  let* effectiveScreenLength := gets (fun t => getCursorRow (emulator t)) in
  let* command := gets lastCommandLine in
  let* commandShouldBeFramed :=
    (if negb (bool_decide (returnCode = Some "0")) then ret true
     else commandNeedsFrame command
            (scrollbackOutputLength + effectiveScreenLength)) in
  if negb commandShouldBeFramed then ret tt
  else
    closeLastTerminalFrame ;;
    let* tag := callNextTag in
    let* decoratedFrame := newDecoratedFrame tag in
    let* newTerminalBlock := createTerminalBlock decoratedFrame false in
    setBlock decoratedFrame (Some newTerminalBlock) ;;
    let* fromRow := gets lastCommandTerminalRow in
    let* scrollbackLines := takeScrollbackFrom activeTerminalBlock fromRow in
    setScrollbackLines (Some newTerminalBlock) scrollbackLines ;;
    let returnCodeInt := parseReturnCode returnCode in
    setReturnCode (Some newTerminalBlock) returnCodeInt ;;
    let* command := gets lastCommandLine in
    setCommandLine (Some newTerminalBlock) command ;;
    appendBlockFrame decoratedFrame ;;
    let* latestTerminalBlock := createFramedTerminalBlock in
    appendBlockFrame latestTerminalBlock ;;
    modify (set_lastCommandTerminalViewer (Some latestTerminalBlock)).

(** [#closeLastEmbeddedViewer(returnCode)], lines 1412-1419 *)
Definition closeLastEmbeddedViewer (returnCode : option string) : M unit :=
  let* startFrame := findEmptyDecoratedFrame in
  match startFrame with
  | Some startFrame => frameWithExistingDecoratedFrame startFrame returnCode
  | None => frameWithoutDecoratedFrame returnCode
  end.

(** *** The environment ([TerminalEnvironmentImpl], a key-value store) *)

Definition environmentSetList (vars : list (EnvKey * option string)) : M unit :=
  modify (fun t =>
    set_environment (fold_left (fun env kv => <[kv.1 := kv.2]> env) vars (environment t)) t).

(** *** Command brackets *)

(** The bash branch of lines 1255-1259: the history number goes. *)
Definition cleanBashCommandLine (data : string) : string :=
  let trimmed := trim data in
  trim (slice trimmed (indexOf " " trimmed)).

(** [#handleApplicationModeBracketStart()], lines 1246-1293 *)
Definition handleApplicationModeBracketStart : M unit :=
  let* data := gets applicationModeData in
  let* style := gets bracketStyle in
  let* cleanCommandLine :=
    (if bool_decide (style = Some "bash") then
       let* d := deref data in ret (Some (cleanBashCommandLine d))
     else ret data) in
  let* needsFrame := commandNeedsFrame cleanCommandLine (-1) in
  (if needsFrame then
     closeLastTerminalFrame ;;
     let* tag := callNextTag in
     let* decoratedFrame := newDecoratedFrame tag in
     setDefaultMetadata decoratedFrame
       {| title := cleanCommandLine; posture := RUNNING; icon := "fa-cog";
          moveable := false; deleteable := false |} ;;
     appendBlockFrame decoratedFrame ;;
     let* latest := createFramedTerminalBlock in
     appendBlockFrame latest
   else
     moveCursorToFreshLine ;;
     onEmulator moveRowsAboveCursorToScrollback ;;
     onEmulator flushRenderQueue ;;
     let* viewer := findLastBareTerminalBlockFrame in
     modify (set_lastCommandTerminalViewer viewer) ;;
     let* block := getBlockOf viewer in
     let* scrollbackLength := getScrollbackLength block in
     modify (set_lastCommandTerminalRow scrollbackLength)) ;;
  modify (set_lastCommandLine cleanCommandLine) ;;
  let* line := deref cleanCommandLine in
  let command := firstSpaceSeparated line in
  environmentSetList
    [ (EXTRATERM_CURRENT_COMMAND_LINE, cleanCommandLine);
      (EXTRATERM_CURRENT_COMMAND, Some command);
      (EXTRATERM_EXIT_CODE, Some "") ].

(** [#handleApplicationModeBracketEnd()], lines 1295-1311 *)
Definition handleApplicationModeBracketEnd : M unit :=
  let* returnCode := gets applicationModeData in
  closeLastEmbeddedViewer returnCode ;;
  let* env := gets environment in
  let lastLine := env EXTRATERM_CURRENT_COMMAND_LINE in
  let lastCommand := env EXTRATERM_CURRENT_COMMAND in
  let newVars :=
    [ (EXTRATERM_EXIT_CODE, Some "");
      (EXTRATERM_CURRENT_COMMAND_LINE, Some "");
      (EXTRATERM_CURRENT_COMMAND, Some "") ] in
  environmentSetList
    (if lastCommand is Some _ then
       newVars ++ [ (EXTRATERM_LAST_COMMAND_LINE, lastLine);
                    (EXTRATERM_LAST_COMMAND, lastCommand) ]
     else newVars).

(** *** The scrollback cap *)

(** The first [while] of [#enforceScrollbackLinesSize], lines 1567-1573.
    [n] is [blockIndex + 1]; the result is the final [blockIndex] and
    [currentHeight]. *)
Fixpoint skipVisibleBlocks (maxScrollbackLines : Z) (n : nat) (currentHeight : Z)
  : M (Z * Z) :=
  match n with
  | O => ret (-1, currentHeight)
  | S i =>
      if currentHeight <? maxScrollbackLines then
        let* frame := blockFrameAt (Z.of_nat i) in
        let* fr := frameOf frame in
        let* t := gets id in
        let* height :=
          (if isTerminalBlock t (getBlock fr) then
             let* len := getScrollbackLength (getBlock fr) in
             ret (currentHeight + len)
           else ret currentHeight) in
        skipVisibleBlocks maxScrollbackLines i height
      else ret (Z.of_nat i, currentHeight)
  end.

(** The last [while], lines 1595-1599: [n] times the frame at index 0
    goes. *)
Fixpoint removeOldestFrames (n : nat) : M unit :=
  match n with
  | O => ret tt
  | S i =>
      let* targetFrame := blockFrameAt 0 in
      removeFrameFromScrollArea targetFrame ;;
      removeOldestFrames i
  end.

(** [#enforceScrollbackLinesSize(maxScrollbackLines)], lines 1558-1600 *)
Definition enforceScrollbackLinesSize (maxScrollbackLines : Z) : M unit :=
  let* size := gets computeTerminalSize in
  match size with
  | None => ret tt
  | Some size =>
      let* bfs := gets blockFrames in
      let* skipped := skipVisibleBlocks maxScrollbackLines (length bfs) (- rows size) in
      let '(blockIndex, currentHeight) := skipped in
      if currentHeight <? maxScrollbackLines then ret tt
      else
        let blockIndex := blockIndex + 1 in
        let* frame := blockFrameAt blockIndex in
        let* fr := frameOf frame in
        let* t := gets id in
        (if isTerminalBlock t (getBlock fr) then
           let lineCount := currentHeight - maxScrollbackLines in
           deleteTopLines (getBlock fr) lineCount ;;
           let* len := gets (fun t => Z.of_nat (length (blockFrames t))) in
           let isLastBlock := blockIndex =? len - 1 in
           let* row := gets lastCommandTerminalRow in
           if isLastBlock && negb (row =? -1)
           then modify (set_lastCommandTerminalRow (Z.max 0 (row - lineCount)))
           else ret tt
         else ret tt) ;;
        let blockIndex := blockIndex - 1 in
        removeOldestFrames (Z.to_nat (blockIndex + 1))
  end.

(** The subscriber of [#createTerminalBlock], lines 435-445: it runs when a
    terminal block has appended rows to its scrollback. *)
Definition handleDidAppendScrollbackLines : M unit :=
  let* database := gets configDatabase in
  let* db := deref database in
  let config := getGeneralConfig db in
  enforceScrollbackLinesSize (scrollbackMaxLines config).

(** *** Frame replay *)

(** ["\x03"], the interrupt byte. *)
Definition ETX : ascii := "003"%char.

(** ["#error\n"] *)
Definition errorMarker : string := "#error" +:+ String "010"%char "".

Definition updateUploader (u : nat) (st : UploadState) : M unit :=
  modify (fun t =>
    set_uploaders (update u (fun up =>
      {| uploadFile := uploadFile up; uploadHasPty := uploadHasPty up;
         uploadState := st |}) (uploaders t)) t).

(** [new BulkFileUploader(bulkFile, this.#pty)] *)
Definition newBulkFileUploader (bulkFile : BulkFile) : M nat :=
  fun t =>
    let '(r, st) := alloc {| uploadFile := bulkFile;
                             uploadHasPty := bool_decide (is_Some (pty t));
                             uploadState := UploadCreated |} (uploaders t) in
    (Normal r, set_uploaders st t).

Definition updateProgressBar (g : UploadProgressBar -> UploadProgressBar) : M unit :=
  let* bar := gets uploadProgressBar in
  let* b := deref bar in
  modify (set_uploadProgressBar (Some (g b))).

(** [#initUploadProgressBar()], lines 1610-1617 *)
Definition initUploadProgressBar : M unit :=
  let* bar := gets uploadProgressBar in
  match bar with
  | Some _ => ret tt
  | None =>
      modify (set_uploadProgressBar
                (Some {| progressFilename := None; progressTotal := 0;
                         progressTransferred := 0; progressShown := false |}))
  end.

Fixpoint metadataGet (key : string) (metadata : list (string * string)) : option string :=
  match metadata with
  | [] => None
  | (k, v) :: rest => if String.eqb k key then Some v else metadataGet key rest
  end.

(** [#registerInputStreamFilter(filter)], lines 997-1004. The only filters
    ever registered are the closures made in [#handleRequestFrame], one per
    uploader; a filter is named by the uploader it captures. *)
Definition registerInputStreamFilter (filter : nat) : M unit :=
  modify (fun t => set_inputStreamFilters (inputStreamFilters t ++ [filter]) t).

(** The [dispose] of the registration: line 1001. *)
Definition disposeInputStreamFilter (filter : nat) : M unit :=
  modify (fun t =>
    set_inputStreamFilters
      (List.filter (fun f => negb (Nat.eqb f filter)) (inputStreamFilters t)) t).

(** The closure registered at lines 1642-1652. *)
Definition uploadInputFilter (uploader : nat) (input : string) : M string :=
  let ctrlCIndex := indexOf ETX input in
  if negb (ctrlCIndex =? -1) then
    updateUploader uploader UploadAborted ;;
    disposeInputStreamFilter uploader ;;
    ret (substring input (ctrlCIndex + 1))
  else ret "".

(** The [onFinished] callback of lines 1654-1660. *)
Definition handleUploadFinished (uploader : nat) : M unit :=
  updateProgressBar (fun b =>
    {| progressFilename := progressFilename b; progressTotal := progressTotal b;
       progressTransferred := progressTransferred b; progressShown := false |}) ;;
  disposeInputStreamFilter uploader.

(** [#handleRequestFrame(frameId)], lines 1619-1665 *)
Definition handleRequestFrame (frameId : option string) : M unit :=
  let* finder := gets frameFinder in
  match finder with
  | None => ret tt
  | Some finder =>
      match finder frameId with
      | None => sendToPty errorMarker
      | Some bulkFile =>
          let* uploader := newBulkFileUploader bulkFile in
          initUploadProgressBar ;;
          (match metadataGet "filename" (getMetadata bulkFile) with
           | Some filename =>
               updateProgressBar (fun b =>
                 {| progressFilename := Some filename; progressTotal := progressTotal b;
                    progressTransferred := progressTransferred b;
                    progressShown := progressShown b |})
           | None => ret tt
           end) ;;
          updateProgressBar (fun b =>
            {| progressFilename := progressFilename b;
               progressTotal := getTotalSize bulkFile;
               progressTransferred := progressTransferred b;
               progressShown := progressShown b |}) ;;
          registerInputStreamFilter uploader ;;
          updateProgressBar (fun b =>
            {| progressFilename := progressFilename b; progressTotal := progressTotal b;
               progressTransferred := progressTransferred b; progressShown := true |}) ;;
          updateUploader uploader Uploading
      end
  end.

(** Modelled from the spec: the transfer that [uploader.upload()] starts
    ([BulkFileUploader.ts] is not among the sources). By the spec the
    engine writes the located payload back to the pty: the uploader writes
    the payload of its bulk file to the pty it was created with. The
    transfer runs once [#handleRequestFrame] has returned, while the
    upload is in progress. *)
Definition transferUpload (uploader : nat) : M unit :=
  let* up := gets (fun t => cells (uploaders t) uploader) in
  match uploadState up with
  | Uploading =>
      if uploadHasPty up then sendToPty (getPayload (uploadFile up)) else ret tt
  | _ => ret tt
  end.

(** The [for ... of] of [#handleTermData]: it walks the array that was in
    the field when the loop began, also when a filter replaces the field. *)
Fixpoint applyInputStreamFilters (filters : list nat) (filteredData : string) : M string :=
  match filters with
  | [] => ret filteredData
  | filter :: rest =>
      let* out := uploadInputFilter filter filteredData in
      applyInputStreamFilters rest out
  end.

(** [#handleTermData(event)], lines 985-995 *)
Definition handleTermData (data : string) : M unit :=
  let* filters := gets inputStreamFilters in
  let* filteredData := applyInputStreamFilters filters data in
  if String.eqb filteredData "" then ret tt else sendToPty filteredData.

(** *** Application mode *)

Definition onDownloadHandler (op : D -> ApplicationModeResponse * D)
  : M ApplicationModeResponse :=
  fun t =>
    let '(r, d) := op (downloadHandler t) in
    (Normal r, set_downloadHandler d t).

(** [#handleApplicationModeStart(params)], lines 1132-1188 *)
Definition handleApplicationModeStart (params : list string) : M ApplicationModeResponse :=
  modify (set_applicationModeData (Some "")) ;;
  let* theCookie := gets cookie in
  match params with
  | [] => ret (respond ABORT)
  | first :: others =>
      if negb (String.eqb first theCookie) then ret (respond ABORT)
      else
        match others with
        | [] => ret (respond ABORT)
        | second :: extra =>
            if String.eqb second (modeCode APPLICATION_MODE_OUTPUT_BRACKET_START) then
              modify (set_applicationMode APPLICATION_MODE_OUTPUT_BRACKET_START) ;;
              modify (set_bracketStyle (params !! 2%nat)) ;;
              ret (respond CONTINUE)
            else if String.eqb second (modeCode APPLICATION_MODE_OUTPUT_BRACKET_END) then
              modify (set_applicationMode APPLICATION_MODE_OUTPUT_BRACKET_END) ;;
              ret (respond CONTINUE)
            else if String.eqb second (modeCode APPLICATION_MODE_REQUEST_FRAME) then
              modify (set_applicationMode APPLICATION_MODE_REQUEST_FRAME) ;;
              ret (respond CONTINUE)
            else if String.eqb second (modeCode APPLICATION_MODE_SHOW_FILE) then
              modify (set_applicationMode APPLICATION_MODE_SHOW_FILE) ;;
              onDownloadHandler (handleStart extra)
            else ret (respond CONTINUE)
        end
  end.

(** [this.#applicationModeData + data]: a [null] on the left reads as the
    text ["null"]. *)
Definition appendData (buffer : option string) (data : string) : string :=
  match buffer with
  | Some b => b +:+ data
  | None => "null" +:+ data
  end.

(** [#handleApplicationModeData(data)], lines 1195-1211 *)
Definition handleApplicationModeData (data : string) : M ApplicationModeResponse :=
  let* mode := gets applicationMode in
  match mode with
  | APPLICATION_MODE_OUTPUT_BRACKET_START
  | APPLICATION_MODE_OUTPUT_BRACKET_END
  | APPLICATION_MODE_REQUEST_FRAME =>
      modify (fun t => set_applicationModeData (Some (appendData (applicationModeData t) data)) t) ;;
      ret (respond CONTINUE)
  | APPLICATION_MODE_SHOW_FILE => onDownloadHandler (handleData data)
  | APPLICATION_MODE_NONE => ret (respond CONTINUE)
  end.

(** [#handleApplicationModeEnd()], lines 1216-1244 *)
Definition handleApplicationModeEnd : M ApplicationModeResponse :=
  let* mode := gets applicationMode in
  let finish :=
    modify (set_applicationMode APPLICATION_MODE_NONE) ;;
    modify (set_applicationModeData None) ;;
    ret (respond CONTINUE) in
  match mode with
  | APPLICATION_MODE_OUTPUT_BRACKET_START =>
      handleApplicationModeBracketStart ;; finish
  | APPLICATION_MODE_OUTPUT_BRACKET_END =>
      handleApplicationModeBracketEnd ;; finish
  | APPLICATION_MODE_REQUEST_FRAME =>
      let* data := gets applicationModeData in
      handleRequestFrame data ;; finish
  | APPLICATION_MODE_SHOW_FILE => onDownloadHandler handleStop
  | APPLICATION_MODE_NONE => finish
  end.

(** *** Construction, lines 247-277 and 394-395

    [randomCookie] is [crypto.randomBytes(10).toString("hex")], drawn once
    here; [emulator0] and [download0] are the fresh collaborators. *)
Definition construct (config : option ConfigDatabase) (tagSource : Z)
    (finder : option (option string -> option BulkFile))
    (randomCookie : string) (emulator0 : E) (download0 : D) : Terminal :=
  let frame0 := {| frameClass := SpacerFrame; getTag := None; getBlock := None;
                   defaultMetadata := None |} in
  let block0 := BlockExtension "" in
  let t0 :=
    {| configDatabase := config; frameFinder := finder; uploadProgressBar := None;
       pty := None; inputStreamFilters := []; emulator := emulator0;
       cookie := randomCookie; blockFrames := []; applicationModeData := None;
       downloadHandler := download0; applicationMode := APPLICATION_MODE_NONE;
       bracketStyle := None; lastCommandLine := None; lastCommandTerminalRow := -1;
       lastCommandTerminalViewer := None;
       environment := fun k =>
         match k with
         | TERM_TITLE => None
         | _ => Some ""
         end;
       nextTag := tagSource; computeTerminalSize := None;
       frames := {| cells := fun _ => frame0; next := 0 |};
       blocks := {| cells := fun _ => block0; next := 0 |};
       uploaders :=
         {| cells := fun _ =>
              {| uploadFile := {| getMetadata := []; getTotalSize := 0; getPayload := "" |};
                 uploadHasPty := false;
                 uploadState := UploadCreated |};
            next := 0 |} |} in
  let createUi :=
    let* viewer := createFramedTerminalBlock in
    modify (set_lastCommandTerminalViewer (Some viewer)) ;;
    appendBlockFrame viewer in
  (createUi t0).2.

(** [setPty(pty)], lines 714-725 *)
Definition setPty (p : Pty) : M unit := modify (set_pty (Some p)).

(** Modelled from the spec: rows evicted from the grid are appended to the
    scrollback of a terminal block ([TerminalBlock.ts], not among the
    sources), which then notifies the subscriber above. *)
Definition appendScrollbackLines (b : nat) (ls : list Line) : M unit :=
  let* tb := asTerminalBlock (Some b) in
  writeScrollback b (scrollback tb ++ ls) ;;
  handleDidAppendScrollbackLines.

(** [setTerminalVisualConfig] and the layout of the widget, lines 727-731
    and 513-568: from then on [#computeTerminalSize] answers [size]. *)
Definition layOut (size : TerminalSize) : M unit :=
  modify (set_computeTerminalSize (Some size)).

(** *** Frames added and removed by commands *)

Definition isFilledDecoratedFrame (t : Terminal) (f : nat) : bool :=
  let fr := cells (frames t) f in
  match frameClass fr, getBlock fr with
  | DecoratedFrame, Some _ => true
  | _, _ => false
  end.

Definition isDecoratedFrame (t : Terminal) (f : nat) : bool :=
  match frameClass (cells (frames t) f) with
  | DecoratedFrame => true
  | SpacerFrame => false
  end.

(** [findLastDecoratedFrame()], lines 1432-1441: the loop of
    [#findEmptyDecoratedFrame] with the opposite test on the block. *)
Definition findLastDecoratedFrame : M (option nat) :=
  let* t := gets id in
  match blockFrames t with
  | [] => throw TypeError
  | _ :: later => ret (List.find (isFilledDecoratedFrame t) (rev later))
  end.

(** [frame.getBlock().dispose()]: the block has to be there. *)
Definition disposeBlockOf (frame : nat) : M unit :=
  let* fr := frameOf frame in
  let* _ := deref (getBlock fr) in
  ret tt.

(** [destroyFrame(frame)], lines 1045-1050 *)
Definition destroyFrame (frame : nat) : M unit :=
  removeFrameFromScrollArea frame ;;
  disposeBlockOf frame.

(** [commandDeleteLastFrame()], lines 1061-1069: the loop runs from the
    last index down to 0 and stops at the first decorated frame. *)
Definition commandDeleteLastFrame : M unit :=
  let* t := gets id in
  match List.find (isDecoratedFrame t) (rev (blockFrames t)) with
  | Some bf => destroyFrame bf
  | None => ret tt
  end.

(** Modelled from the spec: the extension manager ([ExtensionManager.ts],
    not among the sources) makes the block of an extension; the block is
    known by the name, or the mime type, it was asked for. *)
Definition createExtensionBlock (blockName : string) : M nat :=
  fun t =>
    let '(r, st) := alloc (BlockExtension blockName) (blocks t) in
    (Normal r, set_blocks st t).

(** [#appendExtensionBlock(newExtensionBlock)], lines 1330-1342 *)
Definition appendExtensionBlock (newExtensionBlock : nat) : M nat :=
  closeLastTerminalFrame ;;
  let* tag := callNextTag in
  let* decoratedFrame := newDecoratedFrame tag in
  setBlock decoratedFrame (Some newExtensionBlock) ;;
  appendBlockFrame decoratedFrame ;;
  let* latestTerminalBlock := createFramedTerminalBlock in
  appendBlockFrame latestTerminalBlock ;;
  modify (set_lastCommandTerminalViewer (Some latestTerminalBlock)) ;;
  ret decoratedFrame.

(** [appendExtensionBlockByName(extensionName, blockName, args)],
    lines 1320-1323 *)
Definition appendExtensionBlockByName (extensionName blockName : string) : M nat :=
  let* newExtensionBlock := createExtensionBlock blockName in
  appendExtensionBlock newExtensionBlock.

(** [#appendExtensionBlockWithBulkFile(blockMimeType, bulkFile)],
    lines 1325-1328 *)
Definition appendExtensionBlockWithBulkFile (blockMimeType : string)
    (bulkFile : BulkFile) : M unit :=
  let* newExtensionBlock := createExtensionBlock blockMimeType in
  let* _ := appendExtensionBlock newExtensionBlock in
  ret tt.

(** ["application/octet-stream"] *)
Definition octetStream : string := "application/octet-stream".

(** [#handleShowFile(bulkFile)], lines 1313-1318. [guessed] is the mime
    type that [BulkFileUtils.guessMimetype] finds for the file, [None] for
    [null]. *)
Definition handleShowFile (guessed : option string) (bulkFile : BulkFile) : M unit :=
  let isDownload :=
    bool_decide (metadataGet "download" (getMetadata bulkFile) = Some "true") in
  let blockMimeType :=
    match guessed with
    | None => octetStream
    | Some mimeType => if isDownload then octetStream else mimeType
    end in
  appendExtensionBlockWithBulkFile blockMimeType bulkFile.

(** *** The cap on the number of frames *)

(** The first [while] of [#enforceScrollbackFrameSize], lines 1538-1544:
    it runs while [blockIndex > 0], and the result is the final
    [blockIndex]. *)
Fixpoint skipVisibleFrames (viewportRows : Z) (blockIndex : nat) (currentHeight : Z)
  : M Z :=
  match blockIndex with
  | O => ret 0
  | S i =>
      if currentHeight <? viewportRows then
        let* frame := blockFrameAt (Z.of_nat blockIndex) in
        let* fr := frameOf frame in
        let* t := gets id in
        let* height :=
          (if isTerminalBlock t (getBlock fr) then
             let* len := getScrollbackLength (getBlock fr) in
             ret (currentHeight + len)
           else ret currentHeight) in
        skipVisibleFrames viewportRows i height
      else ret (Z.of_nat blockIndex)
  end.

(** The inner [while], lines 1548-1553: [chopCount] times the frame at
    index 0 goes and its block is disposed of. *)
Fixpoint chopOldestFrames (chopCount : nat) : M unit :=
  match chopCount with
  | O => ret tt
  | S i =>
      let* targetFrame := blockFrameAt 0 in
      removeFrameFromScrollArea targetFrame ;;
      disposeBlockOf targetFrame ;;
      chopOldestFrames i
  end.

(** [#enforceScrollbackFrameSize(maxScrollbackFrames)], lines 1530-1556 *)
Definition enforceScrollbackFrameSize (maxScrollbackFrames : Z) : M unit :=
  let* size := gets computeTerminalSize in
  match size with
  | None => ret tt
  | Some size =>
      let* bfs := gets blockFrames in
      let* blockIndex :=
        (match bfs with
         | [] => ret (-1)
         | _ :: later => skipVisibleFrames (rows size) (length later) 0
         end) in
      if blockIndex >? maxScrollbackFrames then
        chopOldestFrames (Z.to_nat (blockIndex - maxScrollbackFrames))
      else ret tt
  end.

(** [#laterEnforceScrollbackSize()], lines 1523-1528 *)
Definition laterEnforceScrollbackSize : M unit :=
  let* database := gets configDatabase in
  match database with
  | Some db => enforceScrollbackFrameSize (scrollbackMaxFrames (getGeneralConfig db))
  | None => ret tt
  end.

(** *** Disposal *)

(** The [for ... of] of [dispose()], lines 797-799. *)
Fixpoint disposeBlocks (blockPlumbings : list nat) : M unit :=
  match blockPlumbings with
  | [] => ret tt
  | frame :: rest => disposeBlockOf frame ;; disposeBlocks rest
  end.

(** [dispose()], lines 796-809 *)
Definition dispose : M unit :=
  let* bfs := gets blockFrames in
  disposeBlocks bfs ;;
  let* p := gets pty in
  match p with
  | Some _ => modify (set_pty None)
  | None => ret tt
  end.

(** [#handleTitle(ev)], lines 981-983 *)
Definition handleTitle (newTitle : string) : M unit :=
  environmentSetList [(TERM_TITLE, Some newTitle)].

(** *** The font size adjustment, lines 99-101 and 733-756 *)

Definition MINIMUM_FONT_SIZE : Z := -3.

Definition MAXIMUM_FONT_SIZE : Z := 4.

(** [FONT_ADJUSTMENT_ARRAY], its factors written in hundredths. *)
Definition FONT_ADJUSTMENT_ARRAY : list Z := [60; 75; 89; 100; 120; 150; 200; 300].

(** [FONT_ADJUSTMENT_ARRAY[adjustment - MINIMUM_FONT_SIZE]] of
    [#computeEffectiveTerminalVisualConfig]: an index outside the array
    gives [undefined]. *)
Definition fontFactor (adjustment : Z) : option Z :=
  let index := adjustment - MINIMUM_FONT_SIZE in
  if index <? 0 then None else FONT_ADJUSTMENT_ARRAY !! Z.to_nat index.

(** [#setFontSizeAdjustment(delta)] on the field [#fontSizeAdjustment]: the
    new value of the field. *)
Definition setFontSizeAdjustment (delta : Z) (fontSizeAdjustment : Z) : Z :=
  let newAdjustment :=
    Z.min (Z.max (fontSizeAdjustment + delta) MINIMUM_FONT_SIZE) MAXIMUM_FONT_SIZE in
  if negb (newAdjustment =? fontSizeAdjustment) then newAdjustment else fontSizeAdjustment.

(** [#resetFontSizeAdjustment()] *)
Definition resetFontSizeAdjustment (fontSizeAdjustment : Z) : Z :=
  if fontSizeAdjustment =? 0 then fontSizeAdjustment else 0.

Inductive FontSizeCommand :=
| commandFontSizeIncrease
| commandFontSizeDecrease
| commandFontSizeReset.

(** Lines 1104-1114. *)
Definition runFontSizeCommand (fontSizeAdjustment : Z) (c : FontSizeCommand) : Z :=
  match c with
  | commandFontSizeIncrease => setFontSizeAdjustment 1 fontSizeAdjustment
  | commandFontSizeDecrease => setFontSizeAdjustment (-1) fontSizeAdjustment
  | commandFontSizeReset => resetFontSizeAdjustment fontSizeAdjustment
  end.

(** ** Vocabulary of the properties *)

(** Running a call for its result, and for the terminal it leaves. *)
Definition outcome {A} (m : M A) (t : Terminal) : Completion A := (m t).1.

Definition after {A} (m : M A) (t : Terminal) : Terminal := (m t).2.

(** A call that leaves the session cookie as it found it. *)
Definition keepsCookie {A} (m : M A) : Prop := forall t, cookie (m t).2 = cookie t.

(** [setEmulator(null)] on a block, as a change of the block. *)
Definition detached (b : Block) : Block :=
  onTerminalBlock (fun tb =>
    {| scrollback := scrollback tb; boundToEmulator := false;
       commandLine := commandLine tb; returnCode := returnCode tb |}) b.

Definition sameRows (b b' : Block) : Prop := b' = b \/ b' = detached b.

Definition isTerminal (b : Block) : Prop := exists tb, b = BlockTerminal tb.

(** References handed out by the stores: every frame of [#blockFrames] and
    its block were allocated. *)
Definition allocated (t : Terminal) : bool :=
  forallb (fun f =>
             (f <? next (frames t))%nat
             && match getBlock (cells (frames t) f) with
                | Some b => (b <? next (blocks t))%nat
                | None => true
                end)
          (blockFrames t).

(** The rows a frame retains: the scrollback of its terminal block. *)
Definition scrollbackRows (t : Terminal) (f : nat) : Z :=
  match getBlock (cells (frames t) f) with
  | Some b =>
      match cells (blocks t) b with
      | BlockTerminal tb => Z.of_nat (length (scrollback tb))
      | BlockExtension _ => 0
      end
  | None => 0
  end.

Definition retainedRows (t : Terminal) (fs : list nat) : Z :=
  foldr (fun f acc => scrollbackRows t f + acc) 0 fs.

(** The retained rows outside the viewport, the way
    [#enforceScrollbackLinesSize] counts them: all scrollback rows of
    [#blockFrames] but as many as the viewport has rows ("any blocks which
    might be visible in the window"). *)
Definition rowsOutsideViewport (t : Terminal) (size : TerminalSize) : Z :=
  retainedRows t (blockFrames t) - rows size.

Definition hasBlock (t : Terminal) (f : nat) : bool :=
  bool_decide (is_Some (getBlock (cells (frames t) f))).

Definition holdsOtherBlock (t : Terminal) (b : nat) (f : nat) : bool :=
  negb (bool_decide (getBlock (cells (frames t) f) = Some b)).

(** [deleteTopLines(n)] as a change of the block. *)
Definition trimmedBlock (tb : TerminalBlock) (lineCount : Z) : Block :=
  BlockTerminal {| scrollback := drop (Z.to_nat lineCount) (scrollback tb);
                   boundToEmulator := boundToEmulator tb;
                   commandLine := commandLine tb;
                   returnCode := returnCode tb |}.

(** The blocks held by the frames of [#blockFrames]. *)
Definition heldBlocks (t : Terminal) : list (option nat) :=
  map (fun f => getBlock (cells (frames t) f)) (blockFrames t).



(** The text [s] has the byte with code [n] in it. *)
Definition hasByte (n : nat) (s : string) : Prop :=
  In (ascii_of_nat n) (list_ascii_of_string s).

(** *** Parts of the terminal, and calls that leave them alone *)

(** The frames on display with the objects behind them. *)
Definition framesPart (t : Terminal) : list nat * Store BlockFrame * Store Block :=
  (blockFrames t, frames t, blocks t).

(** What terminal input and frame replay work on. *)
Definition inputPart (t : Terminal)
  : option Pty * list nat * Store BulkFileUploader * option UploadProgressBar :=
  (pty t, inputStreamFilters t, uploaders t, uploadProgressBar t).

(** The application mode and its buffer. *)
Definition modePart (t : Terminal) : ApplicationMode * option string :=
  (applicationMode t, applicationModeData t).

(** A call that leaves a part of the terminal as it found it, whether it
    returns or throws. *)
Definition keeps {A B} (part : Terminal -> B) (m : M A) : Prop :=
  forall t, part (m t).2 = part t.

(** If the call returns, [Q] holds of its result and of the terminal it
    leaves. *)
Definition wp {A} (m : M A) (Q : A -> Terminal -> Prop) (t : Terminal) : Prop :=
  match m t with
  | (Normal a, t') => Q a t'
  | (Throw _, _) => True
  end.

Definition hoare {A} (P : Terminal -> Prop) (m : M A) (Q : A -> Terminal -> Prop) : Prop :=
  forall t, P t -> wp m Q t.

(** *** The block that shows the emulator's screen *)

Definition isBound (b : Block) : bool :=
  match b with
  | BlockTerminal tb => boundToEmulator tb
  | BlockExtension _ => false
  end.

(** No block is bound to the emulator. *)
Definition noneBound (t : Terminal) : Prop :=
  forall b, isBound (cells (blocks t) b) = false.

(** Frame [f] is a bare terminal block frame, its block is one that was
    made and is bound to the emulator, and no other block is. *)
Definition liveFrame (f : nat) (t : Terminal) : Prop :=
  frameClass (cells (frames t) f) = SpacerFrame
  /\ exists b,
       getBlock (cells (frames t) f) = Some b
       /\ (b < next (blocks t))%nat
       /\ isBound (cells (blocks t) b) = true
       /\ forall b', isBound (cells (blocks t) b') = true -> b' = b.

(** The last frame of [#blockFrames] is the live one. *)
Definition live (t : Terminal) : Prop :=
  exists l, list.last (blockFrames t) = Some l /\ liveFrame l t.

(** A call that, when it returns, leaves the last frame live if it was. *)
Definition keepsLive {A} (m : M A) : Prop :=
  forall t a, live t -> outcome m t = Normal a -> live (after m t).

(** A property that a call keeps whether it returns or throws. *)
Definition stable {A} (P : Terminal -> Prop) (m : M A) : Prop :=
  forall t, P t -> P (m t).2.

(** While a payload is collected the buffer is a string. *)
Definition collecting (m : ApplicationMode) : bool :=
  match m with
  | APPLICATION_MODE_OUTPUT_BRACKET_START
  | APPLICATION_MODE_OUTPUT_BRACKET_END
  | APPLICATION_MODE_REQUEST_FRAME => true
  | _ => false
  end.

Definition bufferReady (t : Terminal) : Prop :=
  collecting (applicationMode t) = true -> is_Some (applicationModeData t).

(** *** The frames that cover the viewport *)

(** How many frames, counted from the newest, the first loop of
    [#enforceScrollbackFrameSize] passes: it goes on while the rows it
    has counted are fewer than the viewport has. *)
Fixpoint coveredFrames (t : Terminal) (viewportRows : Z) (newestFirst : list nat)
    (counted : Z) : nat :=
  match newestFirst with
  | [] => O
  | f :: rest =>
      if counted <? viewportRows
      then S (coveredFrames t viewportRows rest (counted + scrollbackRows t f))
      else O
  end.

End TerminalModel.

(** ** Collaborators for the scenarios

    A screen with a cursor, a download handler that accepts everything, a
    pattern engine for literal patterns and a default exit code: enough to
    run the handlers on concrete terminals. *)

Record ScreenEmulator := {
  screenLines : list string;
  screenX : Z;
  screenY : Z;
}.

#[global] Instance ScreenEmulator_ops : Emulator ScreenEmulator := {|
  getDimensions e := {| cursorX := screenX e; cursorY := screenY e |};
  getCursorRow e := screenY e;
  getLineText e row := default "" (screenLines e !! Z.to_nat row);
  newLine e :=
    {| screenLines := screenLines e; screenX := screenX e; screenY := screenY e + 1 |};
  carriageReturn e :=
    {| screenLines := screenLines e; screenX := 0; screenY := screenY e |};
  moveRowsAboveCursorToScrollback e :=
    {| screenLines := drop (Z.to_nat (screenY e)) (screenLines e);
       screenX := screenX e; screenY := 0 |};
  flushRenderQueue e := e;
|}.

#[global] Instance AcceptingDownloadHandler : DownloadApplicationModeHandler unit := {|
  handleStart _ d := (respond CONTINUE, d);
  handleData _ d := (respond CONTINUE, d);
  handleStop d := (respond CONTINUE, d);
|}.

#[global] Instance LiteralPatterns : RegExpEngine :=
  fun pattern text => Some (String.eqb pattern text).

(** In the scenarios the default exit code is -1. *)
#[global] Instance DefaultIsMinusOne : ReturnCodeDefault := -1.

Definition ScenarioTerminal : Type := Terminal ScreenEmulator unit.

Definition blankScreen : ScreenEmulator :=
  {| screenLines := []; screenX := 0; screenY := 0 |}.

Definition scenarioConfig (rules : list CommandLineAction) (rule : FrameRule)
    (lines maxLines : Z) : ConfigDatabase :=
  {| getCommandLineActionConfig := Some rules;
     getGeneralConfig := {| frameRule := rule; frameRuleLines := lines;
                            scrollbackMaxLines := maxLines;
                            scrollbackMaxFrames := 10 |} |}.

(** One application-mode sequence as the emulator delivers it: the start
    with its parameters, the payload in one piece, the end. *)
Definition sendSequence (params : list string) (payload : string)
    (t : ScenarioTerminal) : ScenarioTerminal :=
  after handleApplicationModeEnd
    (after (handleApplicationModeData payload)
       (after (handleApplicationModeStart params) t)).

(** Scenario A of the spec: a session whose cookie is ["abc123"]. *)
Definition scenarioA : ScenarioTerminal :=
  construct (Some (scenarioConfig [] never_frame 0 50)) 1 None "abc123" blankScreen tt.

Definition makeNeverFramed : CommandLineAction :=
  {| cla_match := "make"; cla_matchType := matchType_name;
     cla_frameRule := never_frame; cla_frameRuleLines := 0 |}.

Definition lsFramedAboveFive : CommandLineAction :=
  {| cla_match := "ls"; cla_matchType := matchType_name;
     cla_frameRule := frame_if_lines; cla_frameRuleLines := 5 |}.

(** A terminal whose rules never frame, and the same after the
    BRACKET_START of [make all] under bash: the output stays inline. *)
Definition neverFraming : ScenarioTerminal :=
  construct (Some (scenarioConfig [makeNeverFramed; lsFramedAboveFive] never_frame 0 50))
            1 None "abc123" blankScreen tt.

Definition inlineStarted : ScenarioTerminal :=
  sendSequence ["abc123"; "2"; "bash"] "7 make all" neverFraming.

(** A terminal whose global rule always frames, and the same after a
    BRACKET_START: an empty decorated frame is pending. *)
Definition alwaysFraming : ScenarioTerminal :=
  construct (Some (scenarioConfig [] always_frame 0 50)) 1 None "abc123" blankScreen tt.

Definition framedStarted : ScenarioTerminal :=
  sendSequence ["abc123"; "2"; "bash"] "7 make all" alwaysFraming.


(** A terminal in SHOW_FILE mode. *)
Definition showingFile : ScenarioTerminal :=
  after (handleApplicationModeStart ["abc123"; "5"]) scenarioA.

(** A viewport of two rows and a cap of five lines, always framing. A
    framed command is running (the outer shell), then a second one starts
    before the first has ended (a nested shell): two empty decorated frames
    are pending, with the rows printed in between. *)
Definition twoRows : TerminalSize := {| rows := 2; columns := 80; cellHeightPx := 16 |}.

Definition capped : ScenarioTerminal :=
  after (layOut twoRows)
    (construct (Some (scenarioConfig [] always_frame 0 5)) 1 None "abc123" blankScreen tt).

Definition nestedStarted : ScenarioTerminal :=
  sendSequence ["abc123"; "2"] "inner"
    (after (appendScrollbackLines 1 ["d"; "e"])
       (sendSequence ["abc123"; "2"] "outer"
          (after (appendScrollbackLines 0 ["a"; "b"; "c"]) capped))).

Definition tenRows : list Line := ["0"; "1"; "2"; "3"; "4"; "5"; "6"; "7"; "8"; "9"].

(** Three frames with blocks, over the cap by two rows. *)
Definition threeCommands : ScenarioTerminal :=
  after (closeLastEmbeddedViewer (Some "0"))
    (after (appendScrollbackLines 1 ["d"; "e"; "f"; "g"; "h"; "i"])
       (sendSequence ["abc123"; "2"] "ls"
          (after (appendScrollbackLines 0 ["a"; "b"; "c"]) capped))).

(** A shell inside a framed command: [bash] is framed at its
    BRACKET_START, [make all] inside it stays inline, and the BRACKET_END
    of [make all] closes the frame that was pending for [bash]. The next
    BRACKET_END is the one of [bash] itself. *)
Definition shellInShell : ScenarioTerminal :=
  construct (Some (scenarioConfig [makeNeverFramed] always_frame 0 50)) 1 None
            "abc123" blankScreen tt.

Definition innerEnded : ScenarioTerminal :=
  sendSequence ["abc123"; "3"] "0"
    (sendSequence ["abc123"; "2"] "make all"
       (sendSequence ["abc123"; "2"] "bash" shellInShell)).

(** The terminal when the payload of the next BRACKET_END has arrived. *)
Definition outerEndReceived (payload : string) : ScenarioTerminal :=
  after (handleApplicationModeData payload)
    (after (handleApplicationModeStart ["abc123"; "3"]) innerEnded).

(** Frame replay: a finder that knows frame ["7"], and a pty. *)
Definition frameSeven : BulkFile :=
  {| getMetadata := [("filename", "seven.txt")]; getTotalSize := 1024;
     getPayload := "seven rows" |}.

Definition findSeven (frameId : option string) : option BulkFile :=
  if bool_decide (frameId = Some "7") then Some frameSeven else None.

Definition replaying : ScenarioTerminal :=
  after (setPty {| written := [] |})
    (construct (Some (scenarioConfig [] never_frame 0 50)) 1 (Some findSeven)
               "abc123" blankScreen tt).

Definition uploading : ScenarioTerminal :=
  sendSequence ["abc123"; "4"] "7" replaying.

(** A pattern engine that rejects an unclosed group, as [new RegExp("(")]
    does, and a rule with such a pattern after the rule for [make]. *)
Definition strictPatterns : RegExpEngine :=
  fun pattern text =>
    if String.eqb pattern "(" then None else Some (String.eqb pattern text).

Definition unclosedGroup : CommandLineAction :=
  {| cla_match := "("; cla_matchType := matchType_regexp;
     cla_frameRule := always_frame; cla_frameRuleLines := 0 |}.

Definition patternRules : ConfigDatabase :=
  scenarioConfig [makeNeverFramed; unclosedGroup] never_frame 0 50.

Definition patterned : ScenarioTerminal :=
  construct (Some patternRules) 1 None "abc123" blankScreen tt.

(** A rule whose text ends with a space. *)
Definition lsWithSpace : CommandLineAction :=
  {| cla_match := "ls "; cla_matchType := matchType_name;
     cla_frameRule := always_frame; cla_frameRuleLines := 0 |}.

(** The terminal when the payload of a BRACKET_END has arrived, after the
    start of [make all]. *)
Definition bracketEndReceived : ScenarioTerminal :=
  after (handleApplicationModeData "0")
    (after (handleApplicationModeStart ["abc123"; "3"]) inlineStarted).

(** A viewport of two rows under a cap of fifty lines, and two framed
    commands with three rows of output each. *)
Definition roomy : ScenarioTerminal :=
  after (layOut twoRows)
    (construct (Some (scenarioConfig [] always_frame 0 50)) 1 None "abc123" blankScreen tt).

Definition twoFramedCommands : ScenarioTerminal :=
  sendSequence ["abc123"; "3"] "0"
    (after (appendScrollbackLines 3 ["d"; "e"; "f"])
       (sendSequence ["abc123"; "2"] "make"
          (sendSequence ["abc123"; "3"] "0"
             (after (appendScrollbackLines 1 ["a"; "b"; "c"])
                (sendSequence ["abc123"; "2"] "ls" roomy))))).

(** Two uploads of frame ["7"] in progress. *)
Definition uploadingTwice : ScenarioTerminal :=
  sendSequence ["abc123"; "4"] "7" uploading.

(** * Properties *)

Section StringFacts.


Lemma trimStart_fixed (s : string) : trimStart (trimStart s) = trimStart s.
Proof.
  induction s as [|c r IH]; [reflexivity|].
  cbn [trimStart]. destruct (isWhiteSpace c) eqn:Hc; [exact IH|].
  cbn [trimStart]. now rewrite Hc.
Qed.

Lemma indexOf_range (c : ascii) (s : string) :
  -1 <= indexOf c s < Z.of_nat (String.length s) \/ (s = "" /\ indexOf c s = -1).
Proof.
  induction s as [|d r IH]; [right; split; reflexivity|].
  left. cbn [indexOf String.length].
  destruct (Ascii.eqb d c); [lia|].
  destruct (Z.eqb_spec (indexOf c r) (-1)); lia.
Qed.

Lemma append_empty (s : string) : "" +:+ s = s.
Proof. reflexivity. Qed.

Lemma append_String (c : ascii) (a b : string) : String c a +:+ b = String c (a +:+ b).
Proof. reflexivity. Qed.

(** Where the first [c] is: after a prefix that has none. *)
Lemma indexOf_app (c : ascii) (pre post : string) :
  indexOf c pre = -1 ->
  indexOf c (pre +:+ String c post) = Z.of_nat (String.length pre).
Proof.
  induction pre as [|d r IH]; rewrite ?append_empty, ?append_String; cbn.
  - intros _. now rewrite Ascii.eqb_refl.
  - destruct (Ascii.eqb d c); [discriminate|].
    pose proof (indexOf_range c r) as Hrange.
    destruct (Z.eqb_spec (indexOf c r) (-1)) as [Hr|Hr]; [|intros; lia].
    intros _. rewrite (IH Hr).
    destruct (Z.eqb_spec (Z.of_nat (String.length r)) (-1)); lia.
Qed.

Lemma dropChars_app (pre post : string) :
  dropChars (String.length pre) (pre +:+ post) = post.
Proof.
  induction pre as [|d r IH]; rewrite ?append_empty, ?append_String;
    [now destruct post|exact IH].
Qed.

Lemma string_length_app (a b : string) :
  String.length (a +:+ b) = (String.length a + String.length b)%nat.
Proof.
  induction a as [|d r IH]; rewrite ?append_empty, ?append_String; cbn;
    [reflexivity|now rewrite IH].
Qed.


(** Without a [c] in [s], [s.substring(s.indexOf(c) + 1)] is all of [s]
    and [s.slice(s.indexOf(c))] is its last character. *)
Lemma substring_after_first (c : ascii) (pre post : string) :
  indexOf c pre = -1 ->
  let s := pre +:+ String c post in
  substring s (indexOf c s + 1) = post.
Proof.
  intros Hpre s. subst s. rewrite (indexOf_app _ _ _ Hpre). unfold substring.
  rewrite string_length_app. cbn [String.length].
  rewrite Z.max_l by lia. rewrite Z.min_l by lia.
  replace (Z.to_nat (Z.of_nat (String.length pre) + 1))
    with (String.length (pre +:+ String c "")) by (rewrite string_length_app; cbn; lia).
  replace (pre +:+ String c post) with ((pre +:+ String c "") +:+ post).
  - apply dropChars_app.
  - clear Hpre. induction pre as [|d r IH]; rewrite ?append_empty, ?append_String;
      [reflexivity|now rewrite IH].
Qed.

Lemma parseInt_zero : parseInt "0" = Num 0.
Proof. reflexivity. Qed.

(** A text without the byte is one where [indexOf] answers -1. *)
Lemma hasByte_indexOf (n : nat) (s : string) :
  indexOf (ascii_of_nat n) s = -1 <-> ~ hasByte n s.
Proof.
  unfold hasByte. induction s as [|d r IH]; cbn [indexOf list_ascii_of_string In].
  - split; [intros _ []|reflexivity].
  - destruct (Ascii.eqb_spec d (ascii_of_nat n)) as [->|Hd].
    + split; [discriminate|]. intros Hno. exfalso. apply Hno. now left.
    + pose proof (indexOf_range (ascii_of_nat n) r) as Hrange.
      destruct (Z.eqb_spec (indexOf (ascii_of_nat n) r) (-1)) as [Hr|Hr].
      * split; [|reflexivity]. intros _ [Heq|Hin]; [now apply Hd|].
        now apply (proj1 IH Hr).
      * split; [intros; lia|]. intros Hno. exfalso. apply Hr, IH.
        intros Hin. apply Hno. now right.
Qed.

(** A text with the byte splits at its first occurrence. *)
Lemma hasByte_split (n : nat) (s : string) :
  hasByte n s ->
  exists pre post, s = pre +:+ String (ascii_of_nat n) post /\ ~ hasByte n pre.
Proof.
  unfold hasByte. induction s as [|d r IH]; cbn [list_ascii_of_string In]; [intros []|].
  destruct (Ascii.eqb_spec d (ascii_of_nat n)) as [->|Hd].
  - intros _. exists "", r. split; [reflexivity|intros []].
  - intros [Heq|Hin]; [contradiction|].
    destruct (IH Hin) as (pre & post & -> & Hpre).
    exists (String d pre), post. split; [reflexivity|].
    cbn [list_ascii_of_string In]. intros [Heq|Hin']; [contradiction|now apply Hpre].
Qed.

End StringFacts.

Section TerminalFacts.

Context {E D : Type} `{Emulator E} `{DownloadApplicationModeHandler D} `{RegExpEngine}
  {defaultCode : ReturnCodeDefault}.

Abbreviation Terminal := (Terminal E D).
Abbreviation M := (@M E D).

(** ** The frame decision *)

Lemma commandLineActionsSay_first_match (commandLine : string) (linesOfOutput : Z)
    (before later : list CommandLineAction) (cla : CommandLineAction) :
  Forall (fun r => commandLineActionMatches commandLine r = Normal false) before ->
  commandLineActionMatches commandLine cla = Normal true ->
  commandLineActionsSay commandLine linesOfOutput (before ++ cla :: later)
  = Normal (Some (frameRuleSays (cla_frameRule cla) (cla_frameRuleLines cla) linesOfOutput)).
Proof.
  intros Hbefore Hcla. induction Hbefore as [|r rest Hr _ IH]; cbn.
  - now rewrite Hcla.
  - now rewrite Hr.
Qed.

Lemma commandLineActionsSay_no_match (commandLine : string) (linesOfOutput : Z)
    (rules : list CommandLineAction) :
  Forall (fun r => commandLineActionMatches commandLine r = Normal false) rules ->
  commandLineActionsSay commandLine linesOfOutput rules = Normal None.
Proof.
  induction 1 as [|r rest Hr _ IH]; cbn; [reflexivity|now rewrite Hr].
Qed.

(** The decision reads the configuration and changes nothing. *)
Lemma commandNeedsFrame_reads (commandLine : option string) (linesOfOutput : Z)
    (t : Terminal) :
  (commandNeedsFrame commandLine linesOfOutput t).2 = t.
Proof.
  unfold commandNeedsFrame, bind, gets, ret, throw. cbn.
  destruct commandLine as [c|], (configDatabase t) as [cfg|]; try reflexivity.
  destruct (String.eqb (trim c) ""); [reflexivity|].
  destruct (commandLineActionsSay c linesOfOutput _) as [[a|]|e]; reflexivity.
Qed.

(** C6, amended. For a command line that is not blank and a configuration
    database that is present, [#commandNeedsFrame] answers with the first
    per-command rule whose matcher matches (the rules before it not
    matching); only when no per-command rule matches, with the global rule.
    A rule says [true] for [always_frame], [false] for [never_frame], and
    for [frame_if_lines] says whether the line count is known (not -1) and
    strictly above the rule's threshold: with the count -1 it says
    [false]. For a command line that is [null] or blank after trimming
    the answer is [false] whatever the rules are, and so it is without a
    configuration database. *)
Theorem commandNeedsFrame_first_matching_rule (t : Terminal) (linesOfOutput : Z) :
  (forall cfg commandLine,
      configDatabase t = Some cfg ->
      trim commandLine <> "" ->
      let rules := default [] (getCommandLineActionConfig cfg) in
      let general := getGeneralConfig cfg in
      (forall before cla later,
          rules = before ++ cla :: later ->
          Forall (fun r => commandLineActionMatches commandLine r = Normal false) before ->
          commandLineActionMatches commandLine cla = Normal true ->
          commandNeedsFrame (Some commandLine) linesOfOutput t
          = (Normal (frameRuleSays (cla_frameRule cla) (cla_frameRuleLines cla)
                                   linesOfOutput), t))
      /\ (Forall (fun r => commandLineActionMatches commandLine r = Normal false) rules ->
          commandNeedsFrame (Some commandLine) linesOfOutput t
          = (Normal (frameRuleSays (frameRule general) (frameRuleLines general)
                                   linesOfOutput), t)))
  /\ (forall commandLine,
        commandLine = None \/ (exists c, commandLine = Some c /\ trim c = "") ->
        commandNeedsFrame commandLine linesOfOutput t = (Normal false, t))
  /\ (configDatabase t = None ->
      forall commandLine,
        commandNeedsFrame commandLine linesOfOutput t = (Normal false, t))
  /\ (forall threshold,
        frameRuleSays always_frame threshold linesOfOutput = true
        /\ frameRuleSays never_frame threshold linesOfOutput = false
        /\ (frameRuleSays frame_if_lines threshold linesOfOutput = true
            <-> linesOfOutput <> -1 /\ linesOfOutput > threshold)
        /\ frameRuleSays frame_if_lines threshold (-1) = false).
Proof.
  split; [|split; [|split]].
  - intros cfg commandLine Hcfg Hblank rules general.
    assert (Heqb : String.eqb (trim commandLine) "" = false)
      by now apply String.eqb_neq.
    split.
    + intros before cla later Hrules Hbefore Hcla.
      unfold commandNeedsFrame, bind, gets, ret. cbn. rewrite Hcfg, Heqb.
      fold rules. rewrite Hrules.
      now rewrite (commandLineActionsSay_first_match _ _ _ _ _ Hbefore Hcla).
    + intros Hnone.
      unfold commandNeedsFrame, bind, gets, ret. cbn. rewrite Hcfg, Heqb.
      fold rules. now rewrite (commandLineActionsSay_no_match _ _ _ Hnone).
  - intros commandLine [-> | (c & -> & Hblank)];
      unfold commandNeedsFrame, bind, gets, ret; cbn.
    + reflexivity.
    + rewrite Hblank. cbn. now destruct (configDatabase t).
  - intros Hcfg commandLine.
    unfold commandNeedsFrame, bind, gets, ret. cbn. rewrite Hcfg.
    now destruct commandLine.
  - intros threshold.
    split; [reflexivity|]. split; [reflexivity|]. split; [|reflexivity].
    unfold frameRuleSays.
    rewrite andb_true_iff, negb_true_iff, Z.eqb_neq, Z.gtb_gt. reflexivity.
Qed.

(** ** Entering application mode *)

(** C1. When the parameter list is empty or its first parameter is not the
    session cookie, [#handleApplicationModeStart] returns ABORT, selects no
    sub-mode (the active mode stays what it was), leaves the cookie as it
    is, and changes nothing but the accumulation buffer, which every entry
    attempt resets to the empty string: no command line, frame or
    environment variable of a BRACKET_START results. *)
Theorem handleApplicationModeStart_rejects_wrong_cookie (params : list string)
    (t : Terminal) :
  params = [] \/ (exists first others, params = first :: others /\ first <> cookie t) ->
  outcome (handleApplicationModeStart params) t = Normal (respond ABORT)
  /\ applicationMode (after (handleApplicationModeStart params) t) = applicationMode t
  /\ cookie (after (handleApplicationModeStart params) t) = cookie t
  /\ after (handleApplicationModeStart params) t = set_applicationModeData (Some "") t.
Proof.
  intros [-> | (first & others & -> & Hne)].
  - repeat split.
  - apply String.eqb_neq in Hne.
    unfold outcome, after, handleApplicationModeStart, bind, modify, gets, ret. cbn.
    rewrite Hne. cbn. repeat split.
Qed.

(** ** Running the calls: stores *)

Lemma update_cells {A} (r r' : nat) (f : A -> A) (s : Store A) :
  cells (update r f s) r' = if decide (r = r') then f (cells s r') else cells s r'.
Proof.
  unfold update. cbn. destruct (decide (r = r')) as [->|Hne].
  - apply fn_lookup_alter.
  - now apply fn_lookup_alter_ne.
Qed.

Lemma alloc_cells {A} (a : A) (s : Store A) (r' : nat) :
  cells (alloc a s).2 r' = if decide (next s = r') then a else cells s r'.
Proof.
  unfold alloc. cbn. destruct (decide (next s = r')) as [->|Hne].
  - apply fn_lookup_insert.
  - now apply fn_lookup_insert_ne.
Qed.

Lemma set_emulator_same (t : Terminal) : set_emulator (emulator t) t = t.
Proof. now destruct t. Qed.

Lemma set_blocks_same (t : Terminal) : set_blocks (blocks t) t = t.
Proof. now destruct t. Qed.

Lemma asTerminalBlock_exec (t : Terminal) (b : nat) (tb : TerminalBlock) :
  cells (blocks t) b = BlockTerminal tb ->
  asTerminalBlock (Some b) t = (Normal tb, t).
Proof.
  intros Hb. unfold asTerminalBlock, bind, deref, blockOf, gets, ret. cbn.
  now rewrite Hb.
Qed.

Lemma moveCursorToFreshLine_exec (t : Terminal) :
  exists e', moveCursorToFreshLine t = (Normal tt, set_emulator e' t).
Proof.
  unfold moveCursorToFreshLine, bind, gets, onEmulator, modify, ret. cbn.
  destruct (_ && _).
  - eexists. reflexivity.
  - exists (emulator t). now rewrite set_emulator_same.
Qed.

Lemma closeLastTerminalFrame_exec (t : Terminal) :
  exists e' B',
    closeLastTerminalFrame t = (Normal tt, set_blocks B' (set_emulator e' t))
    /\ next B' = next (blocks t)
    /\ forall r, sameRows (cells (blocks t) r) (cells B' r).
Proof.
  exists (flushRenderQueue (moveRowsAboveCursorToScrollback (emulator t))).
  unfold closeLastTerminalFrame, bind, gets, onEmulator, modify, ret, frameOf. cbn.
  destruct (list.last (blockFrames t)) as [l|]; cbn.
  - destruct (isTerminalBlock _ _) eqn:Hterm.
    + destruct (getBlock (cells (frames t) l)) as [lb|]; cbn.
      * unfold setEmulator, updateBlock, modify. cbn.
        eexists. split; [reflexivity|]. split; [reflexivity|].
        intros r. rewrite update_cells. case_decide; [right|left]; reflexivity.
      * exists (blocks t). split; [|split; [reflexivity|now left]].
        destruct t; reflexivity.
    + exists (blocks t). split; [|split; [reflexivity|now left]].
      destruct t; reflexivity.
  - exists (blocks t). split; [|split; [reflexivity|now left]].
    destruct t; reflexivity.
Qed.

Lemma isTerminal_BlockTerminal (tb : TerminalBlock) : isTerminal (BlockTerminal tb).
Proof. now exists tb. Qed.

Lemma isTerminal_onTerminalBlock (g : TerminalBlock -> TerminalBlock) (b : Block) :
  isTerminal b -> isTerminal (onTerminalBlock g b).
Proof. intros [tb ->]. now eexists. Qed.

Lemma isTerminal_sameRows (b b' : Block) : sameRows b b' -> isTerminal b -> isTerminal b'.
Proof. intros [-> | ->] [tb ->]; now eexists. Qed.

Lemma fn_insert_decide {A} (f : nat -> A) (a b : nat) (x : A) :
  <[a := x]> f b = if decide (a = b) then x else f b.
Proof. reflexivity. Qed.

Lemma fn_alter_decide {A} (f : nat -> A) (g : A -> A) (a b : nat) :
  alter g a f b = if decide (a = b) then g (f b) else f b.
Proof.
  destruct (decide (a = b)) as [->|Hne];
    [apply fn_lookup_alter|now apply fn_lookup_alter_ne].
Qed.

Lemma asTerminalBlock_total (t : Terminal) (b : nat) :
  isTerminal (cells (blocks t) b) ->
  exists tb, asTerminalBlock (Some b) t = (Normal tb, t)
             /\ cells (blocks t) b = BlockTerminal tb.
Proof. intros [tb Hb]. exists tb. split; [now apply asTerminalBlock_exec|exact Hb]. Qed.

Arguments moveCursorToFreshLine : simpl never.
Arguments closeLastTerminalFrame : simpl never.
Arguments asTerminalBlock : simpl never.
Arguments commandNeedsFrame : simpl never.
Arguments findEmptyDecoratedFrame : simpl never.
Arguments findLastBareTerminalBlockFrame : simpl never.

Ltac run :=
  unfold getBlockOf, getScrollbackLength, takeScrollbackFrom, setScrollbackLines,
    setReturnCode, setCommandLine, deleteTopLines, writeScrollback, setEmulator,
    updateBlock, updateFrame, setBlock, setDefaultMetadata, callNextTag,
    newDecoratedFrame, newSpacerFrame, newTerminalBlock, createTerminalBlock,
    createFramedTerminalBlock, appendBlockFrame, frameOf, blockOf, onEmulator,
    bind, gets, modify, ret, throw, deref;
  cbn.

(** A block reached through updates and allocations is still a terminal
    block. *)
Ltac terminal :=
  cbn;
  repeat first
    [ rewrite update_cells
    | rewrite fn_alter_decide
    | rewrite fn_insert_decide
    | case_decide
    | apply isTerminal_onTerminalBlock
    | apply isTerminal_BlockTerminal ];
  try congruence;
  eauto using isTerminal_sameRows, isTerminal_BlockTerminal.

(** One call on a value cast to [TerminalBlock]. *)
Ltac on_terminal_block :=
  match goal with
  | |- context [asTerminalBlock (Some ?x) ?s] =>
      let Hex := fresh "Hex" in
      let tb := fresh "tb" in
      let Hcell := fresh "Hcell" in
      destruct (asTerminalBlock_total s x) as (tb & Hex & Hcell);
      [ terminal | rewrite Hex; clear Hex; cbn ]
  end.


(** Reading a cell of a store built by updates and allocations. *)
Ltac lookup :=
  cbn;
  repeat first
    [ rewrite update_cells
    | rewrite fn_alter_decide
    | rewrite fn_insert_decide
    | case_decide ];
  try lia; try congruence; cbn.


Lemma frameWithoutDecoratedFrame_creates (t : Terminal) (code : option string)
    (v b : nat) (tb : TerminalBlock) :
  lastCommandTerminalViewer t = Some v ->
  getBlock (cells (frames t) v) = Some b ->
  cells (blocks t) b = BlockTerminal tb ->
  code <> Some "0" ->
  let d := next (frames t) in
  let nb := next (blocks t) in
  exists t',
    frameWithoutDecoratedFrame code t = (Normal tt, t')
    /\ blockFrames t' = blockFrames t ++ [d; S d]
    /\ frameClass (cells (frames t') d) = DecoratedFrame
    /\ getBlock (cells (frames t') d) = Some nb
    /\ (exists ntb, cells (blocks t') nb = BlockTerminal ntb
                    /\ returnCode ntb = Some (recordedCode (parseReturnCode code))
                    /\ commandLine ntb = lastCommandLine t)
    /\ lastCommandTerminalViewer t' = Some (S d).
Proof.
  intros Hv Hvb Hb Hrc d nb. subst d nb.
  unfold frameWithoutDecoratedFrame.
  destruct (moveCursorToFreshLine_exec t) as [e1 He1].
  unfold bind at 1. rewrite He1.
  run. rewrite Hv. cbn. rewrite Hvb.
  rewrite (asTerminalBlock_exec _ b tb) by exact Hb. cbn.
  rewrite bool_decide_eq_false_2 by exact Hrc. cbn.
  destruct (closeLastTerminalFrame_exec (set_emulator e1 t)) as (e2 & B2 & He2 & Hnext & Hrows).
  rewrite He2. cbn. cbn in Hnext, Hrows.
  assert (Hb2 : isTerminal (cells B2 b)).
  { eapply isTerminal_sameRows; [apply Hrows|]. rewrite Hb. apply isTerminal_BlockTerminal. }
  do 4 on_terminal_block.
  eexists. split; [reflexivity|]. cbn. rewrite Hnext.
  split; [now rewrite <- app_assoc|].
  split; [now lookup|]. split; [now lookup|]. split; [|reflexivity].
  clear -Hnext. lookup; eexists; repeat split.
Qed.

(** With exit code ["0"] and a decision that says no, the output stays
    where it is. *)
Lemma frameWithoutDecoratedFrame_stays (t : Terminal) (v b : nat) (tb : TerminalBlock) :
  lastCommandTerminalViewer t = Some v ->
  getBlock (cells (frames t) v) = Some b ->
  cells (blocks t) b = BlockTerminal tb ->
  let t1 := after moveCursorToFreshLine t in
  let linesOfOutput :=
    Z.of_nat (length (scrollback tb)) - lastCommandTerminalRow t
    + getCursorRow (emulator t1) in
  outcome (commandNeedsFrame (lastCommandLine t) linesOfOutput) t1 = Normal false ->
  frameWithoutDecoratedFrame (Some "0") t = (Normal tt, t1).
Proof.
  intros Hv Hvb Hb t1 linesOfOutput Hno. subst t1 linesOfOutput.
  unfold frameWithoutDecoratedFrame, after, outcome in *.
  destruct (moveCursorToFreshLine_exec t) as [e1 He1].
  unfold bind at 1. rewrite He1 in *. cbn in Hno.
  run. rewrite Hv. cbn. rewrite Hvb.
  rewrite (asTerminalBlock_exec _ b tb) by exact Hb. cbn.
  rewrite bool_decide_eq_true_2 by reflexivity. cbn.
  pose proof (commandNeedsFrame_reads (lastCommandLine t)
    (Z.of_nat (length (scrollback tb)) - lastCommandTerminalRow t + getCursorRow e1)
    (set_emulator e1 t)) as Hreads.
  destruct (commandNeedsFrame _ _ _) as [c t2]. cbn in Hno, Hreads.
  now subst c t2.
Qed.

Lemma findLastBareTerminalBlockFrame_exec (t : Terminal) :
  findLastBareTerminalBlockFrame t
  = (Normal (List.find (isBareTerminalBlockFrame t) (rev (blockFrames t))), t).
Proof. reflexivity. Qed.

Lemma isBareTerminalBlockFrame_block (t : Terminal) (f : nat) :
  isBareTerminalBlockFrame t f = true ->
  frameClass (cells (frames t) f) = SpacerFrame
  /\ exists b tb, getBlock (cells (frames t) f) = Some b
                  /\ cells (blocks t) b = BlockTerminal tb.
Proof.
  unfold isBareTerminalBlockFrame, isTerminalBlock.
  destruct (frameClass _); [discriminate|].
  destruct (getBlock _) as [b|]; [|discriminate].
  destruct (cells (blocks t) b) as [tb|] eqn:Hb; [|discriminate].
  intros _. split; [reflexivity|]. now exists b, tb.
Qed.

Lemma allocated_frame (t : Terminal) (f : nat) :
  allocated t = true -> In f (blockFrames t) ->
  (f < next (frames t))%nat
  /\ forall b, getBlock (cells (frames t) f) = Some b -> (b < next (blocks t))%nat.
Proof.
  unfold allocated. rewrite forallb_forall. intros Hall Hin.
  specialize (Hall f Hin). apply andb_prop in Hall as [Hf Hb].
  split; [now apply Nat.ltb_lt|].
  intros b Hfb. rewrite Hfb in Hb. now apply Nat.ltb_lt.
Qed.

Lemma frameWithExistingDecoratedFrame_closes (t : Terminal) (code : option string)
    (d f : nat) :
  allocated t = true ->
  In d (blockFrames t) ->
  isEmptyDecoratedFrame t d = true ->
  List.find (isBareTerminalBlockFrame t) (rev (blockFrames t)) = Some f ->
  exists t' b tb',
    frameWithExistingDecoratedFrame d code t = (Normal tt, t')
    /\ getBlock (cells (frames t) f) = Some b
    /\ getBlock (cells (frames t') d) = Some b
    /\ cells (blocks t') b = BlockTerminal tb'
    /\ returnCode tb' = Some (recordedCode (parseReturnCode code))
    /\ commandLine tb' = lastCommandLine t.
Proof.
  intros Halloc Hd Hempty Hfind.
  destruct (find_some _ _ Hfind) as [Hf Hbare]. apply in_rev in Hf.
  destruct (isBareTerminalBlockFrame_block _ _ Hbare) as (Hclass & b & tb & Hfb & Hb).
  destruct (allocated_frame _ _ Halloc Hf) as [Hflt Hblt]. specialize (Hblt _ Hfb).
  destruct (allocated_frame _ _ Halloc Hd) as [Hdlt _].
  assert (Hdf : d <> f).
  { intros ->. unfold isEmptyDecoratedFrame in Hempty. now rewrite Hclass in Hempty. }
  unfold frameWithExistingDecoratedFrame.
  unfold bind at 1. rewrite findLastBareTerminalBlockFrame_exec, Hfind.
  run. rewrite Hfb.
  destruct (closeLastTerminalFrame_exec t) as (e2 & B2 & He2 & Hnext & Hrows).
  rewrite He2. cbn.
  assert (Hb2 : isTerminal (cells B2 b)).
  { eapply isTerminal_sameRows; [apply Hrows|]. rewrite Hb. apply isTerminal_BlockTerminal. }
  do 2 on_terminal_block.
  destruct Hb2 as [tb2 Hb2].
  eexists _, b, _. split; [reflexivity|]. split; [reflexivity|].
  cbn. rewrite Hnext.
  split; [now lookup|]. split; [lookup; rewrite Hb2; reflexivity|]. split; reflexivity.
Qed.

Lemma findEmptyDecoratedFrame_reads (t : Terminal) : (findEmptyDecoratedFrame t).2 = t.
Proof.
  unfold findEmptyDecoratedFrame, bind, gets, ret, throw. cbn.
  destruct (blockFrames t); reflexivity.
Qed.

Lemma findEmptyDecoratedFrame_found (t : Terminal) (d : nat) :
  outcome findEmptyDecoratedFrame t = Normal (Some d) ->
  In d (blockFrames t) /\ isEmptyDecoratedFrame t d = true.
Proof.
  unfold outcome, findEmptyDecoratedFrame, bind, gets, ret, throw. cbn.
  destruct (blockFrames t) as [|x later]; [discriminate|]. cbn.
  intros [= Hfind]. destruct (find_some _ _ Hfind) as [Hin Hd].
  split; [|exact Hd]. right. now apply in_rev.
Qed.

Lemma closeLastEmbeddedViewer_branch (t : Terminal) (code : option string)
    (start : option nat) :
  outcome findEmptyDecoratedFrame t = Normal start ->
  closeLastEmbeddedViewer code t
  = match start with
    | Some d => frameWithExistingDecoratedFrame d code t
    | None => frameWithoutDecoratedFrame code t
    end.
Proof.
  intros Hstart. unfold closeLastEmbeddedViewer, bind.
  pose proof (findEmptyDecoratedFrame_reads t) as Hreads.
  unfold outcome in Hstart. destruct (findEmptyDecoratedFrame t) as [c t1].
  cbn in Hstart, Hreads. subst c t1. now destruct start.
Qed.




(** ** Closing the output of a command: the claims *)

(** C2, amended. When no empty decorated frame is pending at BRACKET_END,
    a frame is materialized only if the exit-code payload is not ["0"] or
    the frame decision, taken with the now-known line count (scrollback
    output length plus cursor row), says yes: with payload ["0"] and a
    decision that says no, the call ends after moving the cursor to a fresh
    line, and [#blockFrames], the frames and the blocks are what they
    were. *)
Theorem successful_command_without_passing_rule_not_framed (t : Terminal)
    (v b : nat) (tb : TerminalBlock) :
  outcome findEmptyDecoratedFrame t = Normal None ->
  lastCommandTerminalViewer t = Some v ->
  getBlock (cells (frames t) v) = Some b ->
  cells (blocks t) b = BlockTerminal tb ->
  let t1 := after moveCursorToFreshLine t in
  let linesOfOutput :=
    Z.of_nat (length (scrollback tb)) - lastCommandTerminalRow t
    + getCursorRow (emulator t1) in
  outcome (commandNeedsFrame (lastCommandLine t) linesOfOutput) t1 = Normal false ->
  closeLastEmbeddedViewer (Some "0") t = (Normal tt, t1)
  /\ blockFrames t1 = blockFrames t
  /\ frames t1 = frames t
  /\ blocks t1 = blocks t.
Proof.
  intros Hnone Hv Hvb Hb t1 linesOfOutput Hno.
  rewrite (closeLastEmbeddedViewer_branch _ _ _ Hnone).
  split; [now apply (frameWithoutDecoratedFrame_stays t v b tb)|].
  subst t1. unfold after.
  destruct (moveCursorToFreshLine_exec t) as [e1 ->]. repeat split.
Qed.

(** Where the viewer of the last command holds a terminal block, as it
    does after every BRACKET_START that stayed inline: when no empty
    decorated frame is pending at BRACKET_END and the exit-code payload is
    not ["0"], a decorated frame is appended to [#blockFrames], followed by
    a fresh terminal block frame, whatever the configured rules are
    (nothing is assumed of [configDatabase t]). The new frame holds a
    terminal block that records the exit code and the last command
    line. *)
Lemma failed_command_framed_whatever_the_rules (t : Terminal) (code : option string)
    (v b : nat) (tb : TerminalBlock) :
  outcome findEmptyDecoratedFrame t = Normal None ->
  lastCommandTerminalViewer t = Some v ->
  getBlock (cells (frames t) v) = Some b ->
  cells (blocks t) b = BlockTerminal tb ->
  code <> Some "0" ->
  let d := next (frames t) in
  exists t' nb ntb,
    closeLastEmbeddedViewer code t = (Normal tt, t')
    /\ blockFrames t' = blockFrames t ++ [d; S d]
    /\ frameClass (cells (frames t') d) = DecoratedFrame
    /\ getBlock (cells (frames t') d) = Some nb
    /\ cells (blocks t') nb = BlockTerminal ntb
    /\ returnCode ntb = Some (recordedCode (parseReturnCode code))
    /\ commandLine ntb = lastCommandLine t.
Proof.
  intros Hnone Hv Hvb Hb Hcode d.
  rewrite (closeLastEmbeddedViewer_branch _ _ _ Hnone).
  destruct (frameWithoutDecoratedFrame_creates t code v b tb Hv Hvb Hb Hcode)
    as (t' & Hrun & Hbfs & Hclass & Hblock & (ntb & Hcell & Hrc & Hcl) & _).
  exists t', (next (blocks t)), ntb. repeat split; assumption.
Qed.

Lemma parseReturnCode_NaN_not_zero (code : option string) :
  parseReturnCode code = NaN -> code <> Some "0".
Proof. intros Hnan ->. discriminate Hnan. Qed.

(** Where the frames that the close works on are there (a bare terminal
    block frame beside the pending decorated frame, or a viewer of the last
    command that holds a terminal block), a BRACKET_END whose payload does
    not parse as a decimal exit code still finalizes the frame. With an
    empty decorated frame pending, the last bare terminal block moves into
    that frame; without one, a new decorated frame is appended. Either way
    the call returns normally, the frame's block has the last command line
    set, and the exit code it records is the default code. *)
Lemma unparsable_exit_code_still_closes_frame (t : Terminal) (code : option string) :
  parseReturnCode code = NaN ->
  (forall d f,
      allocated t = true ->
      outcome findEmptyDecoratedFrame t = Normal (Some d) ->
      List.find (isBareTerminalBlockFrame t) (rev (blockFrames t)) = Some f ->
      exists t' b tb',
        closeLastEmbeddedViewer code t = (Normal tt, t')
        /\ getBlock (cells (frames t') d) = Some b
        /\ cells (blocks t') b = BlockTerminal tb'
        /\ returnCode tb' = Some (Num defaultReturnCode)
        /\ commandLine tb' = lastCommandLine t)
  /\ (forall v b tb,
      outcome findEmptyDecoratedFrame t = Normal None ->
      lastCommandTerminalViewer t = Some v ->
      getBlock (cells (frames t) v) = Some b ->
      cells (blocks t) b = BlockTerminal tb ->
      exists t' nb ntb,
        closeLastEmbeddedViewer code t = (Normal tt, t')
        /\ blockFrames t' = blockFrames t ++ [next (frames t); S (next (frames t))]
        /\ getBlock (cells (frames t') (next (frames t))) = Some nb
        /\ cells (blocks t') nb = BlockTerminal ntb
        /\ returnCode ntb = Some (Num defaultReturnCode)
        /\ commandLine ntb = lastCommandLine t).
Proof.
  intros Hnan. split.
  - intros d f Halloc Hsome Hfind.
    rewrite (closeLastEmbeddedViewer_branch _ _ _ Hsome).
    destruct (findEmptyDecoratedFrame_found _ _ Hsome) as [Hd Hempty].
    destruct (frameWithExistingDecoratedFrame_closes t code d f Halloc Hd Hempty Hfind)
      as (t' & b & tb' & Hrun & _ & Hblock & Hcell & Hrc & Hcl).
    exists t', b, tb'. rewrite Hnan in Hrc. repeat split; assumption.
  - intros v b tb Hnone Hv Hvb Hb.
    rewrite (closeLastEmbeddedViewer_branch _ _ _ Hnone).
    destruct (frameWithoutDecoratedFrame_creates t code v b tb Hv Hvb Hb
                (parseReturnCode_NaN_not_zero _ Hnan))
      as (t' & Hrun & Hbfs & _ & Hblock & (ntb & Hcell & Hrc & Hcl) & _).
    exists t', (next (blocks t)), ntb. rewrite Hnan in Hrc. repeat split; assumption.
Qed.

(** ** The command line of a BRACKET_START *)



(** ** Leaving application mode *)

(** The tail shared by every case of [#handleApplicationModeEnd] but
    SHOW_FILE: after a handler that returned, the mode is NONE and the
    buffer is [null]. *)
Lemma handleApplicationModeEnd_resets (t : Terminal) (r : ApplicationModeResponse) :
  applicationMode t <> APPLICATION_MODE_SHOW_FILE ->
  outcome handleApplicationModeEnd t = Normal r ->
  r = respond CONTINUE
  /\ applicationMode (after handleApplicationModeEnd t) = APPLICATION_MODE_NONE
  /\ applicationModeData (after handleApplicationModeEnd t) = None.
Proof.
  intros Hmode. unfold outcome, after.
  destruct (handleApplicationModeEnd t) as [c t'] eqn:Hrun. cbn. intros ->.
  revert Hrun. unfold handleApplicationModeEnd.
  unfold bind at 1. unfold gets at 1. cbn.
  destruct (applicationMode t); try contradiction; unfold bind at 1.
  - cbn. intros [= <- <-]. repeat split.
  - destruct (handleApplicationModeBracketStart t) as [[[]|e] t1]; cbn;
      [intros [= <- <-]; repeat split|discriminate].
  - destruct (handleApplicationModeBracketEnd t) as [[[]|e] t1]; cbn;
      [intros [= <- <-]; repeat split|discriminate].
  - unfold gets at 1. cbn. unfold bind at 1.
    destruct (handleRequestFrame (applicationModeData t) t) as [[[]|e] t1]; cbn;
      [intros [= <- <-]; repeat split|discriminate].
Qed.

(** In SHOW_FILE mode the handler returns what the download handler
    answers, before the reset: mode and buffer stay. *)
Lemma handleApplicationModeEnd_show_file (t : Terminal) :
  applicationMode t = APPLICATION_MODE_SHOW_FILE ->
  outcome handleApplicationModeEnd t = Normal (handleStop (downloadHandler t)).1
  /\ applicationMode (after handleApplicationModeEnd t) = APPLICATION_MODE_SHOW_FILE
  /\ applicationModeData (after handleApplicationModeEnd t) = applicationModeData t.
Proof.
  intros Hmode. unfold outcome, after, handleApplicationModeEnd.
  unfold bind at 1. unfold gets at 1. cbn. rewrite Hmode.
  unfold onDownloadHandler. destruct (handleStop (downloadHandler t)) as [r d].
  cbn. now rewrite Hmode.
Qed.

(** ** Frame replay *)

(** C9. When the frame finder does not resolve the identifier, the call is
    exactly a [sendToPty("#error\n")]: a pty that is attached receives the
    seven characters of the error marker, the last of them the line feed,
    no uploader is made and no input filter is registered. When it
    resolves the identifier, the call itself writes nothing: an uploader
    for the located bulk file and the pty is made, its upload is started
    and its input filter is registered; the transfer that then runs writes
    the located payload to the pty. *)
Theorem request_frame_unknown_identifier_writes_error (t : Terminal)
    (frameId : option string) (finder : option string -> option BulkFile) :
  frameFinder t = Some finder ->
  (finder frameId = None ->
   handleRequestFrame frameId t = sendToPty ("#error" +:+ String (ascii_of_nat 10) "") t
   /\ outcome (handleRequestFrame frameId) t = Normal tt
   /\ uploaders (after (handleRequestFrame frameId) t) = uploaders t
   /\ inputStreamFilters (after (handleRequestFrame frameId) t) = inputStreamFilters t
   /\ forall p, pty t = Some p ->
        pty (after (handleRequestFrame frameId) t)
        = Some {| written := written p ++ ["#error" +:+ String (ascii_of_nat 10) ""] |})
  /\ (forall bulkFile,
        finder frameId = Some bulkFile ->
        let u := next (uploaders t) in
        let t' := after (handleRequestFrame frameId) t in
        outcome (handleRequestFrame frameId) t = Normal tt
        /\ pty t' = pty t
        /\ cells (uploaders t') u
           = {| uploadFile := bulkFile; uploadHasPty := bool_decide (is_Some (pty t));
                uploadState := Uploading |}
        /\ next (uploaders t') = S u
        /\ inputStreamFilters t' = inputStreamFilters t ++ [u]
        /\ forall p, pty t = Some p ->
             transferUpload u t'
             = (Normal tt,
                set_pty (Some {| written := written p ++ [getPayload bulkFile] |}) t')).
Proof.
  intros Hfinder. split.
  - intros Hnone.
    change ("#error" +:+ String (ascii_of_nat 10) "") with errorMarker.
    assert (Hrun : handleRequestFrame frameId t = sendToPty errorMarker t).
    { unfold handleRequestFrame, bind at 1, gets at 1. cbn. now rewrite Hfinder, Hnone. }
    unfold outcome, after. rewrite Hrun.
    unfold sendToPty, bind, gets, modify, ret. cbn.
    split; [reflexivity|].
    destruct (pty t) as [p|]; cbn; repeat split; try discriminate.
    intros p' [= <-]. reflexivity.
  - intros bulkFile Hsome u t'.
    assert (Hstarted :
              outcome (handleRequestFrame frameId) t = Normal tt
              /\ pty t' = pty t
              /\ cells (uploaders t') u
                 = {| uploadFile := bulkFile; uploadHasPty := bool_decide (is_Some (pty t));
                      uploadState := Uploading |}
              /\ next (uploaders t') = S u
              /\ inputStreamFilters t' = inputStreamFilters t ++ [u]).
    { subst u t'.
      destruct t as [? ? bar ? ? ? ? ? ? ? ? ? ? ? ? ? ? ? ? ? ?]. cbn in Hfinder. subst.
      unfold outcome, after, handleRequestFrame, newBulkFileUploader,
        initUploadProgressBar, updateProgressBar, registerInputStreamFilter,
        updateUploader, bind, gets, modify, ret, deref, throw.
      cbn. rewrite Hsome.
      destruct bar as [bar|], (metadataGet "filename" (getMetadata bulkFile)) as [name|];
        cbn; repeat split; now lookup. }
    destruct Hstarted as (Hrun & Hpty & Hcell & Hnext & Hfilters).
    repeat (split; [assumption|]).
    intros p Hp. clearbody t'.
    unfold transferUpload, bind, gets. cbn. rewrite Hcell. cbn.
    rewrite Hp. rewrite bool_decide_eq_true_2 by eauto.
    unfold sendToPty, bind, gets, modify. cbn. now rewrite Hpty, Hp.
Qed.

Arguments uploadInputFilter : simpl never.

Lemma uploadInputFilter_quiet (u : nat) (input : string) (t : Terminal) :
  indexOf ETX input = -1 -> uploadInputFilter u input t = (Normal "", t).
Proof. intros Hno. unfold uploadInputFilter. now rewrite Hno. Qed.

Lemma applyInputStreamFilters_quiet (filters : list nat) (t : Terminal) :
  applyInputStreamFilters filters "" t = (Normal "", t).
Proof.
  induction filters as [|u rest IH]; [reflexivity|].
  cbn. unfold bind. now rewrite uploadInputFilter_quiet.
Qed.

Lemma no_interrupt (s : string) : ~ hasByte 3 s -> indexOf ETX s = -1.
Proof. apply (hasByte_indexOf 3). Qed.

(** C10. While an upload is in progress its input filter is registered.
    The filter answers the empty string to every input without the
    interrupt byte 0x03, and [#handleTermData] then sends nothing and
    changes nothing. Every input with a 0x03 splits at the first one: the
    filter aborts its upload, unregisters itself and answers the text
    after that byte, whatever else is registered; with the one upload in
    progress that text (when there is any) is what goes to the pty. With
    no filter left, input is sent to the pty as it comes. *)
Theorem upload_filter_suppresses_input_until_interrupt (t : Terminal) :
  (forall u input, ~ hasByte 3 input -> uploadInputFilter u input t = (Normal "", t))
  /\ (forall data,
        inputStreamFilters t <> [] -> ~ hasByte 3 data ->
        handleTermData data t = (Normal tt, t))
  /\ (forall u input,
        hasByte 3 input ->
        exists pre post,
          input = pre +:+ String (ascii_of_nat 3) post
          /\ ~ hasByte 3 pre
          /\ let t' := after (uploadInputFilter u input) t in
             outcome (uploadInputFilter u input) t = Normal post
             /\ uploadState (cells (uploaders t') u) = UploadAborted
             /\ inputStreamFilters t'
                = List.filter (fun f => negb (Nat.eqb f u)) (inputStreamFilters t)
             /\ ~ In u (inputStreamFilters t')
             /\ pty t' = pty t)
  /\ (forall u input,
        inputStreamFilters t = [u] -> hasByte 3 input ->
        exists pre post,
          input = pre +:+ String (ascii_of_nat 3) post
          /\ ~ hasByte 3 pre
          /\ let t' := after (handleTermData input) t in
             outcome (handleTermData input) t = Normal tt
             /\ uploadState (cells (uploaders t') u) = UploadAborted
             /\ inputStreamFilters t' = []
             /\ pty t' = match pty t with
                         | Some p =>
                             Some {| written :=
                                       written p
                                       ++ (if String.eqb post "" then [] else [post]) |}
                         | None => None
                         end)
  /\ (forall data,
        inputStreamFilters t = [] ->
        handleTermData data t
        = (if String.eqb data "" then ret tt else sendToPty data) t).
Proof.
  change (ascii_of_nat 3) with ETX.
  split; [|split; [|split; [|split]]].
  - intros u input Hno. apply uploadInputFilter_quiet. now apply no_interrupt.
  - intros data Hsome Hno. apply no_interrupt in Hno.
    unfold handleTermData, bind at 1, gets at 1. cbn.
    destruct (inputStreamFilters t) as [|u rest]; [contradiction|].
    cbn. unfold bind. rewrite (uploadInputFilter_quiet _ _ _ Hno).
    now rewrite applyInputStreamFilters_quiet.
  - intros u input Hhas.
    destruct (hasByte_split _ _ Hhas) as (pre & post & -> & Hpre).
    exists pre, post. split; [reflexivity|]. split; [exact Hpre|].
    change (ascii_of_nat 3) with ETX. apply no_interrupt in Hpre.
    pose proof (indexOf_app ETX pre post Hpre) as Hindex.
    pose proof (substring_after_first ETX pre post Hpre) as Hafter. cbn zeta in Hafter.
    unfold outcome, after, uploadInputFilter. rewrite Hafter, Hindex.
    destruct (Z.eqb_spec (Z.of_nat (String.length pre)) (-1)) as [Hneg|_]; [lia|].
    unfold updateUploader, disposeInputStreamFilter, bind, gets, modify, ret. cbn.
    split; [reflexivity|]. split; [now lookup|]. split; [reflexivity|].
    split; [|reflexivity].
    rewrite filter_In, negb_true_iff, Nat.eqb_neq. now intros [_ Hne].
  - intros u input Hone Hhas.
    destruct (hasByte_split _ _ Hhas) as (pre & post & -> & Hpre).
    exists pre, post. split; [reflexivity|]. split; [exact Hpre|].
    change (ascii_of_nat 3) with ETX. apply no_interrupt in Hpre.
    pose proof (indexOf_app ETX pre post Hpre) as Hindex.
    pose proof (substring_after_first ETX pre post Hpre) as Hafter. cbn zeta in Hafter.
    destruct t as [? ? ? p ? ? ? ? ? ? ? ? ? ? ? ? ? ? ? ? ?]. cbn in Hone. subst.
    unfold outcome, after, handleTermData, bind at 1, gets at 1. cbn.
    unfold uploadInputFilter. rewrite Hafter, Hindex.
    destruct (Z.eqb_spec (Z.of_nat (String.length pre)) (-1)) as [Hneg|_]; [lia|].
    unfold updateUploader, disposeInputStreamFilter, sendToPty, bind, gets, modify, ret.
    cbn. rewrite Nat.eqb_refl. cbn.
    destruct (String.eqb post "") eqn:Hpost, p as [p|]; cbn; repeat split;
      try (now lookup).
    rewrite app_nil_r. now destruct p.
  - intros data Hnone. unfold handleTermData, bind at 1, gets at 1. cbn.
    rewrite Hnone. cbn. unfold bind, ret. cbn. now destruct (String.eqb data "").
Qed.


(** ** The cookie is drawn once *)

Lemma keepsCookie_ret {A} (a : A) : @keepsCookie E D A (ret a).
Proof. intros t. reflexivity. Qed.

Lemma keepsCookie_throw {A} (e : Exception) : @keepsCookie E D A (throw e).
Proof. intros t. reflexivity. Qed.

Lemma keepsCookie_gets {A} (f : Terminal -> A) : @keepsCookie E D _ (gets f).
Proof. intros t. reflexivity. Qed.

Lemma keepsCookie_modify (f : Terminal -> Terminal) :
  (forall t, cookie (f t) = cookie t) -> @keepsCookie E D _ (modify f).
Proof. intros Hf t. apply Hf. Qed.

Lemma keepsCookie_bind {A B} (m : M A) (k : A -> M B) :
  keepsCookie m -> (forall a, @keepsCookie E D _ (k a)) -> @keepsCookie E D _ (bind m k).
Proof.
  intros Hm Hk t. unfold bind. specialize (Hm t).
  destruct (m t) as [[a|e] t1]; cbn in *; [|exact Hm].
  now rewrite Hk.
Qed.

Lemma keepsCookie_newDecoratedFrame (tag : Z) : @keepsCookie E D _ (newDecoratedFrame tag).
Proof. intros t. reflexivity. Qed.

Lemma keepsCookie_newSpacerFrame : @keepsCookie E D _ newSpacerFrame.
Proof. intros t. reflexivity. Qed.

Lemma keepsCookie_newTerminalBlock : @keepsCookie E D _ newTerminalBlock.
Proof. intros t. reflexivity. Qed.

Lemma keepsCookie_onDownloadHandler (op : D -> ApplicationModeResponse * D) :
  @keepsCookie E D _ (onDownloadHandler op).
Proof. intros t. unfold onDownloadHandler. now destruct (op _). Qed.

Lemma keepsCookie_newBulkFileUploader (f : BulkFile) : @keepsCookie E D _ (newBulkFileUploader f).
Proof. intros t. reflexivity. Qed.

Create HintDb terminal_calls.

#[local] Hint Unfold
  sendToPty appendBlockFrame createTerminalBlock createFramedTerminalBlock
  closeLastTerminalFrame removeFrameFromScrollArea moveCursorToFreshLine
  commandNeedsFrame findEmptyDecoratedFrame findLastBareTerminalBlockFrame getBlockOf
  frameWithExistingDecoratedFrame frameWithoutDecoratedFrame closeLastEmbeddedViewer
  environmentSetList handleApplicationModeBracketStart handleApplicationModeBracketEnd
  enforceScrollbackLinesSize handleDidAppendScrollbackLines updateUploader
  updateProgressBar initUploadProgressBar registerInputStreamFilter
  disposeInputStreamFilter uploadInputFilter handleRequestFrame handleTermData
  handleApplicationModeStart handleApplicationModeData handleApplicationModeEnd
  deref frameOf blockOf updateFrame updateBlock asTerminalBlock setBlock
  setDefaultMetadata getScrollbackLength setEmulator writeScrollback setCommandLine
  setReturnCode deleteTopLines takeScrollbackFrom setScrollbackLines onEmulator
  callNextTag blockFrameAt
  : terminal_calls.

Ltac keeps_cookie :=
  repeat first
    [ assumption
    | apply keepsCookie_ret
    | apply keepsCookie_throw
    | apply keepsCookie_gets
    | apply keepsCookie_modify; intros; reflexivity
    | apply keepsCookie_newDecoratedFrame
    | apply keepsCookie_newSpacerFrame
    | apply keepsCookie_newTerminalBlock
    | apply keepsCookie_onDownloadHandler
    | apply keepsCookie_newBulkFileUploader
    | apply keepsCookie_bind; [|intros]
    | match goal with
      | |- keepsCookie (match ?x with _ => _ end) => destruct x
      | |- keepsCookie (if ?b then _ else _) => destruct b
      | |- keepsCookie (let '(_, _) := ?x in _) => destruct x
      end
    | progress autounfold with terminal_calls ].

Lemma keepsCookie_skipVisibleBlocks (maxLines : Z) (n : nat) (h : Z) :
  @keepsCookie E D _ (skipVisibleBlocks maxLines n h).
Proof.
  revert h. induction n as [|i IH]; intros h; cbn [skipVisibleBlocks];
    keeps_cookie. apply IH.
Qed.

Lemma keepsCookie_removeOldestFrames (n : nat) : @keepsCookie E D _ (removeOldestFrames n).
Proof.
  induction n as [|i IH]; cbn [removeOldestFrames]; keeps_cookie.
Qed.

Lemma keepsCookie_applyInputStreamFilters (filters : list nat) (data : string) :
  @keepsCookie E D _ (applyInputStreamFilters filters data).
Proof.
  revert data. induction filters as [|f rest IH]; intros data;
    cbn [applyInputStreamFilters]; keeps_cookie.
  apply IH.
Qed.

(** The cookie field is written by the constructor only: the handlers of
    the application mode, of terminal input and of scrollback growth leave
    it as it is. *)
Lemma cookie_never_rederived (params : list string) (data input : string) :
  @keepsCookie E D _ (handleApplicationModeStart params)
  /\ @keepsCookie E D _ (handleApplicationModeData data)
  /\ @keepsCookie E D _ handleApplicationModeEnd
  /\ @keepsCookie E D _ (handleTermData input)
  /\ @keepsCookie E D _ handleDidAppendScrollbackLines.
Proof.
  pose proof keepsCookie_skipVisibleBlocks.
  pose proof keepsCookie_removeOldestFrames.
  pose proof keepsCookie_applyInputStreamFilters.
  repeat split; keeps_cookie; auto.
Qed.
(** ** The scrollback cap *)

Lemma scrollbackRows_nonneg (t : Terminal) (f : nat) : 0 <= scrollbackRows t f.
Proof.
  unfold scrollbackRows. destruct (getBlock _) as [b|]; [|lia].
  destruct (cells (blocks t) b); lia.
Qed.

Lemma retainedRows_cons (t : Terminal) (f : nat) (fs : list nat) :
  retainedRows t (f :: fs) = scrollbackRows t f + retainedRows t fs.
Proof. reflexivity. Qed.

Lemma retainedRows_nonneg (t : Terminal) (fs : list nat) : 0 <= retainedRows t fs.
Proof.
  induction fs as [|f fs IH]; [reflexivity|].
  rewrite retainedRows_cons. pose proof (scrollbackRows_nonneg t f). lia.
Qed.

Lemma retainedRows_app (t : Terminal) (fs gs : list nat) :
  retainedRows t (fs ++ gs) = retainedRows t fs + retainedRows t gs.
Proof.
  induction fs as [|f fs IH]; [reflexivity|].
  rewrite <- app_comm_cons, !retainedRows_cons, IH. lia.
Qed.

Lemma skipVisibleBlocks_step (t : Terminal) (maxLines : Z) (i : nat) (h : Z) (x : nat) :
  blockFrames t !! i = Some x ->
  h < maxLines ->
  skipVisibleBlocks maxLines (S i) h t
  = skipVisibleBlocks maxLines i (h + scrollbackRows t x) t.
Proof.
  intros Hx Hlt. cbn [skipVisibleBlocks].
  destruct (Z.ltb_spec h maxLines) as [_|Hge]; [|lia].
  unfold bind at 1. unfold blockFrameAt, bind at 1, gets at 1. cbn.
  destruct (Z.ltb_spec (Z.of_nat i) 0) as [Hneg|_]; [lia|].
  rewrite Nat2Z.id, Hx. cbn.
  unfold scrollbackRows, isTerminalBlock.
  destruct (getBlock (cells (frames t) x)) as [b|]; cbn.
  - destruct (cells (blocks t) b) as [tb|name] eqn:Hb; cbn.
    + unfold getScrollbackLength, bind.
      now rewrite (asTerminalBlock_exec _ _ _ Hb).
    + now rewrite Z.add_0_r.
  - now rewrite Z.add_0_r.
Qed.

Lemma skipVisibleBlocks_done (t : Terminal) (maxLines : Z) (n : nat) (h : Z) :
  maxLines <= h ->
  skipVisibleBlocks maxLines n h t = (Normal (Z.of_nat n - 1, h), t).
Proof.
  intros Hge. destruct n as [|i]; cbn [skipVisibleBlocks]; [reflexivity|].
  destruct (Z.ltb_spec h maxLines) as [Hlt|_]; [lia|].
  unfold ret. do 2 f_equal. f_equal. lia.
Qed.

(** The frames that fit under the cap are skipped. *)
Lemma skipVisibleBlocks_skips (t : Terminal) (maxLines : Z) (pre mid post : list nat)
    (h : Z) :
  blockFrames t = pre ++ mid ++ post ->
  h + retainedRows t mid < maxLines ->
  skipVisibleBlocks maxLines (length (pre ++ mid)) h t
  = skipVisibleBlocks maxLines (length pre) (h + retainedRows t mid) t.
Proof.
  revert post h. induction mid as [|x mid IH] using rev_ind; intros post h Hbfs Hlt.
  - rewrite app_nil_r. change (retainedRows t []) with 0. now rewrite Z.add_0_r.
  - rewrite retainedRows_app, retainedRows_cons in *.
    change (retainedRows t []) with 0 in *.
    pose proof (retainedRows_nonneg t mid). pose proof (scrollbackRows_nonneg t x).
    rewrite app_assoc, length_app. cbn. rewrite Nat.add_1_r.
    rewrite (skipVisibleBlocks_step t maxLines _ h x).
    + rewrite (IH (x :: post) (h + scrollbackRows t x)).
      * f_equal. lia.
      * now rewrite Hbfs, <- !app_assoc.
      * lia.
    + rewrite Hbfs, <- app_assoc, (app_assoc pre mid).
      rewrite lookup_app_r by lia. now rewrite Nat.sub_diag.
    + lia.
Qed.

Lemma removeOldestFrames_exec (t : Terminal) (older rest : list nat) :
  blockFrames t = older ++ rest ->
  forallb (hasBlock t) older = true ->
  removeOldestFrames (length older) t = (Normal tt, set_blockFrames rest t).
Proof.
  revert t. induction older as [|f older IH]; intros t Hbfs Hblocks.
  - cbn in *. unfold ret. rewrite <- Hbfs. now destruct t.
  - cbn in Hblocks. apply andb_prop in Hblocks as [Hf Holder].
    apply bool_decide_eq_true in Hf as [b Hb].
    cbn [length removeOldestFrames].
    unfold bind at 1. unfold blockFrameAt, bind at 1, gets at 1. cbn. rewrite Hbfs. cbn.
    unfold bind at 1. unfold removeFrameFromScrollArea, bind, gets, frameOf, modify,
      deref, ret. cbn. rewrite ?Hbfs. cbn.
    change ((f :: older ++ rest) !! Z.to_nat 0) with (Some f). cbn.
    rewrite Hb, Hbfs. cbn. rewrite Nat.eqb_refl. cbn.
    rewrite Hbfs. change (splice1 0 ((f :: older) ++ rest)) with (older ++ rest).
    rewrite (IH (set_blockFrames (older ++ rest) t)); [reflexivity|reflexivity|exact Holder].
Qed.

Arguments removeOldestFrames : simpl never.
Arguments skipVisibleBlocks : simpl never.

(** Under the cap nothing is trimmed. *)
Lemma enforceScrollbackLinesSize_under_cap (t : Terminal) (size : TerminalSize)
    (maxLines : Z) :
  computeTerminalSize t = Some size ->
  rowsOutsideViewport t size < maxLines ->
  enforceScrollbackLinesSize maxLines t = (Normal tt, t).
Proof.
  intros Hsize Hunder. unfold rowsOutsideViewport in Hunder.
  unfold enforceScrollbackLinesSize, bind at 1, gets at 1. cbn. rewrite Hsize.
  unfold bind at 1, gets at 1. cbn. unfold bind at 1.
  pose proof (skipVisibleBlocks_skips t maxLines [] (blockFrames t) [] (- rows size))
    as Hskip.
  rewrite app_nil_r in Hskip. cbn [app length] in Hskip.
  rewrite Hskip by (reflexivity || lia).
  unfold skipVisibleBlocks, ret.
  destruct (Z.ltb_spec (- rows size + retainedRows t (blockFrames t)) maxLines); [reflexivity|lia].
Qed.

Lemma retainedRows_other_blocks (t t' : Terminal) (b : nat) (fs : list nat) :
  frames t' = frames t ->
  (forall r, r <> b -> cells (blocks t') r = cells (blocks t) r) ->
  forallb (holdsOtherBlock t b) fs = true ->
  retainedRows t' fs = retainedRows t fs.
Proof.
  intros Hframes Hblocks. induction fs as [|f fs IH]; [reflexivity|].
  cbn [forallb]. intros Hother. apply andb_prop in Hother as [Hf Hfs].
  rewrite !retainedRows_cons, (IH Hfs). f_equal.
  unfold scrollbackRows. rewrite Hframes.
  unfold holdsOtherBlock in Hf. apply negb_true_iff, bool_decide_eq_false in Hf.
  destruct (getBlock (cells (frames t) f)) as [r|]; [|reflexivity].
  rewrite Hblocks; [reflexivity|]. intros ->. now apply Hf.
Qed.

Lemma rowsOutsideViewport_trimmed (t t' : Terminal) (size : TerminalSize)
    (maxLines lineCount : Z) (newer : list nat) (frame b : nat) (tb : TerminalBlock) :
  blockFrames t' = frame :: newer ->
  frames t' = frames t ->
  getBlock (cells (frames t) frame) = Some b ->
  cells (blocks t') b = trimmedBlock tb lineCount ->
  (forall r, r <> b -> cells (blocks t') r = cells (blocks t) r) ->
  forallb (holdsOtherBlock t b) newer = true ->
  0 <= lineCount <= Z.of_nat (length (scrollback tb)) ->
  lineCount = retainedRows t newer - rows size + Z.of_nat (length (scrollback tb)) - maxLines ->
  rowsOutsideViewport t' size = maxLines.
Proof.
  intros Hbfs Hframes Hfb Hb Hothers Hnewer Hrange Hcount.
  unfold rowsOutsideViewport. rewrite Hbfs, retainedRows_cons.
  rewrite (retainedRows_other_blocks t t' b newer Hframes Hothers Hnewer).
  unfold scrollbackRows. rewrite Hframes, Hfb, Hb. cbn.
  rewrite length_drop. lia.
Qed.

Lemma enforceScrollbackLinesSize_straddle (t : Terminal) (size : TerminalSize)
    (maxLines : Z) (older newer : list nat) (frame b : nat) (tb : TerminalBlock) :
  computeTerminalSize t = Some size ->
  blockFrames t = older ++ frame :: newer ->
  getBlock (cells (frames t) frame) = Some b ->
  cells (blocks t) b = BlockTerminal tb ->
  let above := retainedRows t newer - rows size in
  let lineCount := above + Z.of_nat (length (scrollback tb)) - maxLines in
  above < maxLines ->
  0 <= lineCount ->
  forallb (hasBlock t) older = true ->
  forallb (holdsOtherBlock t b) newer = true ->
  exists t',
    enforceScrollbackLinesSize maxLines t = (Normal tt, t')
    /\ blockFrames t' = frame :: newer
    /\ frames t' = frames t
    /\ cells (blocks t') b = trimmedBlock tb lineCount
    /\ (forall r, r <> b -> cells (blocks t') r = cells (blocks t) r)
    /\ rowsOutsideViewport t' size = maxLines.
Proof.
  intros Hsize Hbfs Hfb Hb above lineCount Habove Hcount Holder Hnewer.
  assert (Hrows : scrollbackRows t frame = Z.of_nat (length (scrollback tb))).
  { unfold scrollbackRows. now rewrite Hfb, Hb. }
  unfold enforceScrollbackLinesSize, bind at 1, gets at 1. cbn. rewrite Hsize.
  unfold bind at 1, gets at 1. cbn. unfold bind at 1.
  (* the first loop *)
  replace (length (blockFrames t)) with (length ((older ++ [frame]) ++ newer))
    by now rewrite Hbfs, <- app_assoc.
  rewrite (skipVisibleBlocks_skips t maxLines (older ++ [frame]) newer [] (- rows size))
    by (rewrite ?app_nil_r, <- ?app_assoc; (exact Hbfs || (subst above; lia))).
  rewrite length_app. cbn [length]. rewrite Nat.add_1_r.
  rewrite (skipVisibleBlocks_step t maxLines _ _ frame)
    by (rewrite ?Hbfs, ?list_lookup_middle; (reflexivity || (subst above; lia))).
  rewrite skipVisibleBlocks_done by (subst lineCount above; lia).
  rewrite Hrows.
  replace (- rows size + retainedRows t newer + Z.of_nat (length (scrollback tb)))
    with (lineCount + maxLines) by (subst lineCount above; lia).
  destruct (Z.ltb_spec (lineCount + maxLines) maxLines) as [Hlt|_]; [lia|].
  replace (Z.of_nat (length older) - 1 + 1) with (Z.of_nat (length older)) by lia.
  (* the frame at the boundary *)
  unfold bind at 1. unfold blockFrameAt, bind at 1, gets at 1. cbn.
  destruct (Z.ltb_spec (Z.of_nat (length older)) 0) as [Hneg|_]; [lia|].
  rewrite Nat2Z.id, Hbfs, list_lookup_middle by reflexivity. cbn.
  unfold bind at 1, frameOf, gets at 1. cbn.
  unfold bind at 1, gets at 1. cbn.
  unfold isTerminalBlock. rewrite Hfb, Hb.
  replace (lineCount + maxLines - maxLines) with lineCount by lia.
  replace (Z.to_nat (Z.of_nat (length older) - 1 + 1)) with (length older) by lia.
  unfold deleteTopLines, writeScrollback, updateBlock, bind, modify, deref, ret, gets.
  rewrite (asTerminalBlock_exec _ _ _ Hb). cbn.
  assert (Hlen : Z.of_nat (length (scrollback tb)) - lineCount
                 = Z.of_nat (length (drop (Z.to_nat lineCount) (scrollback tb)))).
  { rewrite length_drop. subst lineCount above. lia. }
  destruct (_ && _); cbn;
    (rewrite (removeOldestFrames_exec _ older (frame :: newer)) by assumption);
    (eexists; split; [reflexivity|];
     split; [reflexivity|]; split; [reflexivity|];
     split; [lookup; rewrite Hb; reflexivity|];
     split; [intros r Hr; now lookup|];
     apply (rowsOutsideViewport_trimmed t _ size maxLines lineCount newer frame b tb);
     [ reflexivity | reflexivity | exact Hfb
     | lookup; rewrite Hb; reflexivity
     | intros r Hr; now lookup
     | exact Hnewer
     | subst lineCount above; lia
     | subst lineCount above; lia ]).
Qed.

(** Over the cap there is a frame whose rows straddle it. *)
Lemma straddling_frame_exists (t : Terminal) (fs : list nat) (h maxLines : Z) :
  h < maxLines <= h + retainedRows t fs ->
  exists older frame newer,
    fs = older ++ frame :: newer
    /\ h + retainedRows t newer < maxLines
       <= h + retainedRows t newer + scrollbackRows t frame.
Proof.
  revert h. induction fs as [|x fs IH] using rev_ind; intros h Hh.
  - change (retainedRows t []) with 0 in Hh. lia.
  - rewrite retainedRows_app, retainedRows_cons in Hh.
    change (retainedRows t []) with 0 in Hh.
    destruct (Z.le_gt_cases maxLines (h + scrollbackRows t x)) as [Hstop|Hgo].
    + exists fs, x, []. change (retainedRows t []) with 0. split; [reflexivity|lia].
    + destruct (IH (h + scrollbackRows t x)) as (older & frame & newer & -> & Hin); [lia|].
      exists older, frame, (newer ++ [x]). split; [now rewrite <- app_assoc|].
      rewrite retainedRows_app, retainedRows_cons.
      change (retainedRows t []) with 0. lia.
Qed.

Lemma enforceScrollbackLinesSize_bound (t : Terminal) (size : TerminalSize)
    (maxLines : Z) :
  computeTerminalSize t = Some size ->
  - rows size < maxLines ->
  forallb (hasBlock t) (blockFrames t) = true ->
  NoDup (heldBlocks t) ->
  exists t',
    enforceScrollbackLinesSize maxLines t = (Normal tt, t')
    /\ rowsOutsideViewport t' size <= maxLines.
Proof.
  intros Hsize Hrows Hblocks Hnodup.
  destruct (Z.lt_ge_cases (rowsOutsideViewport t size) maxLines) as [Hunder|Hover].
  - exists t. split; [now apply (enforceScrollbackLinesSize_under_cap t size)|lia].
  - unfold rowsOutsideViewport in Hover.
    destruct (straddling_frame_exists t (blockFrames t) (- rows size) maxLines)
      as (older & frame & newer & Hbfs & Hin); [lia|].
    pose proof (retainedRows_nonneg t newer) as Hpos.
    assert (Hframe : exists b tb,
               getBlock (cells (frames t) frame) = Some b
               /\ cells (blocks t) b = BlockTerminal tb
               /\ scrollbackRows t frame = Z.of_nat (length (scrollback tb))).
    { unfold scrollbackRows in *.
      destruct (getBlock (cells (frames t) frame)) as [b|]; [|lia].
      destruct (cells (blocks t) b) as [tb|] eqn:Hb; [|lia].
      now exists b, tb. }
    destruct Hframe as (b & tb & Hfb & Hb & Hlen).
    rewrite Hbfs, forallb_app in Hblocks. apply andb_prop in Hblocks as [Holder _].
    assert (Hnewer : forallb (holdsOtherBlock t b) newer = true).
    { unfold heldBlocks in Hnodup. rewrite Hbfs, map_app in Hnodup. cbn in Hnodup.
      apply list.NoDup_app in Hnodup as (_ & _ & Hnd).
      apply list.NoDup_cons in Hnd as [Hnotin _].
      apply forallb_forall. intros f Hf. unfold holdsOtherBlock.
      apply negb_true_iff, bool_decide_eq_false. intros Hsame. apply Hnotin.
      rewrite Hfb, <- Hsame. apply list_elem_of_In.
      exact (in_map (fun f => getBlock (cells (frames t) f)) newer f Hf). }
    destruct (enforceScrollbackLinesSize_straddle t size maxLines older newer frame b tb
                Hsize Hbfs Hfb Hb) as (t' & Hrun & _ & _ & _ & _ & Hexact);
      try assumption; try lia.
    exists t'. split; [exact Hrun|lia].
Qed.

(** A cap at or below minus the viewport height makes the first loop end
    before it starts, and the access after it is out of range. *)
Lemma enforceScrollbackLinesSize_cap_below_viewport (t : Terminal) (size : TerminalSize)
    (maxLines : Z) :
  computeTerminalSize t = Some size ->
  maxLines <= - rows size ->
  enforceScrollbackLinesSize maxLines t = (Throw TypeError, t).
Proof.
  intros Hsize Hcap.
  unfold enforceScrollbackLinesSize, bind at 1, gets at 1. cbn. rewrite Hsize.
  unfold bind at 1, gets at 1. cbn. unfold bind at 1.
  rewrite skipVisibleBlocks_done by lia.
  destruct (Z.ltb_spec (- rows size) maxLines) as [Hlt|_]; [lia|].
  unfold bind at 1, blockFrameAt, bind at 1, gets at 1. cbn.
  replace (Z.of_nat (length (blockFrames t)) - 1 + 1)
    with (Z.of_nat (length (blockFrames t))) by lia.
  destruct (Z.ltb_spec (Z.of_nat (length (blockFrames t))) 0) as [Hneg|_]; [lia|].
  rewrite Nat2Z.id, (lookup_ge_None_2 (blockFrames t)) by lia. reflexivity.
Qed.

(** * Further properties of the code *)

(** ** White space at the ends of a text *)

Lemma trimEnd_fixed (s : string) : trimEnd (trimEnd s) = trimEnd s.
Proof.
  induction s as [|c r IH]; [reflexivity|].
  cbn [trimEnd]. destruct (isWhiteSpace c && String.eqb (trimEnd r) "") eqn:Hc;
    [reflexivity|].
  cbn [trimEnd]. now rewrite IH, Hc.
Qed.

Lemma trimEnd_trim (s : string) : trimEnd (trim s) = trim s.
Proof. apply trimEnd_fixed. Qed.

Lemma trimStart_head (s : string) :
  trimStart s = "" \/ exists c r, trimStart s = String c r /\ isWhiteSpace c = false.
Proof.
  induction s as [|c r IH]; [now left|].
  cbn [trimStart]. destruct (isWhiteSpace c) eqn:Hc; [exact IH|].
  right. now exists c, r.
Qed.

Lemma trim_head (s : string) :
  trim s = "" \/ exists c r, trim s = String c r /\ isWhiteSpace c = false.
Proof.
  unfold trim. destruct (trimStart_head s) as [-> | (c & r & -> & Hc)]; [now left|].
  right. exists c, (trimEnd r). cbn [trimEnd]. now rewrite Hc.
Qed.

(** A text that [trimEnd] leaves alone does not end in white space. *)
Lemma trimEnd_last (pre : string) (c : ascii) :
  trimEnd (pre +:+ String c "") = pre +:+ String c "" -> isWhiteSpace c = false.
Proof.
  induction pre as [|d r IH]; rewrite ?append_empty, ?append_String; cbn [trimEnd].
  - destruct (isWhiteSpace c); [discriminate|reflexivity].
  - destruct (isWhiteSpace d && String.eqb (trimEnd (r +:+ String c "")) "");
      [discriminate|].
    intros [= Hr]. now apply IH.
Qed.

Lemma trimEnd_cons (c : ascii) (r : string) :
  trimEnd (String c r) = String c r ->
  trimEnd r = r /\ (isWhiteSpace c = true -> r <> "").
Proof.
  cbn [trimEnd]. destruct (isWhiteSpace c) eqn:Hc; cbn.
  - destruct (String.eqb_spec (trimEnd r) "") as [He|Hne]; [discriminate|].
    intros [= Hr]. split; [exact Hr|]. intros _. now rewrite <- Hr.
  - intros [= Hr]. split; [exact Hr|discriminate].
Qed.

(** ** The pieces of [split(/\s+/)] *)

Lemma splitWs_nonempty (g : bool) (s : string) : splitWs g s <> [].
Proof.
  revert g. induction s as [|c r IH]; intros g; cbn [splitWs]; [discriminate|].
  destruct (isWhiteSpace c).
  - destruct g; [apply IH|discriminate].
  - destruct (splitWs false r); discriminate.
Qed.

(** In a text that does not end in white space, only the first piece can be
    empty, and only when the text begins with white space. *)
Lemma splitWs_pieces (s : string) :
  trimEnd s = s ->
  (forall g, Forall (fun p => p <> "") (tail (splitWs g s)))
  /\ (s <> "" -> exists p ps, splitWs true s = p :: ps /\ p <> "").
Proof.
  induction s as [|c r IH]; intros Hs.
  - split; [intros g; constructor|congruence].
  - apply trimEnd_cons in Hs as [Hr Hnext]. destruct (IH Hr) as [IHtail IHhead].
    cbn [splitWs]. destruct (isWhiteSpace c) eqn:Hc.
    + specialize (Hnext eq_refl). destruct (IHhead Hnext) as (p & ps & Hsplit & Hp).
      split.
      * intros [|]; [apply IHtail|].
        cbn [tail]. pose proof (IHtail true) as Htail. rewrite Hsplit in *.
        now constructor.
      * intros _. now exists p, ps.
    + pose proof (IHtail false) as Htail.
      destruct (splitWs false r) as [|p ps] eqn:Hsplit;
        [now apply splitWs_nonempty in Hsplit|].
      split; [intros g; exact Htail|].
      intros _. now exists (String c p), ps.
Qed.

(** The pieces of a trimmed command line: one empty piece for the blank
    line, otherwise no empty piece at all. *)
Lemma command_parts (command : string) :
  (trim command = "" /\ splitWhitespace (trim command) = [""])
  \/ Forall (fun p => p <> "") (splitWhitespace (trim command)).
Proof.
  destruct (trim_head command) as [Hempty | (c & r & Hcr & Hc)].
  - left. now rewrite Hempty.
  - right. pose proof (trimEnd_trim command) as Hfixed.
    destruct (splitWs_pieces _ Hfixed) as [Htail _]. specialize (Htail false).
    unfold splitWhitespace. rewrite Hcr in *. cbn [splitWs] in *. rewrite Hc in *.
    destruct (splitWs false r) as [|p ps]; cbn [tail] in Htail;
      constructor; (discriminate || assumption).
Qed.

(** A text that ends in white space has an empty last piece, after at
    least one other piece. *)
Lemma splitWs_trailing (m : string) (w : ascii) :
  isWhiteSpace w = true ->
  (exists ps, splitWs true (m +:+ String w "") = ps ++ [""])
  /\ (exists p ps, splitWs false (m +:+ String w "") = p :: ps ++ [""]).
Proof.
  intros Hw. induction m as [|c r [[ps Hgap] (p & qs & Hword)]];
    rewrite ?append_empty, ?append_String; cbn [splitWs]; rewrite ?Hw.
  - split; [now exists []|now exists "", []].
  - destruct (isWhiteSpace c).
    + rewrite Hgap. split; [now exists ps|now exists "", ps].
    + rewrite Hword. split; [now exists (String c p :: qs)|now exists (String c p), qs].
Qed.

Lemma namePartsMatch_prefix (ms cs : list string) :
  namePartsMatch ms cs = true <-> exists rest, cs = ms ++ rest.
Proof.
  revert cs. induction ms as [|m ms IH]; intros cs; cbn [namePartsMatch app].
  - split; [intros _; now exists cs|reflexivity].
  - destruct cs as [|c cs]; [split; [discriminate|intros [rest Hrest]; discriminate]|].
    destruct (String.eqb_spec m c) as [->|Hne].
    + rewrite IH. split; intros [rest Hrest]; exists rest;
        [now rewrite Hrest|now injection Hrest].
    + split; [discriminate|]. intros [rest [= <- _]]. contradiction.
Qed.

(** ** Rules that match by name *)

(** X1. A rule of match type ["name"] matches a command line exactly when the
    white-space separated words of its text are the first words of the
    trimmed command line; the test never throws. *)
Theorem name_rule_matches_leading_words (command : string) (cla : CommandLineAction) :
  cla_matchType cla = matchType_name ->
  (exists answer, commandLineActionMatches command cla = Normal answer)
  /\ (commandLineActionMatches command cla = Normal true
      <-> exists rest,
            splitWhitespace (trim command) = splitWhitespace (cla_match cla) ++ rest).
Proof.
  intros Hname. unfold commandLineActionMatches. rewrite Hname.
  split; [now eexists|].
  rewrite <- namePartsMatch_prefix. split; [now intros [= ->]|now intros ->].
Qed.

(** X2. A name rule whose text begins or ends with white space matches no
    command line, and a name rule with the empty text matches the blank
    command line only. *)
Theorem name_rule_with_white_space_at_its_ends_never_matches (command : string)
    (cla : CommandLineAction) :
  cla_matchType cla = matchType_name ->
  (forall w r, cla_match cla = String w r -> isWhiteSpace w = true ->
     commandLineActionMatches command cla = Normal false)
  /\ (forall m w, cla_match cla = m +:+ String w "" -> isWhiteSpace w = true ->
        commandLineActionMatches command cla = Normal false)
  /\ (cla_match cla = "" ->
      (commandLineActionMatches command cla = Normal true <-> trim command = "")).
Proof.
  intros Hname.
  assert (Hno : forall ms,
             splitWhitespace (cla_match cla) = ms ->
             ~ (exists rest, splitWhitespace (trim command) = ms ++ rest) ->
             commandLineActionMatches command cla = Normal false).
  { intros ms Hms Hnot. unfold commandLineActionMatches. rewrite Hname, Hms.
    destruct (namePartsMatch ms _) eqn:Hmatch; [|reflexivity].
    now apply namePartsMatch_prefix in Hmatch. }
  split; [|split].
  - intros w r Hcla Hw.
    destruct (splitWs true r) as [|p ps] eqn:Hr; [now apply splitWs_nonempty in Hr|].
    apply (Hno ("" :: p :: ps)).
    + rewrite Hcla. unfold splitWhitespace. cbn [splitWs]. now rewrite Hw, Hr.
    + intros [rest Hrest].
      destruct (command_parts command) as [[_ Hblank] | Hparts].
      * rewrite Hblank in Hrest. discriminate.
      * rewrite Hrest in Hparts. now inversion Hparts.
  - intros m w Hcla Hw.
    destruct (splitWs_trailing m w Hw) as [_ (p & ps & Hsplit)].
    apply (Hno (p :: ps ++ [""])).
    + now rewrite Hcla.
    + intros [rest Hrest].
      destruct (command_parts command) as [[_ Hblank] | Hparts].
      * rewrite Hblank in Hrest. destruct ps; discriminate.
      * rewrite Hrest in Hparts. cbn in Hparts. inversion Hparts as [|? ? _ Htail].
        rewrite <- app_assoc in Htail. apply Forall_app in Htail as [_ Htail].
        now inversion Htail.
  - intros Hcla. unfold commandLineActionMatches. rewrite Hname, Hcla.
    change (splitWhitespace "") with [""].
    destruct (command_parts command) as [[Hblank Hparts] | Hparts].
    + rewrite Hparts, Hblank. cbn. split; reflexivity.
    + destruct (splitWhitespace (trim command)) as [|p ps] eqn:Hsplit.
      * cbn. split; [discriminate|].
        intros Hblank. rewrite Hblank in Hsplit. discriminate.
      * inversion Hparts as [|? ? Hp _]. cbn [namePartsMatch].
        destruct (String.eqb_spec "" p) as [<-|_]; [contradiction|].
        split; [discriminate|]. intros Hblank. rewrite Hblank in Hsplit.
        injection Hsplit as <- _. contradiction.
Qed.

(** ** Rules that match by pattern *)

(** X3. A rule whose pattern the [RegExp] constructor rejects makes the frame
    decision throw a SyntaxError for every command line that reaches it,
    that is, that no earlier rule matches; nothing is changed. *)
Theorem malformed_pattern_rule_throws (t : Terminal) (cfg : ConfigDatabase)
    (commandLine : string) (linesOfOutput : Z)
    (before later : list CommandLineAction) (bad : CommandLineAction) :
  configDatabase t = Some cfg ->
  trim commandLine <> "" ->
  getCommandLineActionConfig cfg = Some (before ++ bad :: later) ->
  Forall (fun r => commandLineActionMatches commandLine r = Normal false) before ->
  cla_matchType bad = matchType_regexp ->
  regexpTest (cla_match bad) (trim commandLine) = None ->
  commandNeedsFrame (Some commandLine) linesOfOutput t = (Throw SyntaxError, t).
Proof.
  intros Hcfg Hblank Hrules Hbefore Htype Hbad.
  apply String.eqb_neq in Hblank.
  unfold commandNeedsFrame, bind, gets, throw. cbn. rewrite Hcfg, Hblank, Hrules. cbn.
  assert (Hsay : commandLineActionsSay commandLine linesOfOutput (before ++ bad :: later)
                 = Throw SyntaxError).
  { clear Hrules. induction Hbefore as [|r rest Hr _ IH]; cbn.
    - unfold commandLineActionMatches. now rewrite Htype, Hbad.
    - now rewrite Hr. }
  now rewrite Hsay.
Qed.

(** ** The bash history number *)

(** X4. When the trimmed payload of a bash BRACKET_START has no space, the
    search answers -1 and [slice(-1)] keeps the last character: that
    character is the recorded command line. An empty payload records the
    empty text. *)
Theorem bash_payload_without_space_keeps_last_character (data : string) :
  indexOf " " (trim data) = -1 ->
  (forall pre c, trim data = pre +:+ String c "" ->
     cleanBashCommandLine data = String c "")
  /\ (trim data = "" -> cleanBashCommandLine data = "").
Proof.
  intros Hno. unfold cleanBashCommandLine. cbn zeta. rewrite Hno. split.
  - intros pre c Hdata.
    pose proof (trimEnd_trim data) as Hfixed. rewrite Hdata in *.
    apply trimEnd_last in Hfixed.
    unfold slice. rewrite string_length_app. cbn [String.length].
    destruct (Z.ltb_spec (-1) 0) as [_|Hge]; [|lia].
    replace (Z.to_nat (Z.max (Z.of_nat (String.length pre + 1) + -1) 0))
      with (String.length pre) by lia.
    rewrite dropChars_app. unfold trim. cbn [trimStart]. rewrite Hfixed.
    cbn [trimEnd]. now rewrite Hfixed.
  - intros ->. reflexivity.
Qed.

(** ** Calls that leave a part of the terminal alone *)

Abbreviation keeping := (@keeps E D _ _).

Lemma keeps_bind {A B C} (part : Terminal -> C) (m : M A) (k : A -> M B) :
  keeping part m -> (forall a, keeping part (k a)) -> keeping part (bind m k).
Proof.
  intros Hm Hk t. unfold bind. specialize (Hm t).
  destruct (m t) as [[a|e] t1]; cbn in *; [|exact Hm].
  now rewrite Hk.
Qed.

(** A call that changes nothing keeps every part. *)
Lemma keeps_all {A C} (part : Terminal -> C) (m : M A) :
  keeping id m -> keeping part m.
Proof. intros Hm t. unfold keeps, id in Hm. now rewrite Hm. Qed.

#[local] Hint Unfold
  findLastDecoratedFrame disposeBlockOf destroyFrame commandDeleteLastFrame
  appendExtensionBlock appendExtensionBlockByName appendExtensionBlockWithBulkFile
  handleShowFile enforceScrollbackFrameSize laterEnforceScrollbackSize dispose
  handleTitle handleUploadFinished setPty appendScrollbackLines layOut
  : terminal_calls.

Ltac keeps_part :=
  repeat first
    [ assumption
    | solve [intros ?; reflexivity]
    | solve [apply keeps_all; auto]
    | apply keeps_bind; [|intros]
    | match goal with
      | |- keeps _ (match ?x with _ => _ end) => destruct x
      | |- keeps _ (if ?b then _ else _) => destruct b
      | |- keeps _ (let '(_, _) := ?x in _) => destruct x
      | |- keeps _ (onDownloadHandler ?op) =>
          let t := fresh "t" in
          intros t; unfold onDownloadHandler; destruct (op (downloadHandler t));
          reflexivity
      end
    | progress autounfold with terminal_calls ].

Lemma reads_skipVisibleBlocks (maxLines : Z) (n : nat) (h : Z) :
  keeping id (skipVisibleBlocks maxLines n h).
Proof.
  revert h. induction n as [|i IH]; intros h; cbv beta iota fix delta [skipVisibleBlocks]; keeps_part; try apply IH.
Qed.

Lemma reads_skipVisibleFrames (viewportRows : Z) (n : nat) (h : Z) :
  keeping id (skipVisibleFrames viewportRows n h).
Proof.
  revert h. induction n as [|i IH]; intros h; cbv beta iota fix delta [skipVisibleFrames]; keeps_part; try apply IH.
Qed.

Lemma reads_disposeBlocks (fs : list nat) : keeping id (disposeBlocks fs).
Proof. induction fs as [|f fs IH]; cbn [disposeBlocks]; keeps_part. Qed.

Lemma reads_commandNeedsFrame (c : option string) (n : Z) : keeping id (commandNeedsFrame c n).
Proof. intros t. apply commandNeedsFrame_reads. Qed.

Lemma reads_findEmptyDecoratedFrame : keeping id findEmptyDecoratedFrame.
Proof. intros t. apply findEmptyDecoratedFrame_reads. Qed.

Lemma keeps_removeOldestFrames {C} (part : Terminal -> C) (n : nat) :
  (forall v t, part (set_blockFrames v t) = part t) ->
  keeping part (removeOldestFrames n).
Proof.
  intros Hpart. induction n as [|i IH]; cbv beta iota fix delta [removeOldestFrames]; keeps_part.
  intros t. apply Hpart.
Qed.

Lemma keeps_chopOldestFrames {C} (part : Terminal -> C) (n : nat) :
  (forall v t, part (set_blockFrames v t) = part t) ->
  keeping part (chopOldestFrames n).
Proof.
  intros Hpart. induction n as [|i IH]; cbv beta iota fix delta [chopOldestFrames]; keeps_part.
  intros t. apply Hpart.
Qed.

Lemma keeps_applyInputStreamFilters {C} (part : Terminal -> C) (filters : list nat)
    (data : string) :
  (forall v t, part (set_uploaders v t) = part t) ->
  (forall v t, part (set_inputStreamFilters v t) = part t) ->
  keeping part (applyInputStreamFilters filters data).
Proof.
  intros Hup Hfilters. revert data.
  induction filters as [|f rest IH]; intros data; cbn [applyInputStreamFilters];
    keeps_part; try apply IH.
  - intros t. apply Hup.
  - intros t. apply Hfilters.
Qed.

(** The tactic with the loops of the code at hand. *)
Ltac keeps_calls :=
  pose proof reads_skipVisibleBlocks;
  pose proof reads_skipVisibleFrames;
  pose proof reads_disposeBlocks;
  pose proof reads_commandNeedsFrame;
  pose proof reads_findEmptyDecoratedFrame;
  keeps_part;
  try (apply keeps_removeOldestFrames; intros; reflexivity);
  try (apply keeps_chopOldestFrames; intros; reflexivity);
  try (apply keeps_applyInputStreamFilters; intros; reflexivity).

(** X5. Command brackets, extension blocks, the deletion of a frame and both
    scrollback caps never write to the pty and never touch the input
    filters, the uploaders or the progress bar. *)
Theorem frame_handling_leaves_input_alone (blockName mimeType : string)
    (guessed : option string) (bulkFile : BulkFile) (code : option string) :
  keeping inputPart handleApplicationModeBracketStart
  /\ keeping inputPart handleApplicationModeBracketEnd
  /\ keeping inputPart (closeLastEmbeddedViewer code)
  /\ keeping inputPart handleDidAppendScrollbackLines
  /\ keeping inputPart laterEnforceScrollbackSize
  /\ keeping inputPart commandDeleteLastFrame
  /\ keeping inputPart (appendExtensionBlockByName mimeType blockName)
  /\ keeping inputPart (handleShowFile guessed bulkFile).
Proof.
  repeat split; keeps_calls.
Qed.

(** X6. Terminal input, frame replay, the end of an upload and a title
    change never change [#blockFrames], a frame or a block; nor does the
    start of an application mode sequence whose second
    parameter is not ["5"], nor a chunk of data outside SHOW_FILE. (In
    SHOW_FILE the two call the download handler, which shows the file it
    has received.) *)
Theorem input_handling_leaves_frames_alone (params : list string) (data input title : string)
    (frameId : option string) (uploader : nat) :
  keeping framesPart (handleTermData input)
  /\ keeping framesPart (handleRequestFrame frameId)
  /\ keeping framesPart (handleUploadFinished uploader)
  /\ keeping framesPart (handleTitle title)
  /\ (forall t : Terminal,
        params !! 1%nat <> Some "5" ->
        framesPart (after (handleApplicationModeStart params) t) = framesPart t)
  /\ (forall t : Terminal,
        applicationMode t <> APPLICATION_MODE_SHOW_FILE ->
        framesPart (after (handleApplicationModeData data) t) = framesPart t).
Proof.
  assert (Hstart : keeping framesPart (handleApplicationModeStart params)) by keeps_calls.
  assert (Hdata : keeping framesPart (handleApplicationModeData data)) by keeps_calls.
  repeat split; try keeps_calls.
  - intros t _. apply Hstart.
  - intros t _. apply Hdata.
Qed.

(** ** What holds when a call returns *)

Abbreviation ensures := (@wp E D _).

Lemma wp_bind {A B} (m : M A) (k : A -> M B) (Q : B -> Terminal -> Prop) (t : Terminal) :
  ensures m (fun a t1 => ensures (k a) Q t1) t -> ensures (bind m k) Q t.
Proof. unfold wp, bind. now destruct (m t) as [[a|e] t1]. Qed.

Lemma wp_ret {A} (a : A) (Q : A -> Terminal -> Prop) (t : Terminal) :
  Q a t -> ensures (ret a) Q t.
Proof. intros HQ. exact HQ. Qed.

Lemma wp_gets {A} (f : Terminal -> A) (Q : A -> Terminal -> Prop) (t : Terminal) :
  Q (f t) t -> ensures (gets f) Q t.
Proof. intros HQ. exact HQ. Qed.

Lemma wp_modify (f : Terminal -> Terminal) (Q : unit -> Terminal -> Prop) (t : Terminal) :
  Q tt (f t) -> ensures (modify f) Q t.
Proof. intros HQ. exact HQ. Qed.

Lemma wp_throw {A} (e : Exception) (Q : A -> Terminal -> Prop) (t : Terminal) :
  ensures (throw e) Q t.
Proof. exact I. Qed.

Lemma wp_mono {A} (m : M A) (Q Q' : A -> Terminal -> Prop) (t : Terminal) :
  ensures m Q t -> (forall a t', Q a t' -> Q' a t') -> ensures m Q' t.
Proof. unfold wp. destruct (m t) as [[a|e] t1]; auto. Qed.

Lemma wp_keeps {A C} (part : Terminal -> C) (m : M A) (Q : A -> Terminal -> Prop)
    (t : Terminal) :
  keeping part m -> (forall a t', part t' = part t -> Q a t') -> ensures m Q t.
Proof.
  intros Hm HQ. unfold wp. specialize (Hm t).
  destruct (m t) as [[a|e] t1]; [|exact I]. now apply HQ.
Qed.

Lemma wp_outcome {A} (m : M A) (Q : A -> Terminal -> Prop) (t : Terminal) (a : A) :
  ensures m Q t -> outcome m t = Normal a -> Q a (after m t).
Proof.
  unfold wp, outcome, after. destruct (m t) as [[a'|e] t1]; cbn; [|discriminate].
  now intros HQ [= ->].
Qed.

Ltac wp_step :=
  lazymatch goal with
  | |- wp (bind _ _) _ _ => apply wp_bind
  | |- wp (ret _) _ _ => apply wp_ret
  | |- wp (gets _) _ _ => apply wp_gets
  | |- wp (modify _) _ _ => apply wp_modify
  | |- wp (throw _) _ _ => apply wp_throw
  | |- wp (deref _) _ _ => unfold deref
  | |- wp (if ?b then _ else _) _ _ => destruct b eqn:?
  | |- wp (match ?x with _ => _ end) _ _ => destruct x eqn:?
  end;
  cbn beta iota.

(** ** Entering the application mode *)

Lemma string_append_assoc (a b c : string) : (a +:+ b) +:+ c = a +:+ (b +:+ c).
Proof.
  induction a as [|d r IH]; rewrite ?append_empty, ?append_String;
    [reflexivity|now rewrite IH].
Qed.

(** X7. With the session cookie first, the second parameter selects the
    sub-mode whose number it spells: the mode is entered with an empty
    buffer, BRACKET_START records the third parameter as the bracket style
    ([undefined] when there is none), and SHOW_FILE answers what the
    download handler answers to the remaining parameters. *)
Theorem start_with_cookie_selects_sub_mode (t : Terminal) (mode : ApplicationMode)
    (extra : list string) :
  mode <> APPLICATION_MODE_NONE ->
  let start := handleApplicationModeStart (cookie t :: modeCode mode :: extra) in
  applicationMode (after start t) = mode
  /\ applicationModeData (after start t) = Some ""
  /\ (mode = APPLICATION_MODE_OUTPUT_BRACKET_START ->
      bracketStyle (after start t) = head extra)
  /\ (mode <> APPLICATION_MODE_OUTPUT_BRACKET_START ->
      bracketStyle (after start t) = bracketStyle t)
  /\ (mode <> APPLICATION_MODE_SHOW_FILE -> outcome start t = Normal (respond CONTINUE))
  /\ (mode = APPLICATION_MODE_SHOW_FILE ->
      outcome start t = Normal (handleStart extra (downloadHandler t)).1).
Proof.
  intros Hmode start. subst start.
  unfold outcome, after, handleApplicationModeStart, bind, modify, gets, ret,
    onDownloadHandler.
  cbn. rewrite String.eqb_refl. cbn.
  destruct mode; try contradiction; cbn;
    try (destruct (handleStart extra (downloadHandler t)) as [r d]; cbn);
    repeat split; try reflexivity; try congruence; try discriminate;
    intros _; now destruct extra.
Qed.

(** X8. With the session cookie alone the start is aborted. With the cookie
    and a second parameter that spells no sub-mode (["0"] included), the
    start is accepted with CONTINUE, the buffer is emptied and the mode is
    the one that was active before. *)
Theorem start_without_known_sub_mode (t : Terminal) (second : string)
    (extra : list string) :
  (outcome (handleApplicationModeStart [cookie t]) t = Normal (respond ABORT)
   /\ applicationMode (after (handleApplicationModeStart [cookie t]) t) = applicationMode t)
  /\ ((forall mode, mode <> APPLICATION_MODE_NONE -> second <> modeCode mode) ->
      let start := handleApplicationModeStart (cookie t :: second :: extra) in
      outcome start t = Normal (respond CONTINUE)
      /\ applicationMode (after start t) = applicationMode t
      /\ bracketStyle (after start t) = bracketStyle t
      /\ applicationModeData (after start t) = Some "").
Proof.
  split.
  - unfold outcome, after, handleApplicationModeStart, bind, modify, gets, ret.
    cbn. rewrite String.eqb_refl. cbn. split; reflexivity.
  - intros Hunknown start. subst start.
    unfold outcome, after, handleApplicationModeStart, bind, modify, gets, ret.
    cbn. rewrite String.eqb_refl. cbn.
    assert (Hno : forall mode, mode <> APPLICATION_MODE_NONE ->
                    String.eqb second (modeCode mode) = false).
    { intros mode Hmode. apply String.eqb_neq. now apply Hunknown. }
    pose proof (Hno APPLICATION_MODE_OUTPUT_BRACKET_START ltac:(discriminate)) as H2.
    pose proof (Hno APPLICATION_MODE_OUTPUT_BRACKET_END ltac:(discriminate)) as H3.
    pose proof (Hno APPLICATION_MODE_REQUEST_FRAME ltac:(discriminate)) as H4.
    pose proof (Hno APPLICATION_MODE_SHOW_FILE ltac:(discriminate)) as H5.
    cbn in H2, H3, H4, H5. rewrite H2, H3, H4, H5. cbn. repeat split.
Qed.

(** ** Collecting the payload *)

(** X9. In the modes BRACKET_START, BRACKET_END and REQUEST_FRAME the buffer
    grows by each chunk, so that a payload delivered in two chunks leaves
    the terminal as the same payload delivered in one; outside an
    application mode a chunk is dropped. *)
Theorem payload_chunks_accumulate (t : Terminal) (first second : string) :
  (forall buffer,
      collecting (applicationMode t) = true ->
      applicationModeData t = Some buffer ->
      handleApplicationModeData first t
      = (Normal (respond CONTINUE), set_applicationModeData (Some (buffer +:+ first)) t)
      /\ after (handleApplicationModeData second) (after (handleApplicationModeData first) t)
         = after (handleApplicationModeData (first +:+ second)) t)
  /\ (applicationMode t = APPLICATION_MODE_NONE ->
      handleApplicationModeData first t = (Normal (respond CONTINUE), t)).
Proof.
  split.
  - intros buffer Hmode Hbuffer.
    unfold after, handleApplicationModeData, bind, gets, modify, ret. cbn.
    destruct (applicationMode t) eqn:Hm; try discriminate; cbn; rewrite ?Hm; cbn;
      rewrite Hbuffer; cbn; rewrite string_append_assoc; split; reflexivity.
  - intros Hmode. unfold handleApplicationModeData, bind, gets, ret. cbn.
    now rewrite Hmode.
Qed.

Lemma keeps_mode_handlers (frameId : option string) :
  keeping modePart handleApplicationModeBracketStart
  /\ keeping modePart handleApplicationModeBracketEnd
  /\ keeping modePart (handleRequestFrame frameId).
Proof. repeat split; keeps_calls. Qed.

(** X10. The buffer is a string whenever a payload is being collected: that
    holds for a new terminal and is kept by the three handlers of the
    application mode, however they end. So the text ["null"], which
    [null + data] would give, is never part of a payload. *)
Theorem buffer_is_text_while_collecting (t : Terminal) (params : list string)
    (data : string) :
  bufferReady t ->
  bufferReady (after (handleApplicationModeStart params) t)
  /\ bufferReady (after (handleApplicationModeData data) t)
  /\ bufferReady (after handleApplicationModeEnd t)
  /\ (collecting (applicationMode t) = true ->
      exists buffer,
        applicationModeData t = Some buffer
        /\ applicationModeData (after (handleApplicationModeData data) t)
           = Some (buffer +:+ data)).
Proof.
  intros Hready. unfold bufferReady in *. split; [|split; [|split]].
  - intros _. unfold after, handleApplicationModeStart.
    unfold bind at 1, modify at 1. cbn.
    match goal with
    | |- is_Some (applicationModeData (?m ?s).2) =>
        assert (Hk : keeping applicationModeData m) by keeps_calls;
        rewrite (Hk s)
    end.
    now eexists.
  - unfold after, handleApplicationModeData, bind, gets, modify, ret,
      onDownloadHandler. cbn.
    destruct (applicationMode t) eqn:Hm; cbn; rewrite ?Hm; cbn;
      try (intros _; now eexists); try discriminate.
    destruct (handleData data (downloadHandler t)). cbn. now rewrite Hm.
  - destruct (keeps_mode_handlers (applicationModeData t)) as (Hstart & Hend & Hrequest).
    specialize (Hstart t). specialize (Hend t). specialize (Hrequest t).
    unfold modePart in Hstart, Hend, Hrequest.
    unfold after. destruct (handleApplicationModeEnd t) as [c t'] eqn:Hrun. cbn.
    revert Hrun. unfold handleApplicationModeEnd. unfold bind at 1, gets at 1. cbn.
    destruct (applicationMode t) eqn:Hm.
    + cbn. intros [= <- <-]. discriminate.
    + unfold bind at 1.
      destruct (handleApplicationModeBracketStart t) as [[[]|e] t1]; cbn in *;
        intros [= <- <-]; [discriminate|].
      injection Hstart as -> ->. exact Hready.
    + unfold bind at 1.
      destruct (handleApplicationModeBracketEnd t) as [[[]|e] t1]; cbn in *;
        intros [= <- <-]; [discriminate|].
      injection Hend as -> ->. exact Hready.
    + unfold bind at 1, gets at 1. cbn. unfold bind at 1.
      destruct (handleRequestFrame (applicationModeData t) t) as [[[]|e] t1]; cbn in *;
        intros [= <- <-]; [discriminate|].
      injection Hrequest as -> ->. exact Hready.
    + unfold onDownloadHandler. destruct (handleStop (downloadHandler t)).
      intros [= <- <-]. cbn. rewrite Hm. discriminate.
  - intros Hmode. destruct (Hready Hmode) as [buffer Hbuffer]. exists buffer.
    split; [exact Hbuffer|].
    unfold after, handleApplicationModeData, bind, gets, modify, ret. cbn.
    destruct (applicationMode t) eqn:Hm; try discriminate; cbn; now rewrite Hbuffer.
Qed.

Lemma bufferReady_construct (config : option ConfigDatabase) (tagSource : Z)
    (finder : option (option string -> option BulkFile)) (randomCookie : string)
    (emulator0 : E) (download0 : D) :
  bufferReady (construct config tagSource finder randomCookie emulator0 download0).
Proof. intros Hmode. discriminate Hmode. Qed.

(** ** The environment variables of a command *)

(** From a call that returned to what holds of the terminal it left. *)
Ltac by_wp Hnormal :=
  match type of Hnormal with
  | outcome ?m ?t = Normal ?a =>
      match goal with
      | |- ?G =>
          let P := eval pattern (after m t) in G in
          lazymatch P with
          | ?F _ => apply (wp_outcome m (fun _ => F) t a); [cbn beta|exact Hnormal]
          end
      end
  end.

(** X11. A BRACKET_END that returns empties the variables of the current
    command and of the exit code, and hands the command line and the
    command of the current command over to the variables of the last
    command (when a current command is set at all). The exit code of the
    payload is not put into the environment. The other variables stay. *)
Theorem bracket_end_moves_current_command_to_last (t : Terminal) :
  outcome handleApplicationModeBracketEnd t = Normal tt ->
  let env := environment t in
  let env' := environment (after handleApplicationModeBracketEnd t) in
  env' EXTRATERM_EXIT_CODE = Some ""
  /\ env' EXTRATERM_CURRENT_COMMAND_LINE = Some ""
  /\ env' EXTRATERM_CURRENT_COMMAND = Some ""
  /\ (is_Some (env EXTRATERM_CURRENT_COMMAND) ->
      env' EXTRATERM_LAST_COMMAND_LINE = env EXTRATERM_CURRENT_COMMAND_LINE
      /\ env' EXTRATERM_LAST_COMMAND = env EXTRATERM_CURRENT_COMMAND)
  /\ (env EXTRATERM_CURRENT_COMMAND = None ->
      env' EXTRATERM_LAST_COMMAND_LINE = env EXTRATERM_LAST_COMMAND_LINE
      /\ env' EXTRATERM_LAST_COMMAND = env EXTRATERM_LAST_COMMAND)
  /\ env' TERM_ROWS = env TERM_ROWS
  /\ env' TERM_COLUMNS = env TERM_COLUMNS
  /\ env' TERM_TITLE = env TERM_TITLE
  /\ env' EXTRATERM_TERMINAL_HEIGHT_PIXELS = env EXTRATERM_TERMINAL_HEIGHT_PIXELS
  /\ env' EXTRATERM_TERMINAL_WIDTH_PIXELS = env EXTRATERM_TERMINAL_WIDTH_PIXELS.
Proof.
  intros Hnormal env env'. subst env env'. by_wp Hnormal.
  unfold handleApplicationModeBracketEnd.
  do 2 wp_step. wp_step.
  apply (wp_keeps environment); [keeps_calls|]. intros [] t1 Henv.
  do 2 wp_step. unfold environmentSetList. wp_step.
  cbn. rewrite Henv.
  destruct (environment t EXTRATERM_CURRENT_COMMAND) as [command|]; cbn;
    repeat split; try reflexivity; try discriminate;
    match goal with
    | Hsome : is_Some None |- _ => now destruct Hsome
    end.
Qed.

(** X12. A BRACKET_START that returns records the clean command line as the
    last command line, publishes it with its first space-separated word as
    the current command, and empties the exit code variable. *)
Theorem bracket_start_publishes_command (t : Terminal) (data : string) :
  applicationModeData t = Some data ->
  outcome handleApplicationModeBracketStart t = Normal tt ->
  let clean :=
    if bool_decide (bracketStyle t = Some "bash") then cleanBashCommandLine data
    else data in
  let env := environment t in
  let t' := after handleApplicationModeBracketStart t in
  lastCommandLine t' = Some clean
  /\ environment t' EXTRATERM_CURRENT_COMMAND_LINE = Some clean
  /\ environment t' EXTRATERM_CURRENT_COMMAND = Some (firstSpaceSeparated clean)
  /\ environment t' EXTRATERM_EXIT_CODE = Some ""
  /\ environment t' EXTRATERM_LAST_COMMAND_LINE = env EXTRATERM_LAST_COMMAND_LINE
  /\ environment t' EXTRATERM_LAST_COMMAND = env EXTRATERM_LAST_COMMAND
  /\ environment t' TERM_TITLE = env TERM_TITLE.
Proof.
  intros Hdata Hnormal clean env t'. subst env t'. by_wp Hnormal.
  unfold handleApplicationModeBracketStart.
  do 4 wp_step. rewrite Hdata. subst clean. wp_step.
  destruct (bool_decide (bracketStyle t = Some "bash"));
    repeat wp_step;
    (apply (wp_keeps id); [apply reads_commandNeedsFrame|];
     intros needs t1 Ht1; unfold id in Ht1; subst t1;
     wp_step; apply (wp_keeps environment); [keeps_calls|]; intros [] t2 Henv;
     repeat wp_step; unfold environmentSetList; wp_step;
     cbn; rewrite Henv; repeat split).
Qed.

(** ** Searching [#blockFrames] from its end *)

Lemma find_rev_some {A} (p : A -> bool) (l : list A) (d : A) :
  List.find p (rev l) = Some d
  <-> exists older newer,
        l = older ++ d :: newer /\ p d = true /\ Forall (fun x => p x = false) newer.
Proof.
  induction l as [|x l IH] using rev_ind.
  - split; [discriminate|]. intros (older & newer & Hl & _). now destruct older.
  - rewrite rev_unit. cbn [List.find]. destruct (p x) eqn:Hx.
    + split.
      * intros [= ->]. exists l, []. repeat split; [exact Hx|constructor].
      * intros (older & newer & Hl & Hd & Hnewer).
        destruct newer as [|y newer _] using rev_ind.
        -- apply app_inj_tail in Hl as [_ ->]. reflexivity.
        -- rewrite app_comm_cons, app_assoc in Hl. apply app_inj_tail in Hl as [_ ->].
           apply Forall_app in Hnewer as [_ Hy]. inversion Hy; congruence.
    + rewrite IH. split; intros (older & newer & Hl & Hd & Hnewer).
      * exists older, (newer ++ [x]). rewrite Hl, <- app_assoc. repeat split;
          [exact Hd|]. apply Forall_app. split; [exact Hnewer|now constructor].
      * destruct newer as [|y newer _] using rev_ind.
        -- apply app_inj_tail in Hl as [_ ->]. congruence.
        -- rewrite app_comm_cons, app_assoc in Hl. apply app_inj_tail in Hl as [-> ->].
           apply Forall_app in Hnewer as [Hnewer _]. now exists older, newer.
Qed.

Lemma find_rev_none {A} (p : A -> bool) (l : list A) :
  List.find p (rev l) = None <-> Forall (fun x => p x = false) l.
Proof.
  split.
  - intros Hnone. apply Forall_forall. intros x Hx.
    apply (find_none _ _ Hnone). now apply in_rev in Hx.
  - intros Hall. destruct (List.find p (rev l)) as [d|] eqn:Hfind; [|reflexivity].
    apply find_some in Hfind as [Hin Hd]. apply in_rev in Hin.
    rewrite Forall_forall in Hall. rewrite (Hall d Hin) in Hd. discriminate.
Qed.

(** X13. [findLastDecoratedFrame()] answers with the last decorated frame that
    holds a block among the frames from index 1 on, and with [null] when
    there is none there: the frame at index 0 is never looked at. On an
    empty [#blockFrames] the first access throws. Nothing is changed. *)
Theorem findLastDecoratedFrame_skips_first_frame (t : Terminal) :
  (blockFrames t = [] -> findLastDecoratedFrame t = (Throw TypeError, t))
  /\ (forall first later,
        blockFrames t = first :: later ->
        after findLastDecoratedFrame t = t
        /\ (forall d,
              outcome findLastDecoratedFrame t = Normal (Some d)
              <-> exists older newer,
                    later = older ++ d :: newer
                    /\ isFilledDecoratedFrame t d = true
                    /\ Forall (fun f => isFilledDecoratedFrame t f = false) newer)
        /\ (outcome findLastDecoratedFrame t = Normal None
            <-> Forall (fun f => isFilledDecoratedFrame t f = false) later)).
Proof.
  unfold outcome, after, findLastDecoratedFrame, bind, gets, ret, throw. cbn. split.
  - now intros ->.
  - intros first later ->. cbn. split; [reflexivity|]. split.
    + intros d. rewrite <- find_rev_some. split; [now intros [= ->]|now intros ->].
    + rewrite <- find_rev_none. split; [now intros [= ->]|now intros ->].
Qed.

(** X14. [#findEmptyDecoratedFrame()] answers with the last decorated frame
    without a block among the frames from index 1 on: a pending frame at
    index 0 is not found. On an empty [#blockFrames] the first access
    throws. *)
Theorem findEmptyDecoratedFrame_skips_first_frame (t : Terminal) :
  (blockFrames t = [] -> findEmptyDecoratedFrame t = (Throw TypeError, t))
  /\ (forall first later,
        blockFrames t = first :: later ->
        (forall d,
            outcome findEmptyDecoratedFrame t = Normal (Some d)
            <-> exists older newer,
                  later = older ++ d :: newer
                  /\ isEmptyDecoratedFrame t d = true
                  /\ Forall (fun f => isEmptyDecoratedFrame t f = false) newer)
        /\ (outcome findEmptyDecoratedFrame t = Normal None
            <-> Forall (fun f => isEmptyDecoratedFrame t f = false) later))
  /\ (forall first, blockFrames t = [first] ->
        outcome findEmptyDecoratedFrame t = Normal None).
Proof.
  unfold outcome, findEmptyDecoratedFrame, bind, gets, ret, throw. cbn.
  split; [|split].
  - now intros ->.
  - intros first later ->. cbn. split.
    + intros d. rewrite <- find_rev_some. split; [now intros [= ->]|now intros ->].
    + rewrite <- find_rev_none. split; [now intros [= ->]|now intros ->].
  - now intros first ->.
Qed.

(** ** Removing one frame *)

Lemma findIndex_absent (f : nat) (l : list nat) : ~ In f l -> findIndex f l = -1.
Proof.
  induction l as [|x l IH]; [reflexivity|].
  intros Hnot. cbn [findIndex].
  destruct (Nat.eqb_spec x f) as [->|_]; [now destruct Hnot; left|].
  rewrite IH by (intros Hin; apply Hnot; now right). reflexivity.
Qed.

Lemma findIndex_nonneg (f : nat) (l : list nat) : -1 <= findIndex f l.
Proof.
  induction l as [|x l IH]; cbn [findIndex]; [lia|].
  destruct (Nat.eqb x f); [lia|]. destruct (Z.eqb_spec (findIndex f l) (-1)); lia.
Qed.

Lemma findIndex_first (f : nat) (older newer : list nat) :
  ~ In f older -> findIndex f (older ++ f :: newer) = Z.of_nat (length older).
Proof.
  induction older as [|x older IH]; intros Hnot; cbn [findIndex app length].
  - now rewrite Nat.eqb_refl.
  - destruct (Nat.eqb_spec x f) as [->|_]; [now destruct Hnot; left|].
    rewrite IH by (intros Hin; apply Hnot; now right).
    destruct (Z.eqb_spec (Z.of_nat (length older)) (-1)); lia.
Qed.

Lemma splice1_middle (older newer : list nat) (f : nat) :
  splice1 (Z.of_nat (length older)) (older ++ f :: newer) = older ++ newer.
Proof.
  unfold splice1. destruct (Z.ltb_spec (Z.of_nat (length older)) 0) as [Hneg|_]; [lia|].
  rewrite length_app. cbn [length]. rewrite Z.min_l by lia. rewrite Nat2Z.id.
  apply delete_middle.
Qed.

Lemma removeFrameFromScrollArea_exec (t : Terminal) (older newer : list nat) (f b : nat) :
  blockFrames t = older ++ f :: newer ->
  ~ In f older ->
  getBlock (cells (frames t) f) = Some b ->
  removeFrameFromScrollArea f t = (Normal tt, set_blockFrames (older ++ newer) t).
Proof.
  intros Hbfs Hnot Hb.
  unfold removeFrameFromScrollArea, bind, gets, frameOf, deref, modify, ret, throw.
  cbn. rewrite Hb, Hbfs, (findIndex_first _ _ _ Hnot).
  destruct (Z.eqb_spec (Z.of_nat (length older)) (-1)) as [Hneg|_]; [lia|].
  cbn. now rewrite Hbfs, splice1_middle.
Qed.

Lemma removeFrameFromScrollArea_throws (t : Terminal) (f : nat) :
  ~ In f (blockFrames t) \/ getBlock (cells (frames t) f) = None ->
  removeFrameFromScrollArea f t = (Throw TypeError, t).
Proof.
  intros Hwhy.
  unfold removeFrameFromScrollArea, bind, gets, frameOf, deref, modify, ret, throw.
  cbn. destruct (getBlock (cells (frames t) f)) as [b|] eqn:Hb; [|reflexivity].
  destruct Hwhy as [Hnot|[=]]. cbn. now rewrite (findIndex_absent _ _ Hnot).
Qed.

Lemma destroyFrame_exec (t : Terminal) (older newer : list nat) (f b : nat) :
  blockFrames t = older ++ f :: newer ->
  ~ In f older ->
  getBlock (cells (frames t) f) = Some b ->
  destroyFrame f t = (Normal tt, set_blockFrames (older ++ newer) t).
Proof.
  intros Hbfs Hnot Hb. unfold destroyFrame, bind.
  rewrite (removeFrameFromScrollArea_exec t older newer f b Hbfs Hnot Hb).
  unfold disposeBlockOf, bind, frameOf, gets, deref, ret. cbn. now rewrite Hb.
Qed.

Lemma destroyFrame_throws (t : Terminal) (f : nat) :
  ~ In f (blockFrames t) \/ getBlock (cells (frames t) f) = None ->
  destroyFrame f t = (Throw TypeError, t).
Proof.
  intros Hwhy. unfold destroyFrame, bind.
  now rewrite (removeFrameFromScrollArea_throws t f Hwhy).
Qed.

(** X15. [destroyFrame(frame)] takes the frame out of [#blockFrames] and leaves
    the other frames in their order. For a frame that is not in
    [#blockFrames], and for a decorated frame that is still waiting for
    its block, it throws a TypeError and removes nothing. *)
Theorem destroyFrame_removes_one_frame (t : Terminal) (f : nat) :
  (forall older newer b,
      blockFrames t = older ++ f :: newer ->
      ~ In f older ->
      getBlock (cells (frames t) f) = Some b ->
      destroyFrame f t = (Normal tt, set_blockFrames (older ++ newer) t))
  /\ (~ In f (blockFrames t) -> destroyFrame f t = (Throw TypeError, t))
  /\ (getBlock (cells (frames t) f) = None -> destroyFrame f t = (Throw TypeError, t)).
Proof.
  split; [|split].
  - intros older newer b. apply destroyFrame_exec.
  - intros Hnot. apply destroyFrame_throws. now left.
  - intros Hnone. apply destroyFrame_throws. now right.
Qed.

(** X16. [commandDeleteLastFrame()] deletes the last decorated frame of
    [#blockFrames], also the one at index 0, and nothing when there is no
    decorated frame. When the last decorated frame is still waiting for
    its block (its command is running), the command throws a TypeError and
    deletes nothing. *)
Theorem commandDeleteLastFrame_deletes_last_decorated_frame (t : Terminal) :
  (Forall (fun f => isDecoratedFrame t f = false) (blockFrames t) ->
   commandDeleteLastFrame t = (Normal tt, t))
  /\ (forall older d newer,
        blockFrames t = older ++ d :: newer ->
        isDecoratedFrame t d = true ->
        Forall (fun f => isDecoratedFrame t f = false) newer ->
        (forall b, getBlock (cells (frames t) d) = Some b -> ~ In d older ->
           commandDeleteLastFrame t = (Normal tt, set_blockFrames (older ++ newer) t))
        /\ (getBlock (cells (frames t) d) = None ->
            commandDeleteLastFrame t = (Throw TypeError, t))).
Proof.
  split.
  - intros Hnone. apply find_rev_none in Hnone.
    unfold commandDeleteLastFrame, bind, gets, ret. cbn. now rewrite Hnone.
  - intros older d newer Hbfs Hd Hnewer.
    assert (Hfind : List.find (isDecoratedFrame t) (rev (blockFrames t)) = Some d).
    { apply find_rev_some. now exists older, newer. }
    unfold commandDeleteLastFrame, bind at 1, gets at 1. cbn. rewrite Hfind. split.
    + intros b Hb Hnot. now apply (destroyFrame_exec t older newer d b).
    + intros Hb. apply destroyFrame_throws. now right.
Qed.

(** ** Appending the block of an extension *)

Lemma appendExtensionBlock_run (t : Terminal) (extensionBlock : nat) :
  let d := next (frames t) in
  let nb := next (blocks t) in
  exists t',
    appendExtensionBlock extensionBlock t = (Normal d, t')
    /\ blockFrames t' = blockFrames t ++ [d; S d]
    /\ cells (frames t') d
       = {| frameClass := DecoratedFrame; getTag := Some (nextTag t);
            getBlock := Some extensionBlock; defaultMetadata := None |}
    /\ cells (frames t') (S d)
       = {| frameClass := SpacerFrame; getTag := None; getBlock := Some nb;
            defaultMetadata := None |}
    /\ cells (blocks t') nb
       = BlockTerminal {| scrollback := []; boundToEmulator := true;
                          commandLine := None; returnCode := None |}
    /\ nextTag t' = nextTag t + 1
    /\ lastCommandTerminalViewer t' = Some (S d).
Proof.
  intros d nb. subst d nb. unfold appendExtensionBlock.
  destruct (closeLastTerminalFrame_exec t) as (e2 & B2 & He2 & Hnext & Hrows).
  unfold bind at 1. rewrite He2.
  run. eexists. split; [reflexivity|]. cbn. rewrite Hnext.
  split; [now rewrite <- app_assoc|].
  repeat split; now lookup.
Qed.

(** X17. When [#appendExtensionBlock(block)] returns, its result is a new
    decorated frame that carries the tag of the tag source and holds the
    block, and [#blockFrames] ends with that frame and, after it, a new
    bare terminal block frame whose block is fresh, empty and bound to the
    emulator; that last frame is the viewer of the last command. *)
Theorem appendExtensionBlock_appends_two_frames (t t' : Terminal) (extensionBlock : nat)
    (result : nat) :
  appendExtensionBlock extensionBlock t = (Normal result, t') ->
  let d := next (frames t) in
  let nb := next (blocks t) in
  result = d
  /\ (exists older, blockFrames t' = older ++ [d; S d])
  /\ cells (frames t') d
     = {| frameClass := DecoratedFrame; getTag := Some (nextTag t);
          getBlock := Some extensionBlock; defaultMetadata := None |}
  /\ cells (frames t') (S d)
     = {| frameClass := SpacerFrame; getTag := None; getBlock := Some nb;
          defaultMetadata := None |}
  /\ cells (blocks t') nb
     = BlockTerminal {| scrollback := []; boundToEmulator := true;
                        commandLine := None; returnCode := None |}
  /\ lastCommandTerminalViewer t' = Some (S d).
Proof.
  intros Hreturns d nb.
  destruct (appendExtensionBlock_run t extensionBlock)
    as (t1 & Hrun & Hbfs & Hd & Hspacer & Hblock & _ & Hviewer).
  rewrite Hrun in Hreturns. injection Hreturns as <- <-.
  split; [reflexivity|]. split; [now exists (blockFrames t)|].
  repeat split; assumption.
Qed.

(** ** The cap on the number of frames *)

Lemma skipVisibleFrames_exec (t : Terminal) (viewportRows : Z) (first : nat)
    (pre post : list nat) (h : Z) :
  blockFrames t = first :: pre ++ post ->
  skipVisibleFrames viewportRows (length pre) h t
  = (Normal (Z.of_nat (length pre)
             - Z.of_nat (coveredFrames t viewportRows (rev pre) h)), t).
Proof.
  revert post h. induction pre as [|x pre IH] using rev_ind; intros post h Hbfs.
  - cbn. unfold ret. reflexivity.
  - rewrite rev_unit, length_app. cbn [length coveredFrames]. rewrite Nat.add_1_r.
    cbn [skipVisibleFrames].
    destruct (Z.ltb_spec h viewportRows) as [Hlt|Hge];
      [|unfold ret; do 2 f_equal; lia].
    unfold bind at 1. unfold blockFrameAt, bind at 1, gets at 1. cbn.
    assert (Hx : blockFrames t !! S (length pre) = Some x).
    { rewrite Hbfs, <- app_assoc. cbn. now apply list_lookup_middle. }
    destruct (Z.ltb_spec (Z.of_nat (S (length pre))) 0) as [Hneg|_]; [lia|].
    rewrite Nat2Z.id, Hx. cbn.
    assert (Hheight :
              forall k : Z -> M Z,
                bind (if isTerminalBlock t (getBlock (cells (frames t) x))
                      then bind (getScrollbackLength (getBlock (cells (frames t) x)))
                             (fun len => ret (h + len))
                      else ret h) k t
                = k (h + scrollbackRows t x) t).
    { intros k. unfold scrollbackRows, isTerminalBlock.
      destruct (getBlock (cells (frames t) x)) as [b|]; cbn.
      - destruct (cells (blocks t) b) as [tb|name] eqn:Hb; cbn.
        + unfold getScrollbackLength, bind.
          now rewrite (asTerminalBlock_exec _ _ _ Hb).
        + now rewrite Z.add_0_r.
      - now rewrite Z.add_0_r. }
    rewrite Hheight, (IH ([x] ++ post)) by (now rewrite Hbfs, <- app_assoc).
    do 2 f_equal. lia.
Qed.

Lemma coveredFrames_bound (t : Terminal) (viewportRows : Z) (l : list nat) (h : Z) :
  (coveredFrames t viewportRows l h <= length l)%nat.
Proof.
  revert h. induction l as [|f l IH]; intros h; cbn; [lia|].
  destruct (h <? viewportRows); [specialize (IH (h + scrollbackRows t f))|]; lia.
Qed.

Lemma coveredFrames_take (t : Terminal) (viewportRows : Z) (l : list nat) (h : Z)
    (m : nat) :
  (coveredFrames t viewportRows l h <= m)%nat ->
  coveredFrames t viewportRows (take m l) h = coveredFrames t viewportRows l h.
Proof.
  revert h m. induction l as [|f l IH]; intros h m Hm; [now destruct m|].
  cbn in Hm. destruct m as [|m]; cbn.
  - destruct (h <? viewportRows); [lia|reflexivity].
  - destruct (h <? viewportRows); [|reflexivity]. rewrite IH; [reflexivity|lia].
Qed.

Lemma coveredFrames_ext (t t' : Terminal) (viewportRows : Z) (l : list nat) (h : Z) :
  frames t' = frames t -> blocks t' = blocks t ->
  coveredFrames t' viewportRows l h = coveredFrames t viewportRows l h.
Proof.
  intros Hf Hb. revert h. induction l as [|f l IH]; intros h; [reflexivity|].
  cbn. unfold scrollbackRows. now rewrite Hf, Hb, IH.
Qed.

Lemma chopOldestFrames_exec (t : Terminal) (older rest : list nat) :
  blockFrames t = older ++ rest ->
  forallb (hasBlock t) older = true ->
  chopOldestFrames (length older) t = (Normal tt, set_blockFrames rest t).
Proof.
  revert t. induction older as [|f older IH]; intros t Hbfs Hblocks.
  - cbn in *. unfold ret. rewrite <- Hbfs. now destruct t.
  - cbn in Hblocks. apply andb_prop in Hblocks as [Hf Holder].
    apply bool_decide_eq_true in Hf as [b Hb].
    cbn [length chopOldestFrames].
    unfold bind at 1. unfold blockFrameAt, bind at 1, gets at 1. cbn. rewrite Hbfs. cbn.
    change ((f :: older ++ rest) !! Z.to_nat 0) with (Some f). cbn.
    unfold bind at 1.
    rewrite (removeFrameFromScrollArea_exec t [] (older ++ rest) f b)
      by (assumption || (intros []) || exact Hb).
    unfold bind at 1, disposeBlockOf, bind, frameOf, gets, deref, ret. cbn. rewrite Hb.
    rewrite (IH (set_blockFrames (older ++ rest) t)); [reflexivity|reflexivity|exact Holder].
Qed.

Lemma enforceScrollbackFrameSize_exec (t : Terminal) (size : TerminalSize)
    (maxFrames : Z) (first : nat) (later : list nat) :
  computeTerminalSize t = Some size ->
  blockFrames t = first :: later ->
  let blockIndex :=
    Z.of_nat (length later) - Z.of_nat (coveredFrames t (rows size) (rev later) 0) in
  enforceScrollbackFrameSize maxFrames t
  = (if blockIndex >? maxFrames
     then chopOldestFrames (Z.to_nat (blockIndex - maxFrames))
     else ret tt) t.
Proof.
  intros Hsize Hbfs blockIndex. subst blockIndex.
  unfold enforceScrollbackFrameSize, bind at 1, gets at 1. cbn. rewrite Hsize.
  unfold bind at 1, gets at 1. cbn. rewrite Hbfs. unfold bind at 1.
  now rewrite (skipVisibleFrames_exec t (rows size) first later [])
    by now rewrite app_nil_r.
Qed.

(** X18. Without a terminal size, and while the frames before the last one are
    no more than the cap, [#enforceScrollbackFrameSize] removes nothing;
    [#laterEnforceScrollbackSize] does nothing without a configuration
    database. *)
Theorem enforceScrollbackFrameSize_under_cap (t : Terminal) (maxFrames : Z) :
  (computeTerminalSize t = None -> enforceScrollbackFrameSize maxFrames t = (Normal tt, t))
  /\ (Z.of_nat (length (blockFrames t)) - 1 <= maxFrames -> 0 <= maxFrames ->
      enforceScrollbackFrameSize maxFrames t = (Normal tt, t))
  /\ (configDatabase t = None -> laterEnforceScrollbackSize t = (Normal tt, t)).
Proof.
  split; [|split].
  - intros Hsize. unfold enforceScrollbackFrameSize, bind, gets, ret. cbn.
    now rewrite Hsize.
  - intros Hfew Hmax. destruct (computeTerminalSize t) as [size|] eqn:Hsize.
    + destruct (blockFrames t) as [|first later] eqn:Hbfs.
      * unfold enforceScrollbackFrameSize, bind, gets, ret. cbn. rewrite Hsize, Hbfs.
        cbn. destruct (Z.gtb_spec (-1) maxFrames); [lia|reflexivity].
      * rewrite (enforceScrollbackFrameSize_exec t size maxFrames first later Hsize Hbfs).
        cbn [length] in Hfew.
        destruct (Z.gtb_spec (Z.of_nat (length later)
                              - Z.of_nat (coveredFrames t (rows size) (rev later) 0))
                             maxFrames); [lia|reflexivity].
    + unfold enforceScrollbackFrameSize, bind, gets, ret. cbn. now rewrite Hsize.
  - intros Hcfg. unfold laterEnforceScrollbackSize, bind, gets, ret. cbn.
    now rewrite Hcfg.
Qed.

(** X19. Where every frame holds its block and the cap is not negative,
    [#enforceScrollbackFrameSize] returns, and what it leaves of
    [#blockFrames] is a suffix that still has the newest frame: only the
    oldest frames go. Once it has run, running it again removes
    nothing. *)
Theorem enforceScrollbackFrameSize_keeps_newest_frames (t : Terminal)
    (size : TerminalSize) (maxFrames : Z) (older : list nat) (newest : nat) :
  computeTerminalSize t = Some size ->
  blockFrames t = older ++ [newest] ->
  forallb (hasBlock t) (blockFrames t) = true ->
  0 <= maxFrames ->
  exists chopped kept,
    older = chopped ++ kept
    /\ enforceScrollbackFrameSize maxFrames t
       = (Normal tt, set_blockFrames (kept ++ [newest]) t)
    /\ enforceScrollbackFrameSize maxFrames (set_blockFrames (kept ++ [newest]) t)
       = (Normal tt, set_blockFrames (kept ++ [newest]) t).
Proof.
  intros Hsize Hbfs Hblocks Hmax.
  destruct (blockFrames t) as [|first later] eqn:Hall;
    [now destruct older|].
  pose proof (enforceScrollbackFrameSize_exec t size maxFrames first later Hsize Hall)
    as Hrun. cbn zeta in Hrun.
  pose proof (coveredFrames_bound t (rows size) (rev later) 0) as Hcovered.
  rewrite length_rev in Hcovered.
  set (covered := coveredFrames t (rows size) (rev later) 0) in *.
  assert (Hlen : length older = length later).
  { apply (f_equal (@length nat)) in Hbfs. rewrite length_app in Hbfs. cbn in Hbfs. lia. }
  destruct (Z.gtb_spec (Z.of_nat (length later) - Z.of_nat covered) maxFrames)
    as [Hover|Hunder].
  - (* over the cap *)
    set (k := Z.to_nat (Z.of_nat (length later) - Z.of_nat covered - maxFrames)) in *.
    assert (Hk : (1 <= k <= length older)%nat) by lia.
    assert (Hkdef : Z.of_nat k = Z.of_nat (length later) - Z.of_nat covered - maxFrames)
      by lia.
    clearbody k.
    exists (take k older), (drop k older).
    split; [now rewrite take_drop|].
    assert (Hsplit : first :: later = take k older ++ (drop k older ++ [newest])).
    { now rewrite Hbfs, app_assoc, take_drop. }
    assert (Hchop : chopOldestFrames k t
                    = (Normal tt, set_blockFrames (drop k older ++ [newest]) t)).
    { replace k with (length (take k older)) at 1 by (rewrite length_take; lia).
      apply chopOldestFrames_exec; [now rewrite Hall|].
      rewrite Hsplit, forallb_app in Hblocks. now apply andb_prop in Hblocks as [Hb _]. }
    split; [now rewrite Hrun, Hchop|].
    (* the second run *)
    set (t' := set_blockFrames (drop k older ++ [newest]) t).
    destruct (drop k older ++ [newest]) as [|first' later'] eqn:Hkept;
      [now destruct (drop k older)|].
    assert (Hlater' : later' = drop k later).
    { assert (Hd : drop k (first :: later) = first' :: later').
      { rewrite Hsplit, drop_app_length'; [reflexivity|]. rewrite length_take. lia. }
      clear Hkdef. destruct k as [|k']; [lia|]. cbn in Hd.
      replace (S k') with (k' + 1)%nat by lia. now rewrite <- drop_drop, Hd. }
    rewrite (enforceScrollbackFrameSize_exec t' size maxFrames first' later')
      by (exact Hsize || reflexivity).
    rewrite (coveredFrames_ext t t') by reflexivity.
    assert (Hrev : rev later' = take (length later - k) (rev later)).
    { rewrite Hlater'. rewrite firstn_rev. do 2 f_equal. lia. }
    rewrite Hrev, coveredFrames_take by (fold covered; lia).
    fold covered. rewrite Hlater', length_drop.
    destruct (Z.gtb_spec (Z.of_nat (length later - k) - Z.of_nat covered) maxFrames);
      [lia|reflexivity].
  - (* under the cap: nothing goes, twice *)
    exists [], older. split; [reflexivity|].
    assert (Hsame : set_blockFrames (older ++ [newest]) t = t).
    { rewrite <- Hbfs, <- Hall. now destruct t. }
    cbn [app]. rewrite Hsame. split; exact Hrun.
Qed.

(** ** Disposal *)

Lemma disposeBlocks_exec (t : Terminal) (fs : list nat) :
  forallb (hasBlock t) fs = true -> disposeBlocks fs t = (Normal tt, t).
Proof.
  induction fs as [|f fs IH]; [reflexivity|].
  cbn [forallb disposeBlocks]. intros Hblocks. apply andb_prop in Hblocks as [Hf Hfs].
  apply bool_decide_eq_true in Hf as [b Hb].
  unfold bind at 1, disposeBlockOf, bind, frameOf, gets, deref, ret. cbn. rewrite Hb.
  now apply IH.
Qed.

(** X20. [dispose()] first disposes of the block of every frame. When every
    frame holds a block, it goes on to destroy the pty and forget it. When
    a decorated frame is still waiting for its block, [dispose()] throws a
    TypeError there: the pty is neither destroyed nor forgotten. *)
Theorem dispose_needs_a_block_in_every_frame (t : Terminal) :
  (forallb (hasBlock t) (blockFrames t) = true ->
   outcome dispose t = Normal tt
   /\ pty (after dispose t) = None
   /\ framesPart (after dispose t) = framesPart t)
  /\ (forall older pending newer,
        blockFrames t = older ++ pending :: newer ->
        forallb (hasBlock t) older = true ->
        getBlock (cells (frames t) pending) = None ->
        dispose t = (Throw TypeError, t)).
Proof.
  split.
  - intros Hblocks.
    assert (Hrun : dispose t
                   = match pty t with
                     | Some _ => modify (set_pty None) t
                     | None => ret tt t
                     end).
    { unfold dispose, bind at 1, gets at 1. cbn.
      unfold bind at 1. rewrite (disposeBlocks_exec t _ Hblocks).
      unfold bind, gets. cbn. now destruct (pty t). }
    unfold outcome, after. rewrite Hrun.
    destruct (pty t) eqn:Hpty; cbn; repeat split; assumption.
  - intros older pending newer Hbfs Holder Hpending.
    unfold dispose, bind at 1, gets at 1. cbn. rewrite Hbfs. unfold bind at 1.
    assert (Hthrow : disposeBlocks (older ++ pending :: newer) t = (Throw TypeError, t)).
    { clear Hbfs. induction older as [|f older IH]; cbn [app disposeBlocks].
      - unfold bind at 1, disposeBlockOf, bind, frameOf, gets, deref, throw. cbn.
        now rewrite Hpending.
      - cbn in Holder. apply andb_prop in Holder as [Hf Holder].
        apply bool_decide_eq_true in Hf as [b Hb].
        unfold bind at 1, disposeBlockOf, bind, frameOf, gets, deref, ret. cbn.
        rewrite Hb. now apply IH. }
    now rewrite Hthrow.
Qed.

(** ** Uploads and terminal input *)

Lemma filter_out_last (u : nat) (fs : list nat) :
  ~ In u fs ->
  List.filter (fun f => negb (Nat.eqb f u)) (fs ++ [u]) = fs.
Proof.
  intros Hnot. rewrite List.filter_app. cbn. rewrite Nat.eqb_refl. cbn.
  rewrite app_nil_r. induction fs as [|f fs IH]; [reflexivity|].
  cbn. destruct (Nat.eqb_spec f u) as [->|_]; [now destruct Hnot; left|].
  cbn. rewrite IH; [reflexivity|]. intros Hin. apply Hnot. now right.
Qed.

(** X21. When the upload of a requested frame has finished, its input filter is
    gone and the progress bar is hidden: the filters are the ones that
    were registered before the request, and with none of them terminal
    input reaches the pty again as it is typed. *)
Theorem finished_upload_releases_input (t : Terminal)
    (finder : option string -> option BulkFile) (frameId : option string)
    (bulkFile : BulkFile) :
  frameFinder t = Some finder ->
  finder frameId = Some bulkFile ->
  ~ In (next (uploaders t)) (inputStreamFilters t) ->
  let u := next (uploaders t) in
  let started := after (handleRequestFrame frameId) t in
  let finished := after (handleUploadFinished u) started in
  outcome (handleUploadFinished u) started = Normal tt
  /\ inputStreamFilters started = inputStreamFilters t ++ [u]
  /\ inputStreamFilters finished = inputStreamFilters t
  /\ (exists bar, uploadProgressBar finished = Some bar
                  /\ progressShown bar = false
                  /\ progressTotal bar = getTotalSize bulkFile)
  /\ (inputStreamFilters t = [] ->
      forall data,
        handleTermData data finished
        = (if String.eqb data "" then ret tt else sendToPty data) finished).
Proof.
  intros Hfinder Hsome Hfresh u started finished.
  assert (Hinput : forall s : Terminal,
             inputStreamFilters s = [] ->
             forall data,
               handleTermData data s
               = (if String.eqb data "" then ret tt else sendToPty data) s).
  { intros s Hnone data. unfold handleTermData, bind at 1, gets at 1. cbn.
    rewrite Hnone. cbn. unfold bind, ret. cbn. now destruct (String.eqb data ""). }
  assert (Hrun : outcome (handleUploadFinished u) started = Normal tt
                 /\ inputStreamFilters started = inputStreamFilters t ++ [u]
                 /\ inputStreamFilters finished = inputStreamFilters t
                 /\ (exists bar, uploadProgressBar finished = Some bar
                                 /\ progressShown bar = false
                                 /\ progressTotal bar = getTotalSize bulkFile)).
  { subst u started finished.
    destruct t as [? ? bar ? filters ? ? ? ? ? ? ? ? ? ? ? ? ? ? ? ups].
    cbn in Hfinder, Hfresh. subst.
    unfold outcome, after, handleRequestFrame, handleUploadFinished, newBulkFileUploader,
      initUploadProgressBar, updateProgressBar, registerInputStreamFilter,
      disposeInputStreamFilter, updateUploader, bind, gets, modify, ret, deref, throw.
    cbn. rewrite Hsome.
    destruct bar as [bar|], (metadataGet "filename" (getMetadata bulkFile)) as [name|];
      cbn; rewrite (filter_out_last _ _ Hfresh);
      (split; [reflexivity|]); (split; [reflexivity|]); (split; [reflexivity|]);
      now eexists. }
  destruct Hrun as (Hout & Hstarted & Hfinished & Hbar).
  repeat (split; [assumption|]).
  intros Hnone data. apply Hinput. now rewrite Hfinished.
Qed.

Lemma uploadInputFilter_interrupt (u : nat) (pre post : string) (t : Terminal) :
  indexOf ETX pre = -1 ->
  uploadInputFilter u (pre +:+ String ETX post) t
  = (Normal post,
     set_inputStreamFilters
       (List.filter (fun f => negb (Nat.eqb f u)) (inputStreamFilters t))
       (set_uploaders
          (update u (fun up => {| uploadFile := uploadFile up;
                                  uploadHasPty := uploadHasPty up;
                                  uploadState := UploadAborted |}) (uploaders t)) t)).
Proof.
  intros Hpre.
  pose proof (indexOf_app ETX pre post Hpre) as Hindex.
  pose proof (substring_after_first ETX pre post Hpre) as Hafter. cbn zeta in Hafter.
  unfold uploadInputFilter. rewrite Hafter, Hindex.
  destruct (Z.eqb_spec (Z.of_nat (String.length pre)) (-1)) as [Hneg|_]; [lia|].
  reflexivity.
Qed.

(** X22. With two uploads in progress, an input with one interrupt byte 0x03 aborts
    the upload that was started first and unregisters its filter; the text
    after the interrupt is swallowed by the filter of the second upload,
    which goes on, and nothing is written to the pty. *)
Theorem one_interrupt_aborts_the_oldest_upload (t : Terminal) (first second : nat)
    (pre post : string) :
  inputStreamFilters t = [first; second] ->
  first <> second ->
  ~ hasByte 3 pre ->
  ~ hasByte 3 post ->
  let input := pre +:+ String (ascii_of_nat 3) post in
  let t' := after (handleTermData input) t in
  outcome (handleTermData input) t = Normal tt
  /\ inputStreamFilters t' = [second]
  /\ uploadState (cells (uploaders t') first) = UploadAborted
  /\ cells (uploaders t') second = cells (uploaders t) second
  /\ pty t' = pty t.
Proof.
  intros Hfilters Hdifferent Hpre Hpost input t'. subst input t'.
  apply no_interrupt in Hpre, Hpost. change (ascii_of_nat 3) with ETX.
  assert (Hrun : handleTermData (pre +:+ String ETX post) t
                 = (Normal tt,
                    set_inputStreamFilters [second]
                      (set_uploaders
                         (update first
                            (fun up => {| uploadFile := uploadFile up;
                                          uploadHasPty := uploadHasPty up;
                                          uploadState := UploadAborted |})
                            (uploaders t)) t))).
  { unfold handleTermData, bind at 1, gets at 1. cbn. rewrite Hfilters.
    cbn [applyInputStreamFilters]. unfold bind.
    rewrite (uploadInputFilter_interrupt _ _ _ _ Hpre).
    rewrite (uploadInputFilter_quiet _ _ _ Hpost). cbn. rewrite Hfilters. cbn.
    rewrite Nat.eqb_refl. cbn.
    destruct (Nat.eqb_spec second first) as [Heq|_]; [now destruct Hdifferent|].
    reflexivity. }
  unfold outcome, after. rewrite Hrun. cbn.
  repeat split; now lookup.
Qed.

(** ** The file shown by a download *)

Lemma appendExtensionBlock_exec (t : Terminal) (extensionBlock : nat) :
  exists t',
    appendExtensionBlock extensionBlock t = (Normal (next (frames t)), t')
    /\ blockFrames t' = blockFrames t ++ [next (frames t); S (next (frames t))]
    /\ getBlock (cells (frames t') (next (frames t))) = Some extensionBlock
    /\ (forall b, (b < next (blocks t))%nat ->
          sameRows (cells (blocks t) b) (cells (blocks t') b)).
Proof.
  unfold appendExtensionBlock.
  destruct (closeLastTerminalFrame_exec t) as (e2 & B2 & He2 & Hnext & Hrows).
  unfold bind at 1. rewrite He2.
  run. eexists. split; [reflexivity|]. cbn. rewrite Hnext.
  split; [now rewrite <- app_assoc|]. split; [now lookup|].
  intros b Hb. lookup. apply Hrows.
Qed.

(** ** The font size adjustment *)

Lemma runFontSizeCommand_range (adjustment : Z) (c : FontSizeCommand) :
  MINIMUM_FONT_SIZE <= adjustment <= MAXIMUM_FONT_SIZE ->
  MINIMUM_FONT_SIZE <= runFontSizeCommand adjustment c <= MAXIMUM_FONT_SIZE.
Proof.
  unfold runFontSizeCommand, setFontSizeAdjustment, resetFontSizeAdjustment,
    MINIMUM_FONT_SIZE, MAXIMUM_FONT_SIZE.
  intros Hrange. destruct c;
    repeat match goal with
           | |- context [if ?b then _ else _] => destruct b
           end; lia.
Qed.

(** X24. Whatever font size commands are run, the adjustment stays between
    [MINIMUM_FONT_SIZE], which is -3, and [MAXIMUM_FONT_SIZE], which is 4,
    so the look-up in [FONT_ADJUSTMENT_ARRAY] always finds a factor. At the
    largest adjustment an increase changes nothing, and at the smallest a
    decrease. *)
Theorem font_size_adjustment_stays_in_range (commands : list FontSizeCommand) :
  let adjustment := fold_left runFontSizeCommand commands 0 in
  -3 <= adjustment <= 4
  /\ is_Some (fontFactor adjustment)
  /\ runFontSizeCommand 4 commandFontSizeIncrease = 4
  /\ runFontSizeCommand (-3) commandFontSizeDecrease = -3.
Proof.
  intros adjustment.
  change (-3) with MINIMUM_FONT_SIZE. change 4 with MAXIMUM_FONT_SIZE.
  assert (Hrange : MINIMUM_FONT_SIZE <= adjustment <= MAXIMUM_FONT_SIZE).
  { subst adjustment.
    assert (Hstart : MINIMUM_FONT_SIZE <= 0 <= MAXIMUM_FONT_SIZE)
      by (unfold MINIMUM_FONT_SIZE, MAXIMUM_FONT_SIZE; lia).
    revert Hstart. generalize 0. induction commands as [|c commands IH]; intros a Ha.
    - exact Ha.
    - cbn [fold_left]. apply IH. now apply runFontSizeCommand_range. }
  split; [exact Hrange|]. split; [|split; reflexivity].
  unfold fontFactor, MINIMUM_FONT_SIZE, MAXIMUM_FONT_SIZE in *.
  destruct (Z.ltb_spec (adjustment - -3) 0) as [Hneg|_]; [lia|].
  apply lookup_lt_is_Some. cbn. lia.
Qed.

(** ** The block that shows the screen *)

Abbreviation triple := (@hoare E D _).
Abbreviation lasting := (@stable E D _).

Lemma hoare_bind {A B} (P : Terminal -> Prop) (R : A -> Terminal -> Prop)
    (Q : B -> Terminal -> Prop) (m : M A) (k : A -> M B) :
  triple P m R -> (forall a, triple (R a) (k a) Q) -> triple P (bind m k) Q.
Proof.
  intros Hm Hk t HP. apply wp_bind. apply (wp_mono _ R); [now apply Hm|].
  intros a t' HR. now apply Hk.
Qed.

Lemma hoare_ret {A} (P : Terminal -> Prop) (Q : A -> Terminal -> Prop) (a : A) :
  (forall t, P t -> Q a t) -> triple P (ret a) Q.
Proof. intros HQ t HP. now apply HQ. Qed.

Lemma hoare_throw {A} (P : Terminal -> Prop) (Q : A -> Terminal -> Prop) (e : Exception) :
  triple P (throw e) Q.
Proof. intros t HP. exact I. Qed.

Lemma hoare_stable {A} (P : Terminal -> Prop) (m : M A) :
  lasting P m -> triple P m (fun _ => P).
Proof.
  intros Hm t HP. specialize (Hm t HP). unfold wp.
  now destruct (m t) as [[a|e] t1].
Qed.

Lemma hoare_outcome {A} (P : Terminal -> Prop) (Q : A -> Terminal -> Prop) (m : M A)
    (t : Terminal) (a : A) :
  triple P m Q -> P t -> outcome m t = Normal a -> Q a (after m t).
Proof. intros Hm HP. apply wp_outcome. now apply Hm. Qed.

Lemma stable_bind {A B} (P : Terminal -> Prop) (m : M A) (k : A -> M B) :
  lasting P m -> (forall a, lasting P (k a)) -> lasting P (bind m k).
Proof.
  intros Hm Hk t HP. unfold bind. specialize (Hm t HP).
  destruct (m t) as [[a|e] t1]; cbn in *; [|exact Hm].
  now apply Hk.
Qed.

Lemma live_ext (t t' : Terminal) : framesPart t' = framesPart t -> live t -> live t'.
Proof.
  unfold framesPart. intros [= Hbfs Hframes Hblocks] (l & Hlast & Hl).
  exists l. unfold liveFrame in *. now rewrite Hbfs, Hframes, Hblocks.
Qed.

Lemma noneBound_ext (t t' : Terminal) : blocks t' = blocks t -> noneBound t -> noneBound t'.
Proof. intros Hblocks Hnone b. rewrite Hblocks. apply Hnone. Qed.

Lemma stable_keeps_live {A} (m : M A) : keeping framesPart m -> lasting live m.
Proof. intros Hm t. apply live_ext, Hm. Qed.

Lemma stable_keeps_noneBound {A} (m : M A) : keeping blocks m -> lasting noneBound m.
Proof. intros Hm t. apply noneBound_ext, Hm. Qed.

(** An update of a block that leaves its binding alone. *)
Lemma isBound_update (B : Store Block) (b b' : nat) (g : TerminalBlock -> TerminalBlock) :
  (forall tb, boundToEmulator (g tb) = boundToEmulator tb) ->
  isBound (cells (update b (onTerminalBlock g) B) b') = isBound (cells B b').
Proof.
  intros Hg. rewrite update_cells. case_decide; [|reflexivity].
  destruct (cells B b') as [tb|name]; cbn; [apply Hg|reflexivity].
Qed.

Lemma stable_noneBound_update (b : nat) (g : TerminalBlock -> TerminalBlock) :
  (forall tb, boundToEmulator (g tb) = boundToEmulator tb) ->
  lasting noneBound (modify (fun t => set_blocks (update b (onTerminalBlock g) (blocks t)) t)).
Proof.
  intros Hg t Hnone b'.
  change (isBound (cells (update b (onTerminalBlock g) (blocks t)) b') = false).
  rewrite isBound_update by exact Hg. apply Hnone.
Qed.

Lemma stable_live_update (b : nat) (g : TerminalBlock -> TerminalBlock) :
  (forall tb, boundToEmulator (g tb) = boundToEmulator tb) ->
  lasting live (modify (fun t => set_blocks (update b (onTerminalBlock g) (blocks t)) t)).
Proof.
  intros Hg t (l & Hlast & Hclass & lb & Hblock & Hmade & Hbound & Hunique).
  exists l. split; [exact Hlast|]. split; [exact Hclass|]. exists lb.
  split; [exact Hblock|]. split; [exact Hmade|].
  change (isBound (cells (update b (onTerminalBlock g) (blocks t)) lb) = true
          /\ forall b', isBound (cells (update b (onTerminalBlock g) (blocks t)) b') = true
                        -> b' = lb).
  split.
  - now rewrite isBound_update.
  - intros b'. rewrite isBound_update by exact Hg. apply Hunique.
Qed.

Lemma stable_noneBound_newTerminalBlock : lasting noneBound newTerminalBlock.
Proof.
  intros t Hnone b. cbn. rewrite fn_insert_decide. case_decide; [reflexivity|apply Hnone].
Qed.

Ltac stable_step leaf :=
  first
    [ assumption
    | apply stable_bind; [|intros]
    | leaf
    | match goal with
      | |- stable _ (match ?x with _ => _ end) => destruct x
      | |- stable _ (if ?b then _ else _) => destruct b
      | |- stable _ (let '(_, _) := ?x in _) => destruct x
      end
    | progress autounfold with terminal_calls ].

(** Calls that bind no block. *)
Ltac stable_unbound :=
  repeat first
    [ apply stable_keeps_noneBound; solve [keeps_calls]
    | stable_step
        ltac:(first [ apply stable_noneBound_update; intros; reflexivity
                    | apply stable_noneBound_newTerminalBlock ]) ].

(** Calls that leave the frames, and the binding of every block, alone. *)
Ltac stable_live :=
  repeat first
    [ apply stable_keeps_live; solve [keeps_calls]
    | stable_step ltac:(apply stable_live_update; intros; reflexivity) ].

Lemma hoare_closeLastTerminalFrame :
  triple live closeLastTerminalFrame (fun _ => noneBound).
Proof.
  intros t (l & Hlast & Hclass & b & Hblock & _ & Hbound & Hunique).
  unfold wp, closeLastTerminalFrame, bind, gets, onEmulator, modify, ret, frameOf. cbn.
  rewrite Hlast. cbn. rewrite Hblock. unfold isTerminalBlock.
  destruct (cells (blocks t) b) as [tb|name] eqn:Hb; [|discriminate]. cbn.
  unfold setEmulator, updateBlock, modify. cbn. rewrite Hb.
  intros b'. cbn. rewrite fn_alter_decide. case_decide as Hsame.
  - subst b'. now rewrite Hb.
  - destruct (isBound (cells (blocks t) b')) eqn:Hb'; [|reflexivity].
    apply Hunique in Hb'. congruence.
Qed.

Lemma hoare_createFramedTerminalBlock :
  triple noneBound createFramedTerminalBlock liveFrame.
Proof.
  intros t Hnone. unfold wp, createFramedTerminalBlock. run.
  split; [now lookup|]. exists (next (blocks t)). cbn.
  split; [now lookup|]. split; [lia|]. split; [now lookup|].
  intros b'. rewrite fn_alter_decide, fn_insert_decide.
  case_decide as Hsame; [now intros _|]. now rewrite Hnone.
Qed.

Lemma hoare_appendLive (f : nat) :
  triple (liveFrame f) (appendBlockFrame f) (fun _ => live).
Proof.
  intros t Hlive. unfold wp, appendBlockFrame, modify. cbn.
  exists f. split; [apply last_snoc|exact Hlive].
Qed.

Lemma stable_live_createExtensionBlock (blockName : string) :
  lasting live (createExtensionBlock blockName).
Proof.
  intros t (l & Hlast & Hclass & b & Hblock & Hmade & Hbound & Hunique).
  exists l. split; [exact Hlast|]. split; [exact Hclass|]. exists b. cbn.
  split; [exact Hblock|]. split; [lia|]. rewrite !fn_insert_decide. split.
  - case_decide; [lia|exact Hbound].
  - intros b'. rewrite fn_insert_decide. case_decide; [discriminate|apply Hunique].
Qed.

Lemma stable_and {A} (P P' : Terminal -> Prop) (m : M A) :
  lasting P m -> lasting P' m -> lasting (fun t => P t /\ P' t) m.
Proof. intros Hm Hm' t [HP HP']. split; [now apply Hm|now apply Hm']. Qed.

Lemma wp_stable {A} (P : Terminal -> Prop) (m : M A) (Q : A -> Terminal -> Prop)
    (t : Terminal) :
  lasting P m -> P t -> (forall a t', P t' -> Q a t') -> ensures m Q t.
Proof.
  intros Hm HP HQ. specialize (Hm t HP). unfold wp.
  destruct (m t) as [[a|e] t1]; [|exact I]. now apply HQ.
Qed.

Lemma keepsLive_triple {A} (m : M A) : triple live m (fun _ => live) -> @keepsLive E D _ m.
Proof. intros Hm t a Hlive. exact (hoare_outcome _ _ m t a Hm Hlive). Qed.

(** The frames that [#handleApplicationModeEnd] and the commands build up. *)
Ltac hoare_go :=
  cbn beta;
  first
    [ solve [auto]
    | solve [apply hoare_stable; stable_live]
    | solve [apply hoare_stable; stable_unbound]
    | lazymatch goal with
      | |- hoare live (bind closeLastTerminalFrame _) _ =>
          eapply hoare_bind; [apply hoare_closeLastTerminalFrame|intros ?; hoare_go]
      | |- hoare noneBound (bind createFramedTerminalBlock _) _ =>
          eapply hoare_bind; [apply hoare_createFramedTerminalBlock|intros ?; hoare_go]
      | |- hoare (liveFrame ?f) (bind (appendBlockFrame ?f) _) _ =>
          eapply hoare_bind; [apply hoare_appendLive|intros ?; hoare_go]
      | |- hoare (liveFrame ?f) (appendBlockFrame ?f) _ => apply hoare_appendLive
      | |- hoare live (bind _ _) _ =>
          eapply (hoare_bind live (fun _ => live)); [hoare_go|intros ?; hoare_go]
      | |- hoare noneBound (bind _ _) _ =>
          eapply (hoare_bind noneBound (fun _ => noneBound)); [hoare_go|intros ?; hoare_go]
      | |- hoare _ (if ?b then _ else _) _ => destruct b; hoare_go
      | |- hoare _ (match ?x with _ => _ end) _ => destruct x; hoare_go
      | |- hoare _ (throw _) _ => apply hoare_throw
      | |- hoare _ (ret _) _ => apply hoare_ret; intros; assumption
      end ].

Lemma live_handleApplicationModeBracketStart :
  triple live handleApplicationModeBracketStart (fun _ => live).
Proof. unfold handleApplicationModeBracketStart. hoare_go. Qed.

Lemma live_closeLastEmbeddedViewer (code : option string) :
  triple live (closeLastEmbeddedViewer code) (fun _ => live).
Proof.
  unfold closeLastEmbeddedViewer, frameWithExistingDecoratedFrame,
    frameWithoutDecoratedFrame.
  hoare_go.
Qed.

Lemma live_handleApplicationModeEnd :
  triple live handleApplicationModeEnd (fun _ => live).
Proof.
  pose proof live_handleApplicationModeBracketStart.
  pose proof live_closeLastEmbeddedViewer.
  unfold handleApplicationModeEnd, handleApplicationModeBracketEnd. hoare_go.
Qed.

Lemma live_appendExtensionBlock (extensionBlock : nat) :
  triple live (appendExtensionBlock extensionBlock) (fun _ => live).
Proof. unfold appendExtensionBlock. hoare_go. Qed.

Lemma last_tail_longer {A} (x : A) (rest : list A) :
  rest <> [] -> list.last rest = list.last (x :: rest).
Proof. intros Hrest. destruct rest as [|y rest]; [contradiction|reflexivity]. Qed.

(** Taking the oldest frame away while a newer one is there. *)
Lemma wp_removeHead {B} (k : nat -> M B) (Q : B -> Terminal -> Prop) (t : Terminal) :
  live t ->
  (2 <= length (blockFrames t))%nat ->
  (forall f t',
      live t' ->
      length (blockFrames t') = pred (length (blockFrames t)) ->
      ensures (k f) Q t') ->
  ensures (bind (blockFrameAt 0)
             (fun f => bind (removeFrameFromScrollArea f) (fun _ => k f))) Q t.
Proof.
  intros Hlive Hlen Hk.
  destruct (blockFrames t) as [|x rest] eqn:Hbfs; [cbn in Hlen; lia|].
  assert (Hrest : rest <> []) by (destruct rest; [cbn in Hlen; lia|discriminate]).
  wp_step. unfold blockFrameAt. do 2 wp_step. rewrite Hbfs.
  change (0 <? 0) with false. change ((x :: rest) !! Z.to_nat 0) with (Some x).
  unfold deref. cbn iota. do 2 wp_step.
  unfold removeFrameFromScrollArea. do 2 wp_step. rewrite Hbfs.
  cbn [findIndex]. rewrite Nat.eqb_refl.
  wp_step. unfold frameOf. wp_step. wp_step. unfold deref.
  destruct (getBlock (cells (frames t) x)) as [b|]; [|apply wp_throw].
  do 2 wp_step. change (0 =? -1) with false. cbn iota. do 2 wp_step. rewrite Hbfs.
  change (splice1 0 (x :: rest)) with rest.
  apply Hk; [|reflexivity].
  destruct Hlive as (l & Hlast & Hl). exists l. split; [|exact Hl].
  cbn. rewrite Hbfs in Hlast. now rewrite (last_tail_longer x rest Hrest).
Qed.

Lemma wp_removeOldestFrames (n : nat) (t : Terminal) :
  live t -> (n < length (blockFrames t))%nat ->
  ensures (removeOldestFrames n) (fun _ => live) t.
Proof.
  revert t. induction n as [|i IH]; intros t Hlive Hn.
  - exact Hlive.
  - apply (wp_removeHead (fun _ => removeOldestFrames i)); [exact Hlive|lia|].
    intros f t' Hlive' Hlen. apply IH; [exact Hlive'|lia].
Qed.

Lemma wp_chopOldestFrames (n : nat) (t : Terminal) :
  live t -> (n < length (blockFrames t))%nat ->
  ensures (chopOldestFrames n) (fun _ => live) t.
Proof.
  revert t. induction n as [|i IH]; intros t Hlive Hn.
  - exact Hlive.
  - apply (wp_removeHead
             (fun f => bind (disposeBlockOf f) (fun _ => chopOldestFrames i)));
      [exact Hlive|lia|].
    intros f t' Hlive' Hlen. apply wp_bind.
    apply (wp_keeps id); [keeps_calls|]. intros [] t1 Ht1. unfold id in Ht1. subst t1.
    apply IH; [exact Hlive'|lia].
Qed.

Lemma stable_keeps_part {A C} (part : Terminal -> C) (P : Terminal -> Prop) (m : M A) :
  keeping part m ->
  (forall t t', part t' = part t -> P t -> P t') ->
  lasting P m.
Proof. intros Hm HP t. apply HP, Hm. Qed.

Lemma live_enforceScrollbackLinesSize (maxLines : Z) :
  triple live (enforceScrollbackLinesSize maxLines) (fun _ => live).
Proof.
  intros t Hlive. unfold enforceScrollbackLinesSize.
  do 2 wp_step.
  destruct (computeTerminalSize t) as [size|]; [|wp_step; exact Hlive].
  do 3 wp_step.
  apply (wp_keeps id); [apply reads_skipVisibleBlocks|].
  intros [blockIndex currentHeight] t1 Ht1. unfold id in Ht1. subst t1. cbn beta iota.
  destruct (currentHeight <? maxLines); [wp_step; exact Hlive|].
  wp_step. unfold blockFrameAt. do 2 wp_step.
  destruct (blockIndex + 1 <? 0) eqn:Hneg; [apply wp_throw|].
  unfold deref.
  destruct (blockFrames t !! Z.to_nat (blockIndex + 1)) as [frame|] eqn:Hframe;
    [|apply wp_throw].
  wp_step. wp_step. unfold frameOf. wp_step. do 2 wp_step. wp_step.
  apply (wp_stable
           (fun s => live s /\ (Z.to_nat (blockIndex + 1) < length (blockFrames s))%nat)).
  - apply stable_and; [stable_live|].
    apply (stable_keeps_part blockFrames); [keeps_calls|].
    intros s s' Hsame. now rewrite Hsame.
  - split; [exact Hlive|]. now apply lookup_lt_Some in Hframe.
  - intros [] t' [Hlive' Hlen].
    replace (Z.to_nat (blockIndex + 1 - 1 + 1)) with (Z.to_nat (blockIndex + 1)) by lia.
    now apply wp_removeOldestFrames.
Qed.

Lemma live_handleDidAppendScrollbackLines :
  triple live handleDidAppendScrollbackLines (fun _ => live).
Proof.
  pose proof live_enforceScrollbackLinesSize.
  unfold handleDidAppendScrollbackLines. hoare_go.
Qed.

Lemma live_enforceScrollbackFrameSize (maxFrames : Z) :
  0 <= maxFrames ->
  triple live (enforceScrollbackFrameSize maxFrames) (fun _ => live).
Proof.
  intros Hmax t Hlive.
  destruct (computeTerminalSize t) as [size|] eqn:Hsize.
  - destruct (blockFrames t) as [|first later] eqn:Hbfs.
    { destruct Hlive as (l & Hlast & _). rewrite Hbfs in Hlast. discriminate. }
    pose proof (enforceScrollbackFrameSize_exec t size maxFrames first later Hsize Hbfs)
      as Hrun. cbn zeta in Hrun.
    pose proof (coveredFrames_bound t (rows size) (rev later) 0) as Hcovered.
    unfold wp. rewrite Hrun.
    destruct (_ >? maxFrames); [|exact Hlive].
    apply wp_chopOldestFrames; [exact Hlive|]. rewrite Hbfs. cbn [length]. lia.
  - unfold wp, enforceScrollbackFrameSize, bind, gets, ret. cbn. now rewrite Hsize.
Qed.

Lemma findIndex_split (d : nat) (l : list nat) :
  findIndex d l <> -1 ->
  exists older newer, l = older ++ d :: newer /\ ~ In d older.
Proof.
  induction l as [|x l IH]; [now intros []|].
  cbn [findIndex]. destruct (Nat.eqb_spec x d) as [->|Hne].
  - intros _. exists [], l. split; [reflexivity|intros []].
  - destruct (Z.eqb_spec (findIndex d l) (-1)) as [Hnot|Hfound]; [now intros []|].
    intros _. destruct (IH Hfound) as (older & newer & -> & Hin).
    exists (x :: older), newer. split; [reflexivity|].
    intros [Hx|Hold]; [now apply Hne|now apply Hin].
Qed.

Lemma last_splice1_other (d x : nat) (l : list nat) :
  findIndex d l <> -1 ->
  list.last l = Some x ->
  x <> d ->
  list.last (splice1 (findIndex d l) l) = Some x.
Proof.
  intros Hfound Hlast Hne.
  destruct (findIndex_split d l Hfound) as (older & newer & -> & Hin).
  rewrite (findIndex_first _ _ _ Hin), splice1_middle.
  rewrite last_app in Hlast. rewrite last_app.
  destruct newer as [|y newer]; [cbn in Hlast; congruence|].
  rewrite last_cons in Hlast. destruct (list.last (y :: newer)); [exact Hlast|].
  congruence.
Qed.

Lemma live_commandDeleteLastFrame :
  triple live commandDeleteLastFrame (fun _ => live).
Proof.
  intros t Hlive. unfold commandDeleteLastFrame. do 2 wp_step. unfold id.
  destruct (List.find (isDecoratedFrame t) (rev (blockFrames t))) as [d|] eqn:Hfind;
    [|wp_step; exact Hlive].
  apply find_some in Hfind as [_ Hd].
  unfold destroyFrame. wp_step. unfold removeFrameFromScrollArea. do 2 wp_step.
  wp_step. unfold frameOf. wp_step. wp_step. unfold deref.
  destruct (getBlock (cells (frames t) d)) as [b|]; [|apply wp_throw].
  do 2 wp_step.
  destruct (Z.eqb_spec (findIndex d (blockFrames t)) (-1)) as [Hnot|Hfound];
    [apply wp_throw|].
  wp_step. wp_step.
  apply (wp_keeps id); [keeps_calls|]. intros [] t1 Ht1. unfold id in Ht1. subst t1.
  destruct Hlive as (l & Hlast & Hl). exists l. split; [|exact Hl].
  cbn. apply last_splice1_other; [exact Hfound|exact Hlast|].
  intros ->. destruct Hl as [Hclass _]. unfold isDecoratedFrame in Hd.
  now rewrite Hclass in Hd.
Qed.

Lemma live_construct (config : option ConfigDatabase) (tagSource : Z)
    (finder : option (option string -> option BulkFile)) (randomCookie : string)
    (emulator0 : E) (download0 : D) :
  live (construct config tagSource finder randomCookie emulator0 download0).
Proof.
  exists 0%nat. split; [reflexivity|]. split; [reflexivity|]. exists 0%nat. cbn.
  split; [reflexivity|]. split; [lia|]. split; [reflexivity|].
  intros b'. rewrite fn_alter_decide, fn_insert_decide.
  case_decide; [now intros _|discriminate].
Qed.

Lemma live_last_is_bare (t : Terminal) :
  live t ->
  exists l, list.last (blockFrames t) = Some l
            /\ findLastBareTerminalBlockFrame t = (Normal (Some l), t).
Proof.
  intros (l & Hlast & Hclass & b & Hblock & _ & Hbound & _).
  exists l. split; [exact Hlast|].
  rewrite findLastBareTerminalBlockFrame_exec. do 2 f_equal.
  destruct (blockFrames t) as [|x rest _] using rev_ind; [discriminate|].
  rewrite last_snoc in Hlast. injection Hlast as ->.
  rewrite rev_unit. cbn [List.find].
  unfold isBareTerminalBlockFrame, isTerminalBlock. rewrite Hclass, Hblock.
  destruct (cells (blocks t) b); [reflexivity|discriminate].
Qed.

(** X25. One block shows the emulator's screen, and it is the block of the last
    frame: the last frame of [#blockFrames] is a bare terminal block frame
    whose block is bound to the emulator, and no other block is bound. That
    holds for a new terminal, and whenever one of the handlers and commands
    below returns it holds again. In such a terminal the search for the
    last bare terminal block frame answers with the last frame. *)
Theorem one_block_shows_the_screen (config : option ConfigDatabase) (tagSource : Z)
    (finder : option (option string -> option BulkFile)) (randomCookie : string)
    (emulator0 : E) (download0 : D)
    (params : list string) (data input extensionName blockName : string)
    (guessed : option string) (bulkFile : BulkFile) (maxFrames : Z) :
  live (construct config tagSource finder randomCookie emulator0 download0)
  /\ @keepsLive E D _ (handleApplicationModeStart params)
  /\ @keepsLive E D _ (handleApplicationModeData data)
  /\ @keepsLive E D _ handleApplicationModeEnd
  /\ @keepsLive E D _ (handleTermData input)
  /\ @keepsLive E D _ handleDidAppendScrollbackLines
  /\ (0 <= maxFrames -> @keepsLive E D _ (enforceScrollbackFrameSize maxFrames))
  /\ @keepsLive E D _ commandDeleteLastFrame
  /\ @keepsLive E D _ (appendExtensionBlockByName extensionName blockName)
  /\ @keepsLive E D _ (handleShowFile guessed bulkFile)
  /\ @keepsLive E D _ dispose
  /\ (forall t : Terminal,
        live t ->
        exists l, list.last (blockFrames t) = Some l
                  /\ findLastBareTerminalBlockFrame t = (Normal (Some l), t)).
Proof.
  pose proof live_appendExtensionBlock as Hextension.
  pose proof stable_live_createExtensionBlock as Hcreate.
  split; [apply live_construct|].
  repeat split.
  - apply keepsLive_triple, hoare_stable. stable_live.
  - apply keepsLive_triple, hoare_stable. stable_live.
  - apply keepsLive_triple, live_handleApplicationModeEnd.
  - apply keepsLive_triple, hoare_stable. stable_live.
  - apply keepsLive_triple, live_handleDidAppendScrollbackLines.
  - intros Hmax. now apply keepsLive_triple, live_enforceScrollbackFrameSize.
  - apply keepsLive_triple, live_commandDeleteLastFrame.
  - apply keepsLive_triple. unfold appendExtensionBlockByName.
    eapply (hoare_bind live (fun _ => live)); [apply hoare_stable, Hcreate|].
    intros b. apply Hextension.
  - apply keepsLive_triple.
    unfold handleShowFile, appendExtensionBlockWithBulkFile.
    eapply (hoare_bind live (fun _ => live)); [apply hoare_stable, Hcreate|].
    intros b. eapply (hoare_bind live (fun _ => live)); [apply Hextension|].
    intros d. apply hoare_ret. now intros.
  - apply keepsLive_triple, hoare_stable. stable_live.
  - apply live_last_is_bare.
Qed.

(** ** The session cookie *)

(** X26. The cookie is the one the constructor was given, and no handler or
    command writes the field afterwards, whether it returns or throws. *)
Theorem cookie_is_written_by_the_constructor_only (config : option ConfigDatabase)
    (tagSource : Z) (finder : option (option string -> option BulkFile))
    (randomCookie : string) (emulator0 : E) (download0 : D)
    (params : list string) (data input extensionName blockName title : string)
    (guessed : option string) (bulkFile : BulkFile) (uploader : nat) (p : Pty) :
  cookie (construct config tagSource finder randomCookie emulator0 download0)
  = randomCookie
  /\ keeping cookie (handleApplicationModeStart params)
  /\ keeping cookie (handleApplicationModeData data)
  /\ keeping cookie handleApplicationModeEnd
  /\ keeping cookie (handleTermData input)
  /\ keeping cookie (handleUploadFinished uploader)
  /\ keeping cookie handleDidAppendScrollbackLines
  /\ keeping cookie laterEnforceScrollbackSize
  /\ keeping cookie commandDeleteLastFrame
  /\ keeping cookie (appendExtensionBlockByName extensionName blockName)
  /\ keeping cookie (handleShowFile guessed bulkFile)
  /\ keeping cookie (handleTitle title)
  /\ keeping cookie (setPty p)
  /\ keeping cookie dispose.
Proof. split; [reflexivity|]. repeat split; keeps_calls. Qed.

(** ** Leaving the application mode *)

(** X27. Outside SHOW_FILE, an end of the application mode that returns answers
    CONTINUE and leaves the terminal outside any application mode with no
    buffer; an end that throws leaves the mode and the buffer as they
    were. *)
Theorem application_mode_end_resets_or_stays (t : Terminal) :
  applicationMode t <> APPLICATION_MODE_SHOW_FILE ->
  (forall r,
      outcome handleApplicationModeEnd t = Normal r ->
      r = respond CONTINUE
      /\ applicationMode (after handleApplicationModeEnd t) = APPLICATION_MODE_NONE
      /\ applicationModeData (after handleApplicationModeEnd t) = None)
  /\ (forall e,
        outcome handleApplicationModeEnd t = Throw e ->
        applicationMode (after handleApplicationModeEnd t) = applicationMode t
        /\ applicationModeData (after handleApplicationModeEnd t)
           = applicationModeData t).
Proof.
  intros Hmode. split; [intros r; now apply handleApplicationModeEnd_resets|].
  intros e.
  destruct (keeps_mode_handlers (applicationModeData t)) as (Hstart & Hend & Hrequest).
  specialize (Hstart t). specialize (Hend t). specialize (Hrequest t).
  unfold modePart in Hstart, Hend, Hrequest.
  unfold outcome, after. destruct (handleApplicationModeEnd t) as [c t'] eqn:Hrun. cbn.
  intros ->. revert Hrun. unfold handleApplicationModeEnd.
  unfold bind at 1, gets at 1. cbn.
  destruct (applicationMode t) eqn:Hm; try contradiction.
  - cbn. discriminate.
  - unfold bind at 1.
    destruct (handleApplicationModeBracketStart t) as [[[]|e'] t1]; cbn in *;
      [discriminate|].
    intros [= <- <-]. injection Hstart as -> ->. now split.
  - unfold bind at 1.
    destruct (handleApplicationModeBracketEnd t) as [[[]|e'] t1]; cbn in *;
      [discriminate|].
    intros [= <- <-]. injection Hend as -> ->. now split.
  - unfold bind at 1, gets at 1. cbn. unfold bind at 1.
    destruct (handleRequestFrame (applicationModeData t) t) as [[[]|e'] t1]; cbn in *;
      [discriminate|].
    intros [= <- <-]. injection Hrequest as -> ->. now split.
Qed.

(** ** The cap on the scrollback lines *)

(** X28. Where every frame holds a block of its own and the cap is above minus
    the viewport height, [#enforceScrollbackLinesSize] returns and the
    scrollback rows that the frames retain are at most the cap and the
    viewport height together: the count of the loop starts at minus the
    viewport height, so that many rows more than the cap stay. A terminal
    that retains fewer rows than that is left as it is. With a cap at or
    below minus the viewport height the first loop does not run and the
    access after it throws a TypeError. *)
Theorem scrollback_lines_cap_where_every_frame_holds_a_block (t : Terminal)
    (size : TerminalSize) (maxLines : Z) :
  computeTerminalSize t = Some size ->
  (- rows size < maxLines ->
   forallb (hasBlock t) (blockFrames t) = true ->
   NoDup (heldBlocks t) ->
   exists t',
     enforceScrollbackLinesSize maxLines t = (Normal tt, t')
     /\ retainedRows t' (blockFrames t') <= maxLines + rows size
     /\ (retainedRows t (blockFrames t) < maxLines + rows size -> t' = t))
  /\ (maxLines <= - rows size ->
      enforceScrollbackLinesSize maxLines t = (Throw TypeError, t)).
Proof.
  intros Hsize. split.
  - intros Hcap Hblocks Hnodup.
    destruct (enforceScrollbackLinesSize_bound t size maxLines Hsize Hcap Hblocks Hnodup)
      as (t' & Hrun & Hbound).
    unfold rowsOutsideViewport in Hbound.
    exists t'. split; [exact Hrun|]. split; [lia|].
    intros Hunder.
    assert (Hsame : enforceScrollbackLinesSize maxLines t = (Normal tt, t)).
    { apply (enforceScrollbackLinesSize_under_cap t size maxLines Hsize).
      unfold rowsOutsideViewport. lia. }
    congruence.
  - now apply enforceScrollbackLinesSize_cap_below_viewport.
Qed.

End TerminalFacts.

(** * Scenarios

    The properties above at concrete terminals. *)

Example trim_strips_both_ends : trim "  42 ls -la  " = "42 ls -la".
Proof. reflexivity. Qed.

Example split_on_white_space_runs :
  splitWhitespace "git   status -s" = ["git"; "status"; "-s"].
Proof. reflexivity. Qed.

Example split_keeps_empty_ends : splitWhitespace " ls " = [""; "ls"; ""].
Proof. reflexivity. Qed.

Example slice_without_space_keeps_last_character : cleanBashCommandLine "ls" = "s".
Proof. reflexivity. Qed.

Example parseInt_reads_leading_digits : parseInt " -12abc" = Num (-12).
Proof. reflexivity. Qed.

Example parseInt_without_digits : parseInt "abc" = NaN.
Proof. reflexivity. Qed.

(** 2^53 + 1 is no double: the even neighbour 2^53 is the Number. *)
Example parseInt_rounds_to_double :
  parseInt "9007199254740993" = Num 9007199254740992
  /\ parseInt "9007199254740995" = Num 9007199254740996
  /\ parseInt "-9007199254740993" = Num (-9007199254740992).
Proof. vm_compute. repeat split; reflexivity. Qed.

(** Scenario B of the spec, with a rule that frames [ls] above five lines:
    six lines of output and exit code 0 give one frame for ["ls -la"]. *)
Example scenario_B_one_frame :
  let started := sendSequence ["abc123"; "2"; "bash"] "42 ls -la" neverFraming in
  let printed := after (appendScrollbackLines 0 ["1"; "2"; "3"; "4"; "5"; "6"]) started in
  let ended := sendSequence ["abc123"; "3"] "0" printed in
  blockFrames ended = [0; 1; 2]%nat
  /\ cells (blocks ended) 1%nat
     = BlockTerminal {| scrollback := ["1"; "2"; "3"; "4"; "5"; "6"];
                        boundToEmulator := false;
                        commandLine := Some "ls -la";
                        returnCode := Some (Num 0) |}.
Proof. vm_compute. split; reflexivity. Qed.

(** The same with five lines: the threshold is not passed, no frame. *)
Example scenario_B_at_threshold_stays_inline :
  let started := sendSequence ["abc123"; "2"; "bash"] "42 ls -la" neverFraming in
  let printed := after (appendScrollbackLines 0 ["1"; "2"; "3"; "4"; "5"]) started in
  blockFrames (sendSequence ["abc123"; "3"] "0" printed) = [0%nat].
Proof. vm_compute. reflexivity. Qed.

(** Witness of C1: scenario A, an introducer with another cookie. *)
Lemma wrong_cookie_witness :
  outcome (handleApplicationModeStart ["zzz999"; "2"; "bash"]) scenarioA
  = Normal (respond ABORT)
  /\ applicationMode (after (handleApplicationModeStart ["zzz999"; "2"; "bash"]) scenarioA)
     = applicationMode scenarioA
  /\ cookie (after (handleApplicationModeStart ["zzz999"; "2"; "bash"]) scenarioA)
     = cookie scenarioA
  /\ after (handleApplicationModeStart ["zzz999"; "2"; "bash"]) scenarioA
     = set_applicationModeData (Some "") scenarioA.
Proof.
  apply handleApplicationModeStart_rejects_wrong_cookie.
  right. exists "zzz999", ["2"; "bash"]. split; [reflexivity|].
  vm_compute. discriminate.
Defined.

(** The block of the first frame while [make all] runs inline. *)
Definition runningBlock : TerminalBlock :=
  {| scrollback := []; boundToEmulator := true; commandLine := None; returnCode := None |}.

(** Counterexample to C2 as stated: [make all] matches a never_frame rule,
    the decision with the known line count says no, no empty decorated
    frame is pending, and still the BRACKET_END with exit code ["1"]
    appends a new frame. *)
Lemma failed_command_framed_though_no_rule_passes :
  outcome findEmptyDecoratedFrame inlineStarted = Normal None
  /\ outcome (commandNeedsFrame (lastCommandLine inlineStarted) 0)
             (after moveCursorToFreshLine inlineStarted) = Normal false
  /\ blockFrames inlineStarted = [0%nat]
  /\ blockFrames (after (closeLastEmbeddedViewer (Some "1")) inlineStarted)
     = [0; 1; 2]%nat.
Proof. vm_compute. repeat split; reflexivity. Qed.

(** Witness of C2, amended: the same command ending with exit code ["0"]. *)
Lemma successful_command_not_framed_witness :
  closeLastEmbeddedViewer (Some "0") inlineStarted
  = (Normal tt, after moveCursorToFreshLine inlineStarted)
  /\ blockFrames (after moveCursorToFreshLine inlineStarted) = blockFrames inlineStarted
  /\ frames (after moveCursorToFreshLine inlineStarted) = frames inlineStarted
  /\ blocks (after moveCursorToFreshLine inlineStarted) = blocks inlineStarted.
Proof.
  apply (successful_command_without_passing_rule_not_framed
           inlineStarted 0%nat 0%nat runningBlock); reflexivity.
Defined.

(** [make all], which a never_frame rule matches, ends with exit code
    ["1"] and is framed. *)
Example failed_command_framed_inline :
  exists t' nb ntb,
    closeLastEmbeddedViewer (Some "1") inlineStarted = (Normal tt, t')
    /\ blockFrames t' = blockFrames inlineStarted ++ [1; 2]%nat
    /\ frameClass (cells (frames t') 1%nat) = DecoratedFrame
    /\ getBlock (cells (frames t') 1%nat) = Some nb
    /\ cells (blocks t') nb = BlockTerminal ntb
    /\ returnCode ntb = Some (Num 1)
    /\ commandLine ntb = Some "make all".
Proof.
  apply (failed_command_framed_whatever_the_rules
           inlineStarted (Some "1") 0%nat 0%nat runningBlock);
    try reflexivity.
  vm_compute. discriminate.
Qed.

(** The payload ["abc"], with a pending frame and without one. *)
Example unparsable_exit_code_closes_both_ways :
  (exists t' b tb',
      closeLastEmbeddedViewer (Some "abc") framedStarted = (Normal tt, t')
      /\ getBlock (cells (frames t') 1%nat) = Some b
      /\ cells (blocks t') b = BlockTerminal tb'
      /\ returnCode tb' = Some (Num (-1))
      /\ commandLine tb' = lastCommandLine framedStarted)
  /\ (exists t' nb ntb,
      closeLastEmbeddedViewer (Some "abc") inlineStarted = (Normal tt, t')
      /\ blockFrames t' = blockFrames inlineStarted
                          ++ [next (frames inlineStarted); S (next (frames inlineStarted))]
      /\ getBlock (cells (frames t') (next (frames inlineStarted))) = Some nb
      /\ cells (blocks t') nb = BlockTerminal ntb
      /\ returnCode ntb = Some (Num (-1))
      /\ commandLine ntb = lastCommandLine inlineStarted).
Proof.
  split.
  - apply (proj1 (unparsable_exit_code_still_closes_frame
                    framedStarted (Some "abc") eq_refl) 1%nat 2%nat); reflexivity.
  - apply (proj2 (unparsable_exit_code_still_closes_frame
                    inlineStarted (Some "abc") eq_refl) 0%nat 0%nat runningBlock);
      reflexivity.
Qed.

(** C3 at the input where the code departs from it: [bash] was framed,
    [make all] ran inside it, and the BRACKET_END of [make all] closed the
    frame of [bash] with the last bare terminal block frame, which is the
    viewer of the last command: that frame has left [#blockFrames] and
    holds no block. No empty decorated frame is pending. The BRACKET_END
    of [bash] with exit code ["1"] throws a TypeError and no frame is
    created. *)
Lemma failed_command_after_nested_brackets_not_framed :
  outcome findEmptyDecoratedFrame innerEnded = Normal None
  /\ blockFrames innerEnded = [0; 1; 3]%nat
  /\ lastCommandTerminalViewer innerEnded = Some 2%nat
  /\ getBlock (cells (frames innerEnded) 2%nat) = None
  /\ outcome (closeLastEmbeddedViewer (Some "1")) innerEnded = Throw TypeError
  /\ blockFrames (after (closeLastEmbeddedViewer (Some "1")) innerEnded) = [0; 1; 3]%nat
  /\ outcome handleApplicationModeEnd (outerEndReceived "1") = Throw TypeError
  /\ blockFrames (after handleApplicationModeEnd (outerEndReceived "1")) = [0; 1; 3]%nat.
Proof. vm_compute. repeat split; reflexivity. Qed.

(** C4 at the input where the code departs from it: the same terminal, and
    a BRACKET_END whose payload ["abc"] does not parse. The close throws a
    TypeError before the payload is parsed: no frame is closed and no
    block gets the command line or an exit code. *)
Lemma unparsable_exit_code_after_nested_brackets_raises :
  parseReturnCode (Some "abc") = NaN
  /\ outcome findEmptyDecoratedFrame innerEnded = Normal None
  /\ outcome (closeLastEmbeddedViewer (Some "abc")) innerEnded = Throw TypeError
  /\ outcome handleApplicationModeEnd (outerEndReceived "abc") = Throw TypeError
  /\ blockFrames (after handleApplicationModeEnd (outerEndReceived "abc"))
     = blockFrames innerEnded
  /\ heldBlocks (after handleApplicationModeEnd (outerEndReceived "abc"))
     = heldBlocks innerEnded
  /\ map (fun b => cells (blocks (after handleApplicationModeEnd (outerEndReceived "abc"))) b)
         [0; 1; 2]%nat
     = map (fun b => cells (blocks innerEnded) b) [0; 1; 2]%nat.
Proof. vm_compute. repeat split; reflexivity. Qed.


(** The terminal when the payload of a BRACKET_START has arrived. *)
Definition bracketStartReceived (params : list string) (payload : string)
  : ScenarioTerminal :=
  after (handleApplicationModeData payload)
    (after (handleApplicationModeStart params) neverFraming).


(** Counterexample to C6 as stated: no per-command rule exists and the
    global rule is always_frame, so the claim's mapping says [true]; for a
    blank command line the guard answers [false] before any rule is
    read. *)
Lemma blank_command_line_never_framed :
  getCommandLineActionConfig (scenarioConfig [] always_frame 0 50) = Some []
  /\ configDatabase alwaysFraming = Some (scenarioConfig [] always_frame 0 50)
  /\ outcome (commandNeedsFrame (Some "  ") 10) alwaysFraming = Normal false
  /\ outcome (commandNeedsFrame (Some "  ") 10) alwaysFraming
     <> Normal (frameRuleSays always_frame 0 10).
Proof.
  split; [reflexivity|]. split; [reflexivity|]. split; [reflexivity|].
  vm_compute. discriminate.
Qed.

(** Witness of C6, amended: [ls -la] with ten lines of output passes the
    [make] rule and is decided by the [ls] rule; a blank command line is
    not framed where everything is. *)
Lemma first_matching_rule_witness :
  commandNeedsFrame (Some "ls -la") 10 neverFraming = (Normal true, neverFraming)
  /\ commandNeedsFrame (Some "ls -la") (-1) neverFraming = (Normal false, neverFraming)
  /\ commandNeedsFrame (Some "  ") 10 alwaysFraming = (Normal false, alwaysFraming)
  /\ commandNeedsFrame None 10 alwaysFraming = (Normal false, alwaysFraming).
Proof.
  split; [|split; [|split]].
  - apply (proj1 (proj1 (commandNeedsFrame_first_matching_rule neverFraming 10)
                    (scenarioConfig [makeNeverFramed; lsFramedAboveFive] never_frame 0 50)
                    "ls -la" eq_refl ltac:(vm_compute; discriminate))
                 [makeNeverFramed] lsFramedAboveFive []);
      [reflexivity|repeat constructor|reflexivity].
  - apply (proj1 (proj1 (commandNeedsFrame_first_matching_rule neverFraming (-1))
                    (scenarioConfig [makeNeverFramed; lsFramedAboveFive] never_frame 0 50)
                    "ls -la" eq_refl ltac:(vm_compute; discriminate))
                 [makeNeverFramed] lsFramedAboveFive []);
      [reflexivity|repeat constructor|reflexivity].
  - apply (proj1 (proj2 (commandNeedsFrame_first_matching_rule alwaysFraming 10))).
    right. now exists "  ".
  - apply (proj1 (proj2 (commandNeedsFrame_first_matching_rule alwaysFraming 10))).
    now left.
Defined.

(** C7 at the input where the code departs from it: a terminal in SHOW_FILE
    mode. After [#handleApplicationModeEnd] has returned, the mode is still
    SHOW_FILE and the buffer still holds the empty string of the start. *)
Lemma show_file_end_keeps_mode_and_buffer :
  applicationMode showingFile = APPLICATION_MODE_SHOW_FILE
  /\ outcome handleApplicationModeEnd showingFile = Normal (respond CONTINUE)
  /\ applicationMode (after handleApplicationModeEnd showingFile)
     = APPLICATION_MODE_SHOW_FILE
  /\ applicationModeData (after handleApplicationModeEnd showingFile) = Some "".
Proof. vm_compute. repeat split; reflexivity. Qed.

(** C8 at the input where the code departs from it: two empty decorated
    frames are pending and the newest block grows by ten rows. The block is
    trimmed and the oldest frame removed, then the removal reaches the
    first empty decorated frame, whose block is [null]: a TypeError. The
    two rows between the pending frames stay, and seven rows are retained
    outside the viewport under a cap of five. *)
Lemma scrollback_cap_exceeded_with_pending_frames :
  let overflowing := after (appendScrollbackLines 2 tenRows) nestedStarted in
  heldBlocks nestedStarted = [Some 0; None; Some 1; None; Some 2]%nat
  /\ computeTerminalSize nestedStarted = Some twoRows
  /\ outcome (appendScrollbackLines 2 tenRows) nestedStarted = Throw TypeError
  /\ blockFrames overflowing = [1; 2; 3; 4]%nat
  /\ map (scrollbackRows overflowing) (blockFrames overflowing) = [0; 2; 0; 7]
  /\ rowsOutsideViewport overflowing twoRows = 7
  /\ 7 > 5.
Proof. vm_compute. repeat split; reflexivity. Qed.

(** Where every frame holds a block, the cap holds: three commands, two
    rows over the cap; the framed [ls] loses its two oldest rows and keeps
    its command line and exit code, the frame before it goes. *)
Example scrollback_cap_trims_straddling_block :
  let grown := after (appendScrollbackLines 2 ["j"; "k"; "l"]) threeCommands in
  outcome (appendScrollbackLines 2 ["j"; "k"; "l"]) threeCommands = Normal tt
  /\ blockFrames threeCommands = [0; 1; 3]%nat
  /\ blockFrames grown = [1; 3]%nat
  /\ cells (blocks grown) 1%nat
     = BlockTerminal {| scrollback := ["f"; "g"; "h"; "i"]; boundToEmulator := false;
                        commandLine := Some "ls"; returnCode := Some (Num 0) |}
  /\ rowsOutsideViewport grown twoRows = 5.
Proof. vm_compute. repeat split; reflexivity. Qed.

(** Witness of C9: frame ["8"] is unknown and the pty receives the error
    marker; frame ["7"] is known, an upload is started and its transfer
    writes the payload of the frame. *)
Lemma request_frame_witness :
  (outcome (handleRequestFrame (Some "8")) replaying = Normal tt
   /\ pty (after (handleRequestFrame (Some "8")) replaying)
      = Some {| written := ["#error" +:+ String (ascii_of_nat 10) ""] |}
   /\ String.length ("#error" +:+ String (ascii_of_nat 10) "") = 7%nat
   /\ uploaders (after (handleRequestFrame (Some "8")) replaying) = uploaders replaying
   /\ inputStreamFilters (after (handleRequestFrame (Some "8")) replaying) = [])
  /\ (let started := after (handleRequestFrame (Some "7")) replaying in
      outcome (handleRequestFrame (Some "7")) replaying = Normal tt
      /\ pty started = Some {| written := [] |}
      /\ cells (uploaders started) 0%nat
         = {| uploadFile := frameSeven; uploadHasPty := true; uploadState := Uploading |}
      /\ inputStreamFilters started = [0%nat]
      /\ pty (after (transferUpload 0) started) = Some {| written := ["seven rows"] |}).
Proof.
  split.
  - destruct (proj1 (request_frame_unknown_identifier_writes_error
                       replaying (Some "8") findSeven eq_refl) eq_refl)
      as (_ & Hrun & Huploaders & Hfilters & Hpty).
    split; [exact Hrun|]. split; [exact (Hpty _ eq_refl)|]. split; [reflexivity|].
    split; [exact Huploaders|exact Hfilters].
  - destruct (proj2 (request_frame_unknown_identifier_writes_error
                       replaying (Some "7") findSeven eq_refl) frameSeven eq_refl)
      as (Hrun & Hpty & Hcell & _ & Hfilters & Htransfer).
    split; [exact Hrun|]. split; [exact Hpty|]. split; [exact Hcell|].
    split; [exact Hfilters|].
    change (pty (transferUpload (next (uploaders replaying))
                   (after (handleRequestFrame (Some "7")) replaying)).2
            = Some {| written := ["seven rows"] |}).
    now rewrite (Htransfer {| written := [] |} eq_refl).
Defined.

(** Witness of C10: while frame ["7"] is uploaded, the input ["ab"] is
    swallowed and the input ["ab\x03cd"] aborts the upload and sends
    ["cd"]. *)
Lemma upload_filter_witness :
  let interrupted := "ab" +:+ String (ascii_of_nat 3) "cd" in
  handleTermData "ab" uploading = (Normal tt, uploading)
  /\ outcome (uploadInputFilter 0 interrupted) uploading = Normal "cd"
  /\ outcome (handleTermData interrupted) uploading = Normal tt
  /\ uploadState (cells (uploaders (after (handleTermData interrupted) uploading)) 0%nat)
     = UploadAborted
  /\ inputStreamFilters uploading = [0%nat]
  /\ inputStreamFilters (after (handleTermData interrupted) uploading) = []
  /\ pty uploading = Some {| written := [] |}
  /\ pty (after (handleTermData interrupted) uploading) = Some {| written := ["cd"] |}.
Proof.
  intros interrupted.
  assert (Hquiet : ~ hasByte 3 "ab") by (intros [Hc|[Hc|[]]]; discriminate Hc).
  assert (Hhas : hasByte 3 interrupted) by (right; right; now left).
  destruct (upload_filter_suppresses_input_until_interrupt uploading)
    as (_ & Hswallowed & Hfilter & Hinterrupt & _).
  split; [apply Hswallowed; [discriminate|exact Hquiet]|].
  destruct (Hfilter 0%nat interrupted Hhas)
    as (pre & post & Hsplit & Hpre & Hanswer & _).
  destruct (Hinterrupt 0%nat interrupted eq_refl Hhas)
    as (pre' & post' & Hsplit' & Hpre' & Hrun & Haborted & Hfilters & Hpty).
  assert (Hpost : post = "cd").
  { destruct pre as [|a [|b [|c pre]]]; cbn in Hsplit; injection Hsplit as ? ? ?; subst;
      try discriminate; try reflexivity;
      exfalso; apply Hpre; right; right; now left. }
  assert (Hpost' : post' = "cd").
  { destruct pre' as [|a [|b [|c pre']]]; cbn in Hsplit'; injection Hsplit' as ? ? ?; subst;
      try discriminate; try reflexivity;
      exfalso; apply Hpre'; right; right; now left. }
  subst post post'.
  split; [exact Hanswer|]. split; [exact Hrun|]. split; [exact Haborted|].
  split; [reflexivity|]. split; [exact Hfilters|]. split; [reflexivity|exact Hpty].
Defined.

(** * Scenarios of the further properties *)

(** Witness of X1: the words of a command line may be any white space apart. *)
Lemma name_rule_witness :
  commandLineActionMatches "ls   -la" lsFramedAboveFive = Normal true.
Proof.
  destruct (name_rule_matches_leading_words "ls   -la" lsFramedAboveFive eq_refl)
    as [_ [_ Hwords]].
  apply Hwords. now exists ["-la"].
Defined.

(** Witness of X2: the rule ["ls "] does not match the command [ls]. *)
Lemma name_rule_with_trailing_space_witness :
  commandLineActionMatches "ls" lsWithSpace = Normal false.
Proof.
  apply (proj1 (proj2 (name_rule_with_white_space_at_its_ends_never_matches
                         "ls" lsWithSpace eq_refl)) "ls" " "%char);
    reflexivity.
Defined.

(** Witness of X3: [ls -la] passes the rule for [make] and reaches the
    pattern ["("]. *)
Lemma malformed_pattern_witness :
  commandNeedsFrame (H1 := strictPatterns) (Some "ls -la") (-1) patterned
  = (Throw SyntaxError, patterned).
Proof.
  apply (malformed_pattern_rule_throws (H1 := strictPatterns) patterned patternRules
           "ls -la" (-1) [makeNeverFramed] [] unclosedGroup);
    try reflexivity.
  - vm_compute. discriminate.
  - repeat constructor.
Defined.

(** Witness of X4: the payload [" ls "], whose trimmed text has no space. *)
Lemma bash_payload_without_space_witness : cleanBashCommandLine " ls " = "s".
Proof.
  apply (proj1 (bash_payload_without_space_keeps_last_character " ls " eq_refl)
               "l" "s"%char).
  reflexivity.
Defined.

(** Witness of X6: the start of a BRACKET_START and a chunk of its payload. *)
Lemma input_handling_witness :
  framesPart (after (handleApplicationModeStart ["abc123"; "2"; "bash"]) scenarioA)
  = framesPart scenarioA
  /\ framesPart (after (handleApplicationModeData "42 ls")
                   (bracketStartReceived ["abc123"; "2"; "bash"] ""))
     = framesPart (bracketStartReceived ["abc123"; "2"; "bash"] "").
Proof.
  destruct (input_handling_leaves_frames_alone (E := ScreenEmulator) (D := unit)
              ["abc123"; "2"; "bash"] "42 ls" "" "" None 0)
    as (_ & _ & _ & _ & Hstart & Hdata).
  split; [apply Hstart|apply Hdata]; vm_compute; discriminate.
Defined.

(** Witness of X7: the introducer of a bash BRACKET_START on a new terminal. *)
Lemma start_with_cookie_witness :
  applicationMode (after (handleApplicationModeStart ["abc123"; "2"; "bash"]) scenarioA)
  = APPLICATION_MODE_OUTPUT_BRACKET_START
  /\ bracketStyle (after (handleApplicationModeStart ["abc123"; "2"; "bash"]) scenarioA)
     = Some "bash".
Proof.
  destruct (start_with_cookie_selects_sub_mode scenarioA
              APPLICATION_MODE_OUTPUT_BRACKET_START ["bash"] ltac:(discriminate))
    as (Hmode & _ & Hstyle & _).
  split; [exact Hmode|exact (Hstyle eq_refl)].
Defined.

(** Witness of X8: sub-mode ["9"] does not exist, and the terminal that was
    showing a file goes on in that mode. *)
Lemma unknown_sub_mode_witness :
  outcome (handleApplicationModeStart ["abc123"; "9"]) showingFile
  = Normal (respond CONTINUE)
  /\ applicationMode (after (handleApplicationModeStart ["abc123"; "9"]) showingFile)
     = APPLICATION_MODE_SHOW_FILE.
Proof.
  destruct (proj2 (start_without_known_sub_mode showingFile "9" []))
    as (Hcontinue & Hmode & _).
  - intros mode _. destruct mode; discriminate.
  - split; [exact Hcontinue|exact Hmode].
Defined.

(** Witness of X9: [ls -la] delivered as ["ls"] and [" -la"] after the payload ["42 "]. *)
Lemma payload_chunks_witness :
  let collectingStart := bracketStartReceived ["abc123"; "2"; "bash"] "42 " in
  after (handleApplicationModeData " -la")
    (after (handleApplicationModeData "ls") collectingStart)
  = after (handleApplicationModeData "ls -la") collectingStart.
Proof.
  exact (proj2 (proj1 (payload_chunks_accumulate
                         (bracketStartReceived ["abc123"; "2"; "bash"] "42 ")
                         "ls" " -la") "42 " eq_refl eq_refl)).
Defined.

(** Witness of X10: a chunk after the start of a BRACKET_START. *)
Lemma buffer_witness :
  bufferReady (after (handleApplicationModeData "ls")
                 (bracketStartReceived ["abc123"; "2"; "bash"] "42 ")).
Proof.
  apply (buffer_is_text_while_collecting
           (bracketStartReceived ["abc123"; "2"; "bash"] "42 ") [] "ls").
  intros _. now exists "42 ".
Defined.

(** Witness of X11: after [make all] has ended, it is the last command. *)
Lemma bracket_end_environment_witness :
  environment (after handleApplicationModeBracketEnd bracketEndReceived)
    EXTRATERM_LAST_COMMAND_LINE = Some "make all"
  /\ environment (after handleApplicationModeBracketEnd bracketEndReceived)
       EXTRATERM_LAST_COMMAND = Some "make"
  /\ environment (after handleApplicationModeBracketEnd bracketEndReceived)
       EXTRATERM_EXIT_CODE = Some "".
Proof.
  assert (Hrun : outcome handleApplicationModeBracketEnd bracketEndReceived = Normal tt)
    by reflexivity.
  destruct (bracket_end_moves_current_command_to_last bracketEndReceived Hrun)
    as (Hexit & _ & _ & Hlast & _).
  destruct Hlast as [Hline Hcommand]; [now exists "make"|].
  split; [exact Hline|]. split; [exact Hcommand|exact Hexit].
Defined.

(** Witness of X12: the payload ["42 ls -la"] under bash. *)
Lemma bracket_start_environment_witness :
  let received := bracketStartReceived ["abc123"; "2"; "bash"] "42 ls -la" in
  environment (after handleApplicationModeBracketStart received)
    EXTRATERM_CURRENT_COMMAND_LINE = Some "ls -la"
  /\ environment (after handleApplicationModeBracketStart received)
       EXTRATERM_CURRENT_COMMAND = Some "ls".
Proof.
  intros received.
  assert (Hrun : outcome handleApplicationModeBracketStart received = Normal tt)
    by reflexivity.
  destruct (bracket_start_publishes_command received "42 ls -la" eq_refl Hrun)
    as (_ & Hline & Hcommand & _).
  split; [exact Hline|exact Hcommand].
Defined.

(** Witness of X13: the frames of [threeCommands] are a bare frame, the frame
    of [ls] and a bare frame. *)
Lemma findLastDecoratedFrame_witness :
  outcome findLastDecoratedFrame threeCommands = Normal (Some 1%nat).
Proof.
  destruct (proj2 (findLastDecoratedFrame_skips_first_frame threeCommands)
                  0%nat [1; 3]%nat eq_refl) as (_ & Hlast & _).
  apply Hlast. exists [], [3%nat]. repeat split. repeat constructor.
Defined.

(** Witness of X14: the pending frame of a running command. *)
Lemma findEmptyDecoratedFrame_witness :
  outcome findEmptyDecoratedFrame framedStarted = Normal (Some 1%nat).
Proof.
  destruct (proj1 (proj2 (findEmptyDecoratedFrame_skips_first_frame framedStarted))
                  0%nat [1; 2]%nat eq_refl) as (Hlast & _).
  apply Hlast. exists [], [2%nat]. repeat split. repeat constructor.
Defined.

(** Witness of X15: the frame of [ls] is taken out; the pending frame of a running
    command is not. *)
Lemma destroyFrame_witness :
  destroyFrame 1 threeCommands = (Normal tt, set_blockFrames [0; 3]%nat threeCommands)
  /\ destroyFrame 1 framedStarted = (Throw TypeError, framedStarted).
Proof.
  split.
  - apply (proj1 (destroyFrame_removes_one_frame threeCommands 1) [0%nat] [3%nat] 1%nat);
      [reflexivity|intros [[=]|[]]|reflexivity].
  - now apply (proj2 (proj2 (destroyFrame_removes_one_frame framedStarted 1))).
Defined.

(** Witness of X16: the same two terminals. *)
Lemma commandDeleteLastFrame_witness :
  commandDeleteLastFrame threeCommands
  = (Normal tt, set_blockFrames [0; 3]%nat threeCommands)
  /\ commandDeleteLastFrame framedStarted = (Throw TypeError, framedStarted).
Proof.
  split.
  - apply (proj1 (proj2 (commandDeleteLastFrame_deletes_last_decorated_frame threeCommands)
                   [0%nat] 1%nat [3%nat] eq_refl eq_refl ltac:(repeat constructor))
                 1%nat eq_refl).
    intros [[=]|[]].
  - now apply (proj2 (proj2 (commandDeleteLastFrame_deletes_last_decorated_frame
                               framedStarted)
                        [0%nat] 1%nat [2%nat] eq_refl eq_refl ltac:(repeat constructor))).
Defined.

(** Witness of X17: the block of an extension appended to a new terminal. *)
Lemma appendExtensionBlock_witness :
  outcome (appendExtensionBlock 7) scenarioA = Normal 1%nat
  /\ blockFrames (after (appendExtensionBlock 7) scenarioA) = [0; 1; 2]%nat
  /\ getBlock (cells (frames (after (appendExtensionBlock 7) scenarioA)) 1%nat) = Some 7%nat
  /\ lastCommandTerminalViewer (after (appendExtensionBlock 7) scenarioA) = Some 2%nat.
Proof.
  destruct (appendExtensionBlock_appends_two_frames
              scenarioA (after (appendExtensionBlock 7) scenarioA) 7 1)
    as (_ & _ & _ & _ & _ & Hviewer); [vm_compute; reflexivity|].
  split; [vm_compute; reflexivity|]. split; [vm_compute; reflexivity|].
  split; [vm_compute; reflexivity|].
  rewrite Hviewer. vm_compute. reflexivity.
Defined.

(** Witness of X18: five frames under a cap of ten. *)
Lemma enforceScrollbackFrameSize_under_cap_witness :
  enforceScrollbackFrameSize 10 twoFramedCommands = (Normal tt, twoFramedCommands).
Proof.
  apply (proj1 (proj2 (enforceScrollbackFrameSize_under_cap twoFramedCommands 10)));
    vm_compute; discriminate.
Defined.

(** Witness of X19: over a cap of one frame, the oldest of the five frames
    goes. *)
Lemma enforceScrollbackFrameSize_witness :
  exists chopped kept,
    [0; 1; 3; 4]%nat = chopped ++ kept
    /\ enforceScrollbackFrameSize 1 twoFramedCommands
       = (Normal tt, set_blockFrames (kept ++ [6%nat]) twoFramedCommands)
    /\ enforceScrollbackFrameSize 1 (set_blockFrames (kept ++ [6%nat]) twoFramedCommands)
       = (Normal tt, set_blockFrames (kept ++ [6%nat]) twoFramedCommands).
Proof.
  apply (enforceScrollbackFrameSize_keeps_newest_frames twoFramedCommands twoRows 1
           [0; 1; 3; 4]%nat 6%nat); (reflexivity || lia).
Defined.

(** Witness of X20: a terminal with a pending frame, and one whose frames all hold
    a block. *)
Lemma dispose_witness :
  dispose framedStarted = (Throw TypeError, framedStarted)
  /\ pty (after dispose uploading) = None.
Proof.
  split.
  - now apply (proj2 (dispose_needs_a_block_in_every_frame framedStarted)
                     [0%nat] 1%nat [2%nat]).
  - now apply (proj1 (dispose_needs_a_block_in_every_frame uploading)).
Defined.

(** Witness of X21: frame ["7"] is requested and its upload finishes. *)
Lemma finished_upload_witness :
  inputStreamFilters
    (after (handleUploadFinished 0) (after (handleRequestFrame (Some "7")) replaying))
  = [].
Proof.
  apply (finished_upload_releases_input replaying findSeven (Some "7") frameSeven);
    [reflexivity|reflexivity|intros []].
Defined.

(** Witness of X22: the input [ab], the interrupt byte, [cd] during two uploads. *)
Lemma one_interrupt_witness :
  let interrupted := "ab" +:+ String (ascii_of_nat 3) "cd" in
  inputStreamFilters uploadingTwice = [0; 1]%nat
  /\ inputStreamFilters (after (handleTermData interrupted) uploadingTwice) = [1%nat]
  /\ uploadState (cells (uploaders (after (handleTermData interrupted) uploadingTwice)) 0%nat)
     = UploadAborted
  /\ pty (after (handleTermData interrupted) uploadingTwice) = pty uploadingTwice.
Proof.
  intros interrupted.
  assert (Hab : ~ hasByte 3 "ab") by (intros [Hc|[Hc|[]]]; discriminate Hc).
  assert (Hcd : ~ hasByte 3 "cd") by (intros [Hc|[Hc|[]]]; discriminate Hc).
  destruct (one_interrupt_aborts_the_oldest_upload uploadingTwice 0 1 "ab" "cd"
              eq_refl ltac:(discriminate) Hab Hcd)
    as (_ & Hfilters & Haborted & _ & Hpty).
  split; [reflexivity|]. split; [exact Hfilters|]. split; [exact Haborted|exact Hpty].
Defined.

(** Witness of X25: the terminal with a framed command running. *)
Lemma one_block_witness : live framedStarted.
Proof.
  destruct (one_block_shows_the_screen (Some (scenarioConfig [] always_frame 0 50)) 1
              None "abc123" blankScreen tt ["abc123"; "2"; "bash"] "7 make all"
              "" "" "" None frameSeven 0)
    as (Hnew & Hstart & Hdata & Hend & _).
  apply (Hend _ (respond CONTINUE)); [|reflexivity].
  apply (Hdata _ (respond CONTINUE)); [|reflexivity].
  apply (Hstart _ (respond CONTINUE)); [exact Hnew|reflexivity].
Defined.

(** Witness of X27: the end of a bash BRACKET_START. *)
Lemma application_mode_end_witness :
  applicationMode
    (after handleApplicationModeEnd
       (bracketStartReceived ["abc123"; "2"; "bash"] "42 ls -la"))
  = APPLICATION_MODE_NONE.
Proof.
  apply (proj1 (application_mode_end_resets_or_stays
                  (bracketStartReceived ["abc123"; "2"; "bash"] "42 ls -la")
                  ltac:(discriminate))
               (respond CONTINUE) eq_refl).
Defined.

(** Witness of X28: three frames that retain seven rows, a viewport of two
    rows and a cap of three lines: five rows stay. *)
Lemma scrollback_lines_cap_witness :
  retainedRows threeCommands (blockFrames threeCommands) = 7
  /\ exists t',
       enforceScrollbackLinesSize 3 threeCommands = (Normal tt, t')
       /\ retainedRows t' (blockFrames t') <= 3 + 2.
Proof.
  split; [reflexivity|].
  destruct (proj1 (scrollback_lines_cap_where_every_frame_holds_a_block
                     threeCommands twoRows 3 eq_refl))
    as (t' & Hrun & Hbound & _); [reflexivity|reflexivity| |].
  - apply (bool_decide_eq_true_1 (NoDup (heldBlocks threeCommands))). reflexivity.
  - exists t'. split; [exact Hrun|exact Hbound].
Defined.
